(** * app-clinica: patients, appointments and the 20-appointment retention rule

    A shallow embedding of [src/app.py] (a Flask application over
    Flask-SQLAlchemy and SQLite) and the properties of its request
    handlers [registrar], [citas], [modificar_paciente] and
    [eliminar_paciente].

    - The two tables are lists of rows in rowid order.
    - A request handler is a computation in a small state monad over the
      SQLAlchemy session: the rows the session sees, the states made
      durable by [db.session.commit()], and the flashed messages.
    - A form text is a [string]: the bytes of its UTF-8 encoding.  The
      date patterns are [str] patterns, whose [\d] matches every decimal
      digit of Unicode; the classes [[0-2]], [[1-9]] and the like match
      ASCII digits only. *)

From Stdlib Require Import ZArith List String Ascii Bool Lia.
From Stdlib Require Import Permutation Sorted.
Import ListNotations.
Local Open Scope string_scope.
Local Open Scope list_scope.
Local Open Scope Z_scope.

(** ** Calendar values: [datetime.date] and [datetime.datetime] *)

(** [datetime.date]: a year, a month and a day, nothing else. *)
Record date := mk_date { year : Z; month : Z; day : Z }.

(** [datetime.datetime] as [strptime] builds it from ['%Y-%m-%dT%H:%M']:
    seconds and microseconds are always 0 and there is no tzinfo, so only
    five fields vary. *)
Record datetime := mk_datetime
  { dt_year : Z; dt_month : Z; dt_day : Z; dt_hour : Z; dt_minute : Z }.

Definition is_leap (y : Z) : bool :=
  (y mod 4 =? 0) && (negb (y mod 100 =? 0) || (y mod 400 =? 0)).

Definition days_in_month (y m : Z) : Z :=
  if m =? 2 then (if is_leap y then 29 else 28)
  else if (m =? 4) || (m =? 6) || (m =? 9) || (m =? 11) then 30
  else 31.

(** The check of the [date] constructor ([MINYEAR = 1], [MAXYEAR = 9999]);
    outside it Python raises [ValueError]. *)
Definition valid_date (y m d : Z) : bool :=
  (1 <=? y) && (y <=? 9999) && (1 <=? m) && (m <=? 12) &&
  (1 <=? d) && (d <=? days_in_month y m).

(** ** [datetime.strptime]

    CPython's [_strptime] turns the format into a regular expression
    (compiled with [IGNORECASE]), matches it at the start of the text,
    raises [ValueError] when nothing matches or when text is left after
    the match, and then builds the value, whose constructor raises
    [ValueError] for an impossible date.  A pattern is modelled by the
    list of its matches in the order a backtracking matcher tries them;
    the match found is the head of that list. *)

Definition Re (A : Type) : Type := list ascii -> list (A * list ascii).

Definition re_ret {A} (a : A) : Re A := fun s => [(a, s)].

Definition re_bind {A B} (p : Re A) (k : A -> Re B) : Re B :=
  fun s => flat_map (fun '(a, r) => k a r) (p s).

Definition re_alt {A} (p q : Re A) : Re A := fun s => p s ++ q s.

Declare Scope re_scope.
Delimit Scope re_scope with re.
Notation "x <~ p ;; k" := (re_bind p (fun x => k))
  (at level 61, p at next level, right associativity) : re_scope.
Notation "p ;;; k" := (re_bind p (fun _ => k))
  (at level 61, right associativity) : re_scope.
Infix "|||" := re_alt (at level 50, left associativity) : re_scope.

Definition digit_val (c : ascii) : Z := Z.of_nat (nat_of_ascii c) - 48.

(** One ASCII digit whose value lies in [lo..hi]: the class [[lo-hi]]. *)
Definition re_range (lo hi : Z) : Re Z := fun s =>
  match s with
  | c :: r => let v := digit_val c in
              if (lo <=? v) && (v <=? hi) then [(v, r)] else []
  | [] => []
  end.

(** *** [\d] on a text in UTF-8

    [datetime.strptime] is given a [str], and [\d] of a [str] pattern
    matches every character that the Unicode database classes as a decimal
    digit (category [Nd]); [int()] then reads such a digit as its value,
    so ['199' + U+0660] is the year 1990.  In the bytes of the text such a
    character takes one to four bytes. *)

Definition byte (c : ascii) : Z := Z.of_nat (nat_of_ascii c).

(** The six bits a continuation byte ([10xxxxxx]) carries. *)
Definition cont (c : ascii) : option Z :=
  let b := byte c in
  if (128 <=? b) && (b <=? 191) then Some (b - 128) else None.

(** The code point of the character the bytes start with, and the bytes
    after it; [None] where the bytes are not the UTF-8 of a character
    (too short, a stray or missing continuation byte, an overlong form, a
    surrogate, a value above U+10FFFF). *)
Definition utf8_head (s : list ascii) : option (Z * list ascii) :=
  match s with
  | [] => None
  | c :: r =>
      let b := byte c in
      if b <? 128 then Some (b, r)
      else if (194 <=? b) && (b <=? 223) then
        match r with
        | c1 :: r1 =>
            match cont c1 with
            | Some x1 => Some ((b - 192) * 64 + x1, r1)
            | None => None
            end
        | _ => None
        end
      else if (224 <=? b) && (b <=? 239) then
        match r with
        | c1 :: c2 :: r2 =>
            match cont c1, cont c2 with
            | Some x1, Some x2 =>
                let cp := ((b - 224) * 64 + x1) * 64 + x2 in
                if (2048 <=? cp) && negb ((55296 <=? cp) && (cp <=? 57343))
                then Some (cp, r2) else None
            | _, _ => None
            end
        | _ => None
        end
      else if (240 <=? b) && (b <=? 244) then
        match r with
        | c1 :: c2 :: c3 :: r3 =>
            match cont c1, cont c2, cont c3 with
            | Some x1, Some x2, Some x3 =>
                let cp := (((b - 240) * 64 + x1) * 64 + x2) * 64 + x3 in
                if (65536 <=? cp) && (cp <=? 1114111)
                then Some (cp, r3) else None
            | _, _, _ => None
            end
        | _ => None
        end
      else None
  end.

(** The decimal digits of Unicode come in runs of ten consecutive code
    points, the digits 0 to 9 of one script.  These are the code points of
    the zeros, from U+0030 (ASCII) and U+0660 (Arabic-Indic) to U+1FBF0:
    the 66 runs of Unicode 14.0.0, the database of CPython 3.11. *)
Definition nd_zeros : list Z :=
  [48; 1632; 1776; 1984; 2406; 2534; 2662; 2790;
   2918; 3046; 3174; 3302; 3430; 3558; 3664; 3792;
   3872; 4160; 4240; 6112; 6160; 6470; 6608; 6784;
   6800; 6992; 7088; 7232; 7248; 42528; 43216; 43264;
   43472; 43504; 43600; 44016; 65296; 66720; 68912; 69734;
   69872; 69942; 70096; 70384; 70736; 70864; 71248; 71360;
   71472; 71904; 72016; 72784; 73040; 73120; 92768; 92864;
   93008; 120782; 120792; 120802; 120812; 120822; 123200; 123632;
   125264; 130032].

Fixpoint decimal_in (zeros : list Z) (cp : Z) : option Z :=
  match zeros with
  | [] => None
  | z :: zeros' =>
      if (z <=? cp) && (cp <=? z + 9) then Some (cp - z)
      else decimal_in zeros' cp
  end.

(** The value of a decimal digit; [None] for any other character. *)
Definition decimal (cp : Z) : option Z := decimal_in nd_zeros cp.

(** [\d]: one character that is a decimal digit, read as its value. *)
Definition re_digit : Re Z := fun s =>
  match utf8_head s with
  | Some (cp, r) =>
      match decimal cp with
      | Some v => [(v, r)]
      | None => []
      end
  | None => []
  end.

(** A literal character of the format; letters match in either case. *)
Definition lower (c : ascii) : ascii :=
  let n := nat_of_ascii c in
  if (Nat.leb 65 n && Nat.leb n 90)%bool then ascii_of_nat (n + 32) else c.

Definition re_lit (c : ascii) : Re unit := fun s =>
  match s with
  | x :: r => if Ascii.eqb (lower x) (lower c) then [(tt, r)] else []
  | [] => []
  end.

Local Open Scope re_scope.

(** [%Y]: [\d\d\d\d]. *)
Definition re_Y : Re Z :=
  a <~ re_digit ;; b <~ re_digit ;; c <~ re_digit ;; d <~ re_digit ;;
  re_ret (((a * 10 + b) * 10 + c) * 10 + d).

(** [%m]: [1[0-2]|0[1-9]|[1-9]]. *)
Definition re_m : Re Z :=
      (a <~ re_range 1 1 ;; b <~ re_range 0 2 ;; re_ret (a * 10 + b))
  ||| (a <~ re_range 0 0 ;; b <~ re_range 1 9 ;; re_ret (a * 10 + b))
  ||| re_range 1 9.

(** [%d]: [3[01]|[12]\d|0[1-9]|[1-9]| [1-9]]. *)
Definition re_d : Re Z :=
      (a <~ re_range 3 3 ;; b <~ re_range 0 1 ;; re_ret (a * 10 + b))
  ||| (a <~ re_range 1 2 ;; b <~ re_digit ;; re_ret (a * 10 + b))
  ||| (a <~ re_range 0 0 ;; b <~ re_range 1 9 ;; re_ret (a * 10 + b))
  ||| re_range 1 9
  ||| (re_lit " "%char ;;; re_range 1 9).

(** [%H]: [2[0-3]|[0-1]\d|\d]. *)
Definition re_H : Re Z :=
      (a <~ re_range 2 2 ;; b <~ re_range 0 3 ;; re_ret (a * 10 + b))
  ||| (a <~ re_range 0 1 ;; b <~ re_digit ;; re_ret (a * 10 + b))
  ||| re_digit.

(** [%M]: [[0-5]\d|\d]. *)
Definition re_M : Re Z :=
      (a <~ re_range 0 5 ;; b <~ re_digit ;; re_ret (a * 10 + b))
  ||| re_digit.

(** ['%Y-%m-%d'] *)
Definition re_fecha : Re (Z * Z * Z) :=
  y <~ re_Y ;; re_lit "-"%char ;;; m <~ re_m ;; re_lit "-"%char ;;; d <~ re_d ;;
  re_ret (y, m, d).

(** ['%Y-%m-%dT%H:%M'] *)
Definition re_fecha_hora : Re (Z * Z * Z * Z * Z) :=
  y <~ re_Y ;; re_lit "-"%char ;;; m <~ re_m ;; re_lit "-"%char ;;; d <~ re_d ;;
  re_lit "T"%char ;;; h <~ re_H ;; re_lit ":"%char ;;; mi <~ re_M ;;
  re_ret (y, m, d, h, mi).

Local Close Scope re_scope.

(** The match, then the test that no text is left ("unconverted data
    remains"). [None] is [ValueError]. *)
Definition re_match {A} (p : Re A) (s : string) : option A :=
  match p (list_ascii_of_string s) with
  | (a, []) :: _ => Some a
  | _ => None
  end.

(** [datetime.strptime(s, '%Y-%m-%d').date()] *)
Definition strptime_date (s : string) : option date :=
  match re_match re_fecha s with
  | Some (y, m, d) => if valid_date y m d then Some (mk_date y m d) else None
  | None => None
  end.

(** [datetime.strptime(s, '%Y-%m-%dT%H:%M')] *)
Definition strptime_datetime (s : string) : option datetime :=
  match re_match re_fecha_hora s with
  | Some (y, m, d, h, mi) =>
      if valid_date y m d then Some (mk_datetime y m d h mi) else None
  | None => None
  end.

(** ** Order of [datetime] values

    [fecha_cita] is a [DateTime] column; SQLite keeps it as the text
    [YYYY-MM-DD HH:MM:SS.ffffff] and [ORDER BY] compares these texts, which
    for the years 0001..9999 is the comparison field by field. *)

Definition lex (c1 c2 : comparison) : comparison :=
  match c1 with Eq => c2 | _ => c1 end.

Definition datetime_compare (a b : datetime) : comparison :=
  lex (dt_year a ?= dt_year b)
 (lex (dt_month a ?= dt_month b)
 (lex (dt_day a ?= dt_day b)
 (lex (dt_hour a ?= dt_hour b)
      (dt_minute a ?= dt_minute b)))).

Definition datetime_leb (a b : datetime) : bool :=
  match datetime_compare a b with Gt => false | _ => true end.

Definition datetime_ltb (a b : datetime) : bool :=
  match datetime_compare a b with Lt => true | _ => false end.

(** ** The two models (lines 17-39) *)

Module Paciente.
Record t := mk
  { id : Z;                      (* Integer, primary key *)
    nombre : string;             (* String(100), not null *)
    cedula : string;             (* String(20), unique, not null *)
    fecha_nacimiento : date }.   (* Date, not null *)
End Paciente.

Module Cita.
Record t := mk
  { id : Z;                      (* Integer, primary key *)
    fecha_cita : datetime;       (* DateTime, not null *)
    motivo : string;             (* String(200), not null *)
    paciente_cedula : string }.  (* String(20), ForeignKey paciente.cedula *)
End Cita.

(** The database: both tables, each in rowid order. *)
Record DB := mk_db { paciente_tbl : list Paciente.t; cita_tbl : list Cita.t }.

(** What the schema declares: both primary keys and [cedula] are unique. *)
Record db_ok (db : DB) : Prop := mk_db_ok
  { paciente_pk : NoDup (map Paciente.id (paciente_tbl db));
    paciente_cedula_unique : NoDup (map Paciente.cedula (paciente_tbl db));
    cita_pk : NoDup (map Cita.id (cita_tbl db)) }.

(** An [INTEGER PRIMARY KEY] column of SQLite without [AUTOINCREMENT]:
    a new row gets the largest id in the table plus one. *)
Definition next_id (ids : list Z) : Z := 1 + fold_right Z.max 0 ids.

(** ** [ORDER BY fecha_cita ASC]

    SQL fixes the result up to the order of rows with equal keys, so the
    query is any function that returns the rows of the table, sorted. *)

Definition cita_leb (a b : Cita.t) : bool :=
  datetime_leb (Cita.fecha_cita a) (Cita.fecha_cita b).

Definition OrderBy : Type := list Cita.t -> list Cita.t.

Record order_by_ok (ob : OrderBy) : Prop := mk_order_by_ok
  { order_by_perm : forall l, Permutation l (ob l);
    order_by_sorted : forall l,
        StronglySorted (fun a b => cita_leb a b = true) (ob l) }.

(** One such query: rows with equal [fecha_cita] stay in rowid order. *)
Fixpoint insert_cita (x : Cita.t) (l : list Cita.t) : list Cita.t :=
  match l with
  | [] => [x]
  | y :: l' => if cita_leb x y then x :: l else y :: insert_cita x l'
  end.

Definition orden_estable : OrderBy := fold_right insert_cita [].

(** ** Messages and responses *)

(** The messages passed to [flash], by the line that flashes them. *)
Inductive Flash :=
  | FechaNacimientoInvalida        (* 67, 165: 'Formato de fecha de nacimiento inválido...' *)
  | CedulaYaRegistrada             (* 73: 'La cédula ya está registrada...' *)
  | PacienteRegistrado             (* 81: 'Paciente registrado exitosamente!' *)
  | FechaCitaInvalida              (* 104: 'Formato de fecha y hora de cita inválido...' *)
  | PacienteNoExiste               (* 111: 'El paciente seleccionado no existe.' *)
  | CitasEliminadas (n : nat)      (* 127: 'Se eliminaron {n} citas antiguas...' *)
  | CitaAgendada                   (* 129: 'Cita agendada exitosamente!' *)
  | PacienteNoEncontrado           (* 153: 'Paciente no encontrado.' *)
  | NuevaCedulaYaRegistrada        (* 172: 'La nueva cédula ya está registrada por otro paciente.' *)
  | PacienteModificado             (* 181: 'Paciente modificado exitosamente!' *)
  | PacienteEliminado              (* 199: 'Paciente eliminado exitosamente!' *)
  | PacienteNoEncontradoEliminar.  (* 201: 'Paciente no encontrado para eliminar.' *)

(** What a handler returns; the values handed to a template are left out. *)
Inductive Response :=
  | Redirect (endpoint : string)
  | RenderTemplate (template : string).

(** The failure tags of the specification and the message each one is. *)
Inductive Failure :=
  | InvalidDateFormat | InvalidDateTimeFormat | DuplicateIdentifier
  | NotFound | PatientNotFound.

Definition failure_of (f : Flash) : option Failure :=
  match f with
  | FechaNacimientoInvalida => Some InvalidDateFormat
  | FechaCitaInvalida => Some InvalidDateTimeFormat
  | CedulaYaRegistrada | NuevaCedulaYaRegistrada => Some DuplicateIdentifier
  | PacienteNoEncontrado | PacienteNoEncontradoEliminar => Some NotFound
  | PacienteNoExiste => Some PatientNotFound
  | PacienteRegistrado | CitasEliminadas _ | CitaAgendada
  | PacienteModificado | PacienteEliminado => None
  end.

(** ** The session

    [db.session] of one request.  SQLAlchemy sends the pending inserts,
    updates and deletes to the database when the session is flushed, at
    the latest on [commit()]; every handler commits right after the
    changes it makes and queries nothing in between, so a change is
    applied to [rows] when it is made.  [commits] records each state that
    [commit()] made durable: what another request, or the same one after a
    failure, would find. *)

Record Session := mk_session
  { rows : DB;            (* the tables as the session sees them *)
    commits : list DB;    (* the states made durable, oldest first *)
    flashes : list Flash  (* the flashed messages, oldest first *) }.

Definition M (A : Type) : Type := Session -> A * Session.

Definition ret {A} (a : A) : M A := fun s => (a, s).

Definition bind {A B} (m : M A) (k : A -> M B) : M B :=
  fun s => let (a, s') := m s in k a s'.

Declare Scope session_scope.
Delimit Scope session_scope with session.
Notation "x <- m ;; k" := (bind m (fun x => k))
  (at level 61, m at next level, right associativity) : session_scope.
Notation "m ;; k" := (bind m (fun _ => k))
  (at level 61, right associativity) : session_scope.
Local Open Scope session_scope.

Definition flash (f : Flash) : M unit := fun s =>
  (tt, mk_session (rows s) (commits s) (flashes s ++ [f])).

(** [db.session.commit()] *)
Definition commit : M unit := fun s =>
  (tt, mk_session (rows s) (commits s ++ [rows s]) (flashes s)).

Definition set_rows (db : DB) : M unit := fun s =>
  (tt, mk_session db (commits s) (flashes s)).

Definition get_rows : M DB := fun s => (rows s, s).

(** [Paciente.query.filter_by(cedula=c).first()] *)
Definition query_paciente (c : string) : M (option Paciente.t) :=
  db <- get_rows ;;
  ret (find (fun p => String.eqb (Paciente.cedula p) c) (paciente_tbl db)).

(** [Cita.query.order_by(Cita.fecha_cita.asc()).all()] *)
Definition query_citas_asc (ob : OrderBy) : M (list Cita.t) :=
  db <- get_rows ;; ret (ob (cita_tbl db)).

(** [db.session.add(Paciente(nombre=.., cedula=.., fecha_nacimiento=..))] *)
Definition add_paciente (n c : string) (f : date) : M unit :=
  db <- get_rows ;;
  let p := Paciente.mk (next_id (map Paciente.id (paciente_tbl db))) n c f in
  set_rows (mk_db (paciente_tbl db ++ [p]) (cita_tbl db)).

(** [db.session.add(Cita(paciente_cedula=.., fecha_cita=.., motivo=..))] *)
Definition add_cita (c : string) (f : datetime) (m : string) : M unit :=
  db <- get_rows ;;
  let x := Cita.mk (next_id (map Cita.id (cita_tbl db))) f m c in
  set_rows (mk_db (paciente_tbl db) (cita_tbl db ++ [x])).

(** [db.session.delete(cita)]: [DELETE FROM cita WHERE id = ?] *)
Definition delete_cita (x : Cita.t) : M unit :=
  db <- get_rows ;;
  set_rows (mk_db (paciente_tbl db)
              (filter (fun y => negb (Cita.id y =? Cita.id x)) (cita_tbl db))).

Fixpoint for_each {A} (l : list A) (body : A -> M unit) : M unit :=
  match l with
  | [] => ret tt
  | a :: l' => body a ;; for_each l' body
  end.

(** [db.session.delete(paciente)].  The relationship [citas] (line 24) has
    [cascade="all, delete-orphan"]: the session loads the patient's
    appointments, the rows of [cita] whose [paciente_cedula] is the
    patient's [cedula], and deletes each of them with the patient. *)
Definition delete_paciente (p : Paciente.t) : M unit :=
  db <- get_rows ;;
  let hijas := filter (fun x => String.eqb (Cita.paciente_cedula x)
                                           (Paciente.cedula p)) (cita_tbl db) in
  for_each hijas delete_cita ;;
  db' <- get_rows ;;
  set_rows (mk_db (filter (fun q => negb (Paciente.id q =? Paciente.id p))
                          (paciente_tbl db'))
                  (cita_tbl db')).

(** The three assignments of lines 176-178: [UPDATE paciente SET nombre,
    cedula, fecha_nacimiento WHERE id = ?].  Nothing in [app.py] touches
    the [cita] rows here: the collection [citas] of the patient is not
    loaded in this handler, the relationship keeps SQLAlchemy's default
    [passive_updates], the foreign key declares no [ON UPDATE CASCADE],
    and SQLite does not enforce foreign keys unless the connection turns
    them on, which the application never does. *)
Definition update_paciente (p : Paciente.t) (n c : string) (f : date) : M unit :=
  db <- get_rows ;;
  set_rows (mk_db (map (fun q => if Paciente.id q =? Paciente.id p
                                 then Paciente.mk (Paciente.id q) n c f else q)
                       (paciente_tbl db))
                  (cita_tbl db)).

(** ** The request handlers *)

Inductive Request (Form : Type) :=
  | GET
  | POST (form : Form).
Arguments GET {Form}.
Arguments POST {Form} form.

(** [request.form] of [/registrar] and [/modificar_paciente/<cedula>]. *)
Record FormPaciente := mk_form_paciente
  { form_nombre : string; form_cedula : string; form_fecha_nacimiento : string }.

(** [request.form] of [/citas]. *)
Record FormCita := mk_form_cita
  { form_paciente_cedula : string; form_fecha_cita : string; form_motivo : string }.

(** [registrar], lines 51-84. *)
Definition registrar (req : Request FormPaciente) : M Response :=
  match req with
  | GET => ret (RenderTemplate "registrar.html")
  | POST f =>
      match strptime_date (form_fecha_nacimiento f) with
      | None =>
          flash FechaNacimientoInvalida ;;
          ret (RenderTemplate "registrar.html")
      | Some fecha_nacimiento =>
          paciente_existente <- query_paciente (form_cedula f) ;;
          match paciente_existente with
          | Some _ =>
              flash CedulaYaRegistrada ;;
              ret (RenderTemplate "registrar.html")
          | None =>
              add_paciente (form_nombre f) (form_cedula f) fecha_nacimiento ;;
              commit ;;
              flash PacienteRegistrado ;;
              ret (Redirect "index")
          end
      end
  end.

(** The retention step of [citas], lines 119-127.  [range] stops below
    the length of [todas_las_citas], so the subscript never raises. *)
Definition limpiar_citas (ob : OrderBy) : M unit :=
  todas_las_citas <- query_citas_asc ob ;;
  if (20 <? List.length todas_las_citas)%nat then
    let citas_a_eliminar_count := (List.length todas_las_citas - 20)%nat in
    for_each (seq 0 citas_a_eliminar_count)
      (fun i => match nth_error todas_las_citas i with
                | Some x => delete_cita x
                | None => ret tt
                end) ;;
    commit ;;
    flash (CitasEliminadas citas_a_eliminar_count)
  else ret tt.

(** [citas], lines 86-132. *)
Definition citas (ob : OrderBy) (req : Request FormCita) : M Response :=
  match req with
  | GET => ret (RenderTemplate "citas.html")
  | POST f =>
      match strptime_datetime (form_fecha_cita f) with
      | None =>
          flash FechaCitaInvalida ;;
          ret (RenderTemplate "citas.html")
      | Some fecha_cita =>
          paciente_existente <- query_paciente (form_paciente_cedula f) ;;
          match paciente_existente with
          | None =>
              flash PacienteNoExiste ;;
              ret (RenderTemplate "citas.html")
          | Some _ =>
              add_cita (form_paciente_cedula f) fecha_cita (form_motivo f) ;;
              commit ;;
              limpiar_citas ob ;;
              flash CitaAgendada ;;
              ret (Redirect "citas")
          end
      end
  end.

(** [modificar_paciente], lines 142-187. *)
Definition modificar_paciente (cedula : string) (req : Request FormPaciente)
  : M Response :=
  paciente_a_modificar <- query_paciente cedula ;;
  match paciente_a_modificar with
  | None =>
      flash PacienteNoEncontrado ;;
      ret (Redirect "pacientes_registrados")
  | Some p =>
      match req with
      | GET => ret (RenderTemplate "modificar_paciente.html")
      | POST f =>
          match strptime_date (form_fecha_nacimiento f) with
          | None =>
              flash FechaNacimientoInvalida ;;
              ret (RenderTemplate "modificar_paciente.html")
          | Some nueva_fecha_nacimiento =>
              let actualizar :=
                update_paciente p (form_nombre f) (form_cedula f)
                                nueva_fecha_nacimiento ;;
                commit ;;
                flash PacienteModificado ;;
                ret (Redirect "pacientes_registrados") in
              if negb (String.eqb (form_cedula f) cedula) then
                paciente_con_nueva_cedula <- query_paciente (form_cedula f) ;;
                match paciente_con_nueva_cedula with
                | Some _ =>
                    flash NuevaCedulaYaRegistrada ;;
                    ret (RenderTemplate "modificar_paciente.html")
                | None => actualizar
                end
              else actualizar
          end
      end
  end.

(** [eliminar_paciente], lines 189-203. *)
Definition eliminar_paciente (cedula : string) : M Response :=
  paciente_a_eliminar <- query_paciente cedula ;;
  match paciente_a_eliminar with
  | Some p =>
      delete_paciente p ;;
      commit ;;
      flash PacienteEliminado ;;
      ret (Redirect "pacientes_registrados")
  | None =>
      flash PacienteNoEncontradoEliminar ;;
      ret (Redirect "pacientes_registrados")
  end.

(** ** Running a request *)

(** A request opens a session on the database as it is. *)
Definition open_session (db : DB) : Session := mk_session db [] [].

Definition run {A} (m : M A) (db : DB) : Session := snd (m (open_session db)).

(** The database once the request is over: the last committed state, or
    the initial one when nothing was committed. *)
Definition durable (db : DB) (s : Session) : DB := last (commits s) db.

(** The failures a request reported. *)
Definition reported (s : Session) : list Failure :=
  flat_map (fun f => match failure_of f with Some e => [e] | None => [] end)
           (flashes s).

(** ** Vocabulary of the statements *)

(** A patient with this [cedula] is in the table. *)
Definition has_cedula (db : DB) (c : string) : Prop :=
  exists p, In p (paciente_tbl db) /\ Paciente.cedula p = c.

(** The rows whose id is the id of none of [xs]. *)
Definition sin_ids (xs : list Cita.t) (tbl : list Cita.t) : list Cita.t :=
  filter (fun y => negb (existsb (fun x => Cita.id y =? Cita.id x) xs)) tbl.

(** The row [citas] inserts. *)
Definition nueva_cita (db : DB) (f : FormCita) (fecha : datetime) : Cita.t :=
  Cita.mk (next_id (map Cita.id (cita_tbl db))) fecha
          (form_motivo f) (form_paciente_cedula f).

(** The database after the insert of lines 115-117. *)
Definition inserted (db : DB) (f : FormCita) (fecha : datetime) : DB :=
  mk_db (paciente_tbl db) (cita_tbl db ++ [nueva_cita db f fecha]).

(** The database [limpiar_citas] leaves when it deletes. *)
Definition trimmed (ob : OrderBy) (db : DB) : DB :=
  let tbl := cita_tbl db in
  mk_db (paciente_tbl db)
        (sin_ids (firstn (List.length tbl - 20) (ob tbl)) tbl).

(** One [POST /citas] after the other, each on the database the one
    before left. *)
Definition agendar_todas (ob : OrderBy) (fs : list FormCita) (db : DB) : DB :=
  fold_left (fun d f => durable d (run (citas ob (POST f)) d)) fs db.

Definition cita_ltb (a b : Cita.t) : bool :=
  datetime_ltb (Cita.fecha_cita a) (Cita.fecha_cita b).

(** The [n] last elements. *)
Definition lastn {A} (n : nat) (l : list A) : list A :=
  skipn (List.length l - n) l.

(** Decides [StronglySorted] for [datetime_ltb]. *)
Fixpoint ascending (l : list datetime) : bool :=
  match l with
  | [] => true
  | a :: l' => forallb (datetime_ltb a) l' && ascending l'
  end.

(** Decides [NoDup], given a boolean equality. *)
Fixpoint distinct {A} (eqb : A -> A -> bool) (l : list A) : bool :=
  match l with
  | [] => true
  | a :: l' => negb (existsb (eqb a) l') && distinct eqb l'
  end.

(** Decides [db_ok]. *)
Definition db_okb (db : DB) : bool :=
  distinct Z.eqb (map Paciente.id (paciente_tbl db)) &&
  distinct String.eqb (map Paciente.cedula (paciente_tbl db)) &&
  distinct Z.eqb (map Cita.id (cita_tbl db)).

(** ** Dates as the specification writes them

    These definitions follow the words of the specification, not the
    code: they say which texts are "of the form YYYY-MM-DD" and which date
    such a text denotes, to be compared with what [strptime_date] reads. *)

Definition is_digit (c : ascii) : bool :=
  (Nat.leb 48 (nat_of_ascii c) && Nat.leb (nat_of_ascii c) 57)%bool.

(** Four digits, a hyphen, two digits, a hyphen, two digits. *)
Definition forma_AAAA_MM_DD (s : string) : bool :=
  match list_ascii_of_string s with
  | [y1; y2; y3; y4; h1; m1; m2; h2; d1; d2] =>
      forallb is_digit [y1; y2; y3; y4; m1; m2; d1; d2] &&
      Ascii.eqb h1 "-" && Ascii.eqb h2 "-"
  | _ => false
  end.

(** The date a text of that form denotes: its digits read as a year, a
    month and a day, when these make a date of the calendar. *)
Definition fecha_denotada (s : string) : option date :=
  if forma_AAAA_MM_DD s then
    match list_ascii_of_string s with
    | [y1; y2; y3; y4; _; m1; m2; _; d1; d2] =>
        let y := 1000 * digit_val y1 + 100 * digit_val y2
                 + 10 * digit_val y3 + digit_val y4 in
        let m := 10 * digit_val m1 + digit_val m2 in
        let d := 10 * digit_val d1 + digit_val d2 in
        if valid_date y m d then Some (mk_date y m d) else None
    | _ => None
    end
  else None.

(** The text of a date: the year on four digits, the month and the day on
    two, zero-padded. *)
Definition digit_char (k : Z) : ascii := ascii_of_nat (48 + Z.to_nat k).

Definition pad2 (n : Z) : list ascii :=
  [digit_char (n / 10); digit_char (n mod 10)].

Definition pad4 (n : Z) : list ascii :=
  [digit_char (n / 1000); digit_char (n / 100 mod 10);
   digit_char (n / 10 mod 10); digit_char (n mod 10)].

Definition texto_fecha (d : date) : string :=
  string_of_list_ascii
    (pad4 (year d) ++ "-"%char :: pad2 (month d) ++ "-"%char :: pad2 (day d)).

(** The months and the days a date can have. *)
Definition meses : list Z := map Z.of_nat (seq 1 12).
Definition dias : list Z := map Z.of_nat (seq 1 31).

(** ** Example data *)

Definition ana : Paciente.t := Paciente.mk 1 "Ana" "V123" (mk_date 1990 5 20).
Definition bob : Paciente.t := Paciente.mk 2 "Bob" "V456" (mk_date 1985 12 1).

Definition chequeo : Cita.t :=
  Cita.mk 1 (mk_datetime 2024 1 10 9 0) "Checkup" "V123".

(** Ana and her appointment. *)
Definition db_ana : DB := mk_db [ana] [chequeo].

(** Ana, Bob and the appointment of Ana. *)
Definition db_ana_bob : DB := mk_db [ana; bob] [chequeo].

(** Both patients, no appointment yet. *)
Definition db_sin_citas : DB := mk_db [ana; bob] [].

Definition dias_25 : list string :=
  ["01"; "02"; "03"; "04"; "05"; "06"; "07"; "08"; "09"; "10"; "11"; "12"; "13";
   "14"; "15"; "16"; "17"; "18"; "19"; "20"; "21"; "22"; "23"; "24"; "25"].

(** 25 requests for Ana, one day apart, in increasing order. *)
Definition formularios_25 : list FormCita :=
  map (fun d => mk_form_cita "V123" ("2024-03-" ++ d ++ "T10:30")%string "Control")
      dias_25.

Definition fechas_25 : list datetime :=
  map (fun k => mk_datetime 2024 3 (Z.of_nat k) 10 30) (seq 1 25).

(** 20 appointments of Ana, all in March 2024. *)
Definition citas_de_marzo : list Cita.t :=
  map (fun k => Cita.mk (Z.of_nat k) (mk_datetime 2024 3 (Z.of_nat k) 10 30)
                        "Control" "V123")
      (seq 1 20).

(** Both patients and a full table of appointments. *)
Definition db_lleno : DB := mk_db [ana; bob] citas_de_marzo.

(** ** The listing handlers and the application as a whole *)

(** [Paciente.query.all()] *)
Definition query_pacientes_all : M (list Paciente.t) :=
  db <- get_rows ;; ret (paciente_tbl db).

(** [index], lines 43-49: the template and the patients handed to it. *)
Definition index : M (Response * list Paciente.t) :=
  pacientes <- query_pacientes_all ;;
  ret (RenderTemplate "index.html", pacientes).

(** [pacientes_registrados], lines 134-140. *)
Definition pacientes_registrados : M (Response * list Paciente.t) :=
  pacientes <- query_pacientes_all ;;
  ret (RenderTemplate "pacientes_registrados.html", pacientes).

(** A request to one of the routes of lines 43, 51, 86, 134, 142 and 189.
    [/eliminar_paciente/<cedula>] accepts POST only. *)
Inductive Peticion :=
  | Index
  | Registrar (req : Request FormPaciente)
  | Citas (req : Request FormCita)
  | PacientesRegistrados
  | ModificarPaciente (cedula : string) (req : Request FormPaciente)
  | EliminarPaciente (cedula : string).

(** The session a request ends with. *)
Definition atender (ob : OrderBy) (pet : Peticion) (db : DB) : Session :=
  match pet with
  | Index => run index db
  | Registrar req => run (registrar req) db
  | Citas req => run (citas ob req) db
  | PacientesRegistrados => run pacientes_registrados db
  | ModificarPaciente c req => run (modificar_paciente c req) db
  | EliminarPaciente c => run (eliminar_paciente c) db
  end.

(** Requests served one after the other. *)
Definition servir (ob : OrderBy) (pets : list Peticion) (db : DB) : DB :=
  fold_left (fun d pet => durable d (atender ob pet d)) pets db.

(** [db.create_all()] on a new file, lines 208-209: two empty tables. *)
Definition db_vacia : DB := mk_db [] [].

(** Every appointment carries the [cedula] of a stored patient. *)
Definition ref_ok (db : DB) : Prop :=
  forall x, In x (cita_tbl db) -> has_cedula db (Cita.paciente_cedula x).

(** The request does not change the identifier of a patient. *)
Definition sin_renombrar (pet : Peticion) : Prop :=
  match pet with
  | ModificarPaciente c (POST f) => form_cedula f = c
  | _ => True
  end.

(** The row [registrar] inserts. *)
Definition nuevo_paciente (db : DB) (f : FormPaciente) (nac : date) : Paciente.t :=
  Paciente.mk (next_id (map Paciente.id (paciente_tbl db)))
              (form_nombre f) (form_cedula f) nac.

(** The row of [p] after [modificar_paciente] rewrote it. *)
Definition modificado (p : Paciente.t) (f : FormPaciente) (nac : date) : Paciente.t :=
  Paciente.mk (Paciente.id p) (form_nombre f) (form_cedula f) nac.

(** One [POST /registrar] after the other. *)
Definition registrar_todos (fs : list FormPaciente) (db : DB) : DB :=
  fold_left (fun d f => durable d (run (registrar (POST f)) d)) fs db.

(** What the forms say of a patient. *)
Definition datos (p : Paciente.t) : string * string * date :=
  (Paciente.nombre p, Paciente.cedula p, Paciente.fecha_nacimiento p).

(** The check of the [datetime] constructor on the fields [strptime]
    fills: a date of the calendar, an hour below 24, a minute below 60. *)
Definition valid_datetime (t : datetime) : bool :=
  valid_date (dt_year t) (dt_month t) (dt_day t) &&
  (0 <=? dt_hour t) && (dt_hour t <=? 23) &&
  (0 <=? dt_minute t) && (dt_minute t <=? 59).

(** The text [YYYY-MM-DDTHH:MM] of a date and time, zero-padded: what an
    [<input type="datetime-local">] sends (comment of line 97). *)
Definition texto_fecha_hora (t : datetime) : string :=
  string_of_list_ascii
    (pad4 (dt_year t) ++ "-"%char :: pad2 (dt_month t) ++ "-"%char ::
     pad2 (dt_day t) ++ "T"%char :: pad2 (dt_hour t) ++ ":"%char ::
     pad2 (dt_minute t)).

(** Patients to try the handlers on. *)
Definition eva_form : FormPaciente := mk_form_paciente "Eva" "V789" "2001-02-28".

(** The hours and the minutes a time can have. *)
Definition horas : list Z := map Z.of_nat (seq 0 24).
Definition minutos : list Z := map Z.of_nat (seq 0 60).

(** The Arabic-Indic digits zero (U+0660), five (U+0665) and nine
    (U+0669), in UTF-8. *)
Definition cero_arabe : string :=
  String (ascii_of_nat 217) (String (ascii_of_nat 160) "").
Definition cinco_arabe : string :=
  String (ascii_of_nat 217) (String (ascii_of_nat 165) "").
Definition nueve_arabe : string :=
  String (ascii_of_nat 217) (String (ascii_of_nat 169) "").

(** * Proofs *)

(** ** [strptime] on examples *)

Example strptime_date_ok :
  strptime_date "1990-05-20" = Some (mk_date 1990 5 20).
Proof. reflexivity. Qed.

Example strptime_date_unpadded :
  strptime_date "1990-5-2" = Some (mk_date 1990 5 2).
Proof. reflexivity. Qed.

Example strptime_date_bad :
  strptime_date "20/05/1990" = None /\ strptime_date "1990-02-30" = None /\
  strptime_date "1990-05-200" = None /\ strptime_date "0000-01-01" = None /\
  strptime_date "1990-13-01" = None /\ strptime_date "" = None.
Proof. repeat split; reflexivity. Qed.

Example strptime_datetime_ok :
  strptime_datetime "2024-01-10T09:00" = Some (mk_datetime 2024 1 10 9 0) /\
  strptime_datetime "2024-02-29t23:59" = Some (mk_datetime 2024 2 29 23 59) /\
  strptime_datetime "2024-01-10T24:00" = None /\
  strptime_datetime "2024-01-10T09:75" = None /\
  strptime_datetime "2024-01-10 09:00" = None /\
  strptime_datetime "2024-01-10" = None.
Proof. repeat split; reflexivity. Qed.

(** ** The order of [datetime] is a total order *)

Lemma lex_spec (P Q R : Prop) (x y : Z) (c : comparison) :
  (x = y -> CompareSpec P Q R c) -> (x < y -> Q) -> (y < x -> R) ->
  CompareSpec P Q R (lex (x ?= y) c).
Proof.
  intros HE HL HG. destruct (Z.compare_spec x y); cbn; auto using CompLt, CompGt.
Qed.

Lemma datetime_ltb_intro (a b : datetime) :
  datetime_compare a b = Lt -> datetime_ltb a b = true.
Proof. unfold datetime_ltb. now intros ->. Qed.

Lemma datetime_compare_spec (a b : datetime) :
  CompareSpec (a = b) (datetime_ltb a b = true) (datetime_ltb b a = true)
              (datetime_compare a b).
Proof.
  destruct a as [y1 m1 d1 h1 i1], b as [y2 m2 d2 h2 i2].
  unfold datetime_compare at 1; cbn [dt_year dt_month dt_day dt_hour dt_minute].
  repeat (apply lex_spec; [intros -> | | ]);
    try (intros L; apply datetime_ltb_intro; unfold datetime_compare; cbn;
         rewrite ?Z.compare_refl; cbn;
         now rewrite (proj2 (Z.compare_lt_iff _ _) L)).
  destruct (Z.compare_spec i1 i2) as [-> | L | L]; constructor;
    try reflexivity;
    apply datetime_ltb_intro; unfold datetime_compare; cbn;
    rewrite ?Z.compare_refl; cbn; now apply Z.compare_lt_iff.
Qed.

Lemma datetime_compare_refl (a : datetime) : datetime_compare a a = Eq.
Proof. unfold datetime_compare. now rewrite !Z.compare_refl. Qed.

Lemma datetime_ltb_leb (a b : datetime) :
  datetime_ltb a b = true -> datetime_leb a b = true.
Proof. unfold datetime_ltb, datetime_leb. now destruct datetime_compare. Qed.

Lemma datetime_ltb_irrefl (a : datetime) : datetime_ltb a a = false.
Proof. unfold datetime_ltb. now rewrite datetime_compare_refl. Qed.

Lemma datetime_leb_total (a b : datetime) :
  datetime_leb a b = true \/ datetime_leb b a = true.
Proof.
  unfold datetime_leb at 1.
  destruct (datetime_compare_spec a b) as [E | L | L]; auto.
  right. now apply datetime_ltb_leb.
Qed.

Lemma lex_lt_iff (x y : Z) (c : comparison) :
  lex (x ?= y) c = Lt <-> x < y \/ (x = y /\ c = Lt).
Proof.
  destruct (Z.compare_spec x y); cbn; split; intros; try lia; auto;
    try discriminate; destruct H0 as [? | [? ?]]; auto; lia.
Qed.

Lemma datetime_ltb_iff (a b : datetime) :
  datetime_ltb a b = true <->
  dt_year a < dt_year b \/ (dt_year a = dt_year b /\
  (dt_month a < dt_month b \/ (dt_month a = dt_month b /\
  (dt_day a < dt_day b \/ (dt_day a = dt_day b /\
  (dt_hour a < dt_hour b \/ (dt_hour a = dt_hour b /\
   dt_minute a < dt_minute b))))))).
Proof.
  unfold datetime_ltb.
  transitivity (datetime_compare a b = Lt);
    [ destruct (datetime_compare a b); split; congruence | ].
  unfold datetime_compare. rewrite !lex_lt_iff, Z.compare_lt_iff. reflexivity.
Qed.

Lemma datetime_ltb_trans (a b c : datetime) :
  datetime_ltb a b = true -> datetime_ltb b c = true -> datetime_ltb a c = true.
Proof. rewrite !datetime_ltb_iff. lia. Qed.

Lemma datetime_leb_iff (a b : datetime) :
  datetime_leb a b = true <-> a = b \/ datetime_ltb a b = true.
Proof.
  unfold datetime_leb. split.
  - destruct (datetime_compare_spec a b); auto. discriminate.
  - intros [-> | L].
    + now rewrite datetime_compare_refl.
    + unfold datetime_ltb in L. now destruct (datetime_compare a b).
Qed.

Lemma datetime_leb_trans (a b c : datetime) :
  datetime_leb a b = true -> datetime_leb b c = true -> datetime_leb a c = true.
Proof.
  rewrite !datetime_leb_iff. intros [-> | L1] [-> | L2]; auto.
  right. eapply datetime_ltb_trans; eauto.
Qed.

Lemma datetime_leb_ltb_absurd (a b : datetime) :
  datetime_leb a b = true -> datetime_ltb b a = true -> False.
Proof.
  rewrite datetime_leb_iff. intros [-> | L1] L2.
  - now rewrite datetime_ltb_irrefl in L2.
  - pose proof (datetime_ltb_trans _ _ _ L1 L2) as H.
    now rewrite datetime_ltb_irrefl in H.
Qed.

(** ** Facts about the queries and the tables *)

(** Unfolds a handler down to the tables. *)
Ltac handler :=
  unfold run, registrar, citas, modificar_paciente, eliminar_paciente,
    query_paciente, add_paciente, add_cita, update_paciente,
    bind, ret, flash, commit, get_rows, set_rows, open_session,
    durable, reported; cbn.

Lemma find_cedula_some (tbl : list Paciente.t) (c : string) :
  (exists p, In p tbl /\ Paciente.cedula p = c) ->
  exists q, find (fun p => String.eqb (Paciente.cedula p) c) tbl = Some q.
Proof.
  intros [p [Hin Hc]].
  destruct (find _ tbl) as [q |] eqn:E; [now exists q | ].
  apply (find_none _ _ E) in Hin. rewrite Hc, String.eqb_refl in Hin.
  discriminate.
Qed.

Lemma find_cedula_none (tbl : list Paciente.t) (c : string) :
  (forall p, In p tbl -> Paciente.cedula p <> c) ->
  find (fun p => String.eqb (Paciente.cedula p) c) tbl = None.
Proof.
  intros H. destruct (find _ tbl) as [q |] eqn:E; [ | reflexivity].
  apply find_some in E. destruct E as [Hin Hc].
  apply String.eqb_eq in Hc. now apply H in Hin.
Qed.

Lemma find_cedula_unique (tbl : list Paciente.t) (p : Paciente.t) :
  NoDup (map Paciente.cedula tbl) -> In p tbl ->
  find (fun q => String.eqb (Paciente.cedula q) (Paciente.cedula p)) tbl = Some p.
Proof.
  induction tbl as [| q tbl IH]; cbn; [easy | ].
  intros ND [-> | Hin].
  - now rewrite String.eqb_refl.
  - inversion ND as [| ? ? Hq ND']; subst.
    destruct (String.eqb_spec (Paciente.cedula q) (Paciente.cedula p)) as [E | _].
    + exfalso. apply Hq. rewrite E. now apply in_map.
    + auto.
Qed.

Lemma NoDup_map_eq {A B} (f : A -> B) (l : list A) (a b : A) :
  NoDup (map f l) -> In a l -> In b l -> f a = f b -> a = b.
Proof.
  induction l as [| x l IH]; cbn; [easy | ].
  intros ND Ha Hb E. inversion ND as [| ? ? Hx ND']; subst.
  destruct Ha as [-> | Ha], Hb as [-> | Hb]; auto.
  - exfalso. apply Hx. rewrite E. now apply in_map.
  - exfalso. apply Hx. rewrite <- E. now apply in_map.
Qed.

Lemma distinct_NoDup {A} (eqb : A -> A -> bool) (l : list A) :
  (forall a b, eqb a b = true <-> a = b) ->
  distinct eqb l = true -> NoDup l.
Proof.
  intros Heq. induction l as [| a l IH]; cbn; intros H; constructor;
    apply andb_true_iff in H; destruct H as [H1 H2]; [ | now apply IH].
  intros Hin. apply negb_true_iff in H1.
  assert (E : existsb (eqb a) l = true)
    by (apply existsb_exists; exists a; split; [assumption | now apply Heq]).
  congruence.
Qed.

Lemma db_okb_ok (db : DB) : db_okb db = true -> db_ok db.
Proof.
  unfold db_okb. rewrite !andb_true_iff. intros [[H1 H2] H3].
  split.
  - exact (distinct_NoDup Z.eqb _ Z.eqb_eq H1).
  - exact (distinct_NoDup String.eqb _ String.eqb_eq H2).
  - exact (distinct_NoDup Z.eqb _ Z.eqb_eq H3).
Qed.

Lemma db_ana_bob_ok : db_ok db_ana_bob.
Proof. apply db_okb_ok. reflexivity. Qed.

(** ** Registering a patient *)

(** C4: when some patient already holds the identifier and the birth date
    parses, [registrar] reports DuplicateIdentifier (the message of line
    73), commits nothing and leaves both tables as they were, so no row is
    added and the number of patients is the same. *)
Theorem registrar_duplicate_unchanged (db : DB) (f : FormPaciente) (nac : date) :
  has_cedula db (form_cedula f) ->
  strptime_date (form_fecha_nacimiento f) = Some nac ->
  let s := run (registrar (POST f)) db in
  fst (registrar (POST f) (open_session db)) = RenderTemplate "registrar.html" /\
  flashes s = [CedulaYaRegistrada] /\
  reported s = [DuplicateIdentifier] /\
  commits s = [] /\ rows s = db /\ durable db s = db /\
  List.length (paciente_tbl (durable db s)) = List.length (paciente_tbl db).
Proof.
  intros Hdup Hfecha. apply find_cedula_some in Hdup. destruct Hdup as [q Hq].
  handler. rewrite Hfecha. cbn. rewrite Hq. cbn. repeat split; reflexivity.
Qed.

(** C4 on an example: a second patient under the identifier of Ana. *)
Lemma registrar_duplicate_unchanged_witness :
  let f := mk_form_paciente "Bob" "V123" "1985-12-01" in
  let s := run (registrar (POST f)) db_ana in
  fst (registrar (POST f) (open_session db_ana)) = RenderTemplate "registrar.html" /\
  flashes s = [CedulaYaRegistrada] /\
  reported s = [DuplicateIdentifier] /\
  commits s = [] /\ rows s = db_ana /\ durable db_ana s = db_ana /\
  List.length (paciente_tbl (durable db_ana s)) = List.length (paciente_tbl db_ana).
Proof.
  apply (registrar_duplicate_unchanged db_ana
           (mk_form_paciente "Bob" "V123" "1985-12-01") (mk_date 1985 12 1)).
  - exists ana. split; [left; reflexivity | reflexivity].
  - reflexivity.
Defined.

(** C5, as stated, fails: with the identifier of Ana and a birth-date text
    that is not of the form YYYY-MM-DD, [registrar] reports
    InvalidDateFormat and not DuplicateIdentifier. *)
Lemma registrar_uniqueness_first_fails :
  let f := mk_form_paciente "Bob" "V123" "20/05/1990" in
  has_cedula db_ana (form_cedula f) /\
  forma_AAAA_MM_DD (form_fecha_nacimiento f) = false /\
  reported (run (registrar (POST f)) db_ana) = [InvalidDateFormat] /\
  reported (run (registrar (POST f)) db_ana) <> [DuplicateIdentifier].
Proof.
  cbn zeta. split; [ | split; [ | split ]].
  - exists ana. split; [left; reflexivity | reflexivity].
  - reflexivity.
  - reflexivity.
  - discriminate.
Qed.

(** C5, amended: [registrar] parses the birth date before it looks the
    identifier up (lines 63-68, then 70-74).  Whatever the identifier, and
    so also when it duplicates an existing patient's, a birth-date text
    that [strptime] rejects is reported as InvalidDateFormat, and nothing
    is written. *)
Theorem registrar_date_checked_first (db : DB) (f : FormPaciente) :
  has_cedula db (form_cedula f) ->
  strptime_date (form_fecha_nacimiento f) = None ->
  let s := run (registrar (POST f)) db in
  flashes s = [FechaNacimientoInvalida] /\
  reported s = [InvalidDateFormat] /\
  commits s = [] /\ rows s = db.
Proof.
  intros _ Hfecha. handler. rewrite Hfecha. cbn. repeat split; reflexivity.
Qed.

(** C5, amended, on an example: the identifier of Ana and a birth date
    written day first. *)
Lemma registrar_date_checked_first_witness :
  let f := mk_form_paciente "Bob" "V123" "20/05/1990" in
  let s := run (registrar (POST f)) db_ana in
  flashes s = [FechaNacimientoInvalida] /\
  reported s = [InvalidDateFormat] /\
  commits s = [] /\ rows s = db_ana.
Proof.
  apply (registrar_date_checked_first db_ana
           (mk_form_paciente "Bob" "V123" "20/05/1990")).
  - exists ana. split; [left; reflexivity | reflexivity].
  - reflexivity.
Defined.

(** ** Scheduling for an unknown patient *)

(** C7: when no patient holds the identifier and the date-time parses,
    [citas] reports PatientNotFound (the message of line 111), adds no
    appointment and commits nothing: the store is unchanged. *)
Theorem citas_patient_not_found_unchanged
  (ob : OrderBy) (db : DB) (f : FormCita) (fecha : datetime) :
  (forall p, In p (paciente_tbl db) ->
             Paciente.cedula p <> form_paciente_cedula f) ->
  strptime_datetime (form_fecha_cita f) = Some fecha ->
  let s := run (citas ob (POST f)) db in
  fst (citas ob (POST f) (open_session db)) = RenderTemplate "citas.html" /\
  flashes s = [PacienteNoExiste] /\
  reported s = [PatientNotFound] /\
  commits s = [] /\ rows s = db /\ durable db s = db /\
  cita_tbl (durable db s) = cita_tbl db.
Proof.
  intros Hnone Hfecha. apply find_cedula_none in Hnone.
  handler. rewrite Hfecha. cbn. rewrite Hnone. cbn. repeat split; reflexivity.
Qed.

(** C7 on an example: an appointment for V999, whom nobody knows. *)
Lemma citas_patient_not_found_unchanged_witness :
  let f := mk_form_cita "V999" "2024-01-10T09:00" "Checkup" in
  let s := run (citas orden_estable (POST f)) db_ana_bob in
  fst (citas orden_estable (POST f) (open_session db_ana_bob))
    = RenderTemplate "citas.html" /\
  flashes s = [PacienteNoExiste] /\
  reported s = [PatientNotFound] /\
  commits s = [] /\ rows s = db_ana_bob /\ durable db_ana_bob s = db_ana_bob /\
  cita_tbl (durable db_ana_bob s) = cita_tbl db_ana_bob.
Proof.
  apply (citas_patient_not_found_unchanged orden_estable db_ana_bob
           (mk_form_cita "V999" "2024-01-10T09:00" "Checkup")
           (mk_datetime 2024 1 10 9 0)).
  - intros p [<- | [<- | []]]; discriminate.
  - reflexivity.
Defined.

(** ** Modifying a patient *)

(** C8, as stated, fails: Ana and Bob are distinct patients, the new
    identifier is Bob's, but the birth-date text does not parse, and
    [modificar_paciente] reports InvalidDateFormat, not
    DuplicateIdentifier. *)
Lemma modificar_duplicate_not_always_reported :
  let f := mk_form_paciente "Ana" (Paciente.cedula bob) "20/05/1990" in
  db_ok db_ana_bob /\ In ana (paciente_tbl db_ana_bob) /\
  In bob (paciente_tbl db_ana_bob) /\ ana <> bob /\
  reported (run (modificar_paciente (Paciente.cedula ana) (POST f)) db_ana_bob)
    = [InvalidDateFormat] /\
  reported (run (modificar_paciente (Paciente.cedula ana) (POST f)) db_ana_bob)
    <> [DuplicateIdentifier].
Proof.
  cbn zeta. repeat split; try apply db_ana_bob_ok; cbn; auto; discriminate.
Qed.

(** C8, amended: for two distinct patients A and B and a birth-date text
    that parses, modifying A so that its identifier becomes B's reports
    DuplicateIdentifier (the message of line 172) and updates nothing:
    nothing is committed and both tables, so A and B, are as they were. *)
Theorem modificar_duplicate_unchanged
  (db : DB) (a b : Paciente.t) (f : FormPaciente) (nac : date) :
  db_ok db ->
  In a (paciente_tbl db) -> In b (paciente_tbl db) -> a <> b ->
  form_cedula f = Paciente.cedula b ->
  strptime_date (form_fecha_nacimiento f) = Some nac ->
  let s := run (modificar_paciente (Paciente.cedula a) (POST f)) db in
  fst (modificar_paciente (Paciente.cedula a) (POST f) (open_session db))
    = RenderTemplate "modificar_paciente.html" /\
  flashes s = [NuevaCedulaYaRegistrada] /\
  reported s = [DuplicateIdentifier] /\
  commits s = [] /\ rows s = db /\ durable db s = db /\
  In a (paciente_tbl (durable db s)) /\ In b (paciente_tbl (durable db s)).
Proof.
  intros [_ Hced _] Ha Hb Hab Hnew Hfecha.
  assert (Hne : String.eqb (form_cedula f) (Paciente.cedula a) = false).
  { apply String.eqb_neq. rewrite Hnew. intros E. apply Hab.
    symmetry. now apply (NoDup_map_eq Paciente.cedula (paciente_tbl db)). }
  handler.
  rewrite (find_cedula_unique _ _ Hced Ha). cbn.
  rewrite Hfecha, Hne. cbn.
  rewrite Hnew, (find_cedula_unique _ _ Hced Hb). cbn.
  repeat split; assumption || reflexivity.
Qed.

(** C8, amended, on an example: Ana asks for the identifier of Bob. *)
Lemma modificar_duplicate_unchanged_witness :
  let f := mk_form_paciente "Ana" "V456" "1990-05-21" in
  let s := run (modificar_paciente "V123" (POST f)) db_ana_bob in
  fst (modificar_paciente "V123" (POST f) (open_session db_ana_bob))
    = RenderTemplate "modificar_paciente.html" /\
  flashes s = [NuevaCedulaYaRegistrada] /\
  reported s = [DuplicateIdentifier] /\
  commits s = [] /\ rows s = db_ana_bob /\ durable db_ana_bob s = db_ana_bob /\
  In ana (paciente_tbl (durable db_ana_bob s)) /\
  In bob (paciente_tbl (durable db_ana_bob s)).
Proof.
  apply (modificar_duplicate_unchanged db_ana_bob ana bob
           (mk_form_paciente "Ana" "V456" "1990-05-21") (mk_date 1990 5 21)).
  - apply db_ana_bob_ok.
  - left; reflexivity.
  - right; left; reflexivity.
  - discriminate.
  - reflexivity.
  - reflexivity.
Defined.

(** ** Deleting rows by primary key *)

Lemma filter_all {A} (l : list A) : filter (fun _ => true) l = l.
Proof. induction l; cbn; congruence. Qed.

Lemma sin_ids_nil (tbl : list Cita.t) : sin_ids [] tbl = tbl.
Proof. apply filter_all. Qed.

Lemma sin_ids_cons (x : Cita.t) (xs tbl : list Cita.t) :
  sin_ids xs (filter (fun y => negb (Cita.id y =? Cita.id x)) tbl)
  = sin_ids (x :: xs) tbl.
Proof.
  unfold sin_ids. induction tbl as [| y tbl IH]; cbn; [reflexivity | ].
  destruct (Cita.id y =? Cita.id x); cbn; [exact IH | ].
  destruct (existsb _ xs); cbn; now rewrite IH.
Qed.

Lemma for_each_delete_cita (xs : list Cita.t) (s : Session) :
  for_each xs delete_cita s
  = (tt, mk_session (mk_db (paciente_tbl (rows s)) (sin_ids xs (cita_tbl (rows s))))
                    (commits s) (flashes s)).
Proof.
  revert s. induction xs as [| x xs IH]; intros [[ps cs] co fl]; cbn -[sin_ids].
  - now rewrite sin_ids_nil.
  - unfold bind, delete_cita, get_rows, set_rows, bind, ret; cbn -[sin_ids].
    rewrite IH; cbn -[sin_ids]. now rewrite sin_ids_cons.
Qed.

(** With unique ids, deleting the rows selected by [sel] one by one leaves
    the rows [sel] rejects. *)
Lemma sin_ids_filter (sel : Cita.t -> bool) (tbl : list Cita.t) :
  NoDup (map Cita.id tbl) ->
  sin_ids (filter sel tbl) tbl = filter (fun y => negb (sel y)) tbl.
Proof.
  intros ND. unfold sin_ids. apply filter_ext_in. intros y Hy. f_equal.
  destruct (sel y) eqn:Ey.
  - apply existsb_exists. exists y. split; [ | apply Z.eqb_refl].
    apply filter_In. now split.
  - destruct (existsb _ _) eqn:Ex; [ | reflexivity].
    apply existsb_exists in Ex. destruct Ex as [x [Hx Exy]].
    apply filter_In in Hx. destruct Hx as [Hx Sx]. apply Z.eqb_eq in Exy.
    rewrite (NoDup_map_eq Cita.id tbl y x ND Hy Hx Exy) in Ey. congruence.
Qed.

(** ** Deleting a patient *)

(** The database without the patient [p] and without the appointments
    that carry its [cedula]. *)
Lemma eliminar_paciente_run (db : DB) (p : Paciente.t) :
  db_ok db -> In p (paciente_tbl db) ->
  let db' :=
    mk_db (filter (fun q => negb (Paciente.id q =? Paciente.id p)) (paciente_tbl db))
          (filter (fun x => negb (String.eqb (Cita.paciente_cedula x)
                                             (Paciente.cedula p))) (cita_tbl db)) in
  eliminar_paciente (Paciente.cedula p) (open_session db)
  = (Redirect "pacientes_registrados",
     mk_session db' [db'] [PacienteEliminado]).
Proof.
  intros [Hpk Hced Hcpk] Hp db'. subst db'.
  handler. rewrite (find_cedula_unique _ _ Hced Hp). cbn.
  unfold delete_paciente, bind, get_rows, set_rows, ret; cbn.
  rewrite for_each_delete_cita; cbn -[sin_ids].
  now rewrite (sin_ids_filter _ _ Hcpk).
Qed.

(** C3: deleting a patient that exists commits exactly once, and the state
    committed has lost that patient and every appointment whose
    [paciente_cedula] is the patient's identifier, and nothing else: the
    other patients and the other appointments are all there, in the same
    order.  No state is ever committed in which the patient is gone and
    one of these appointments remains. *)
Theorem eliminar_paciente_cascade (db : DB) (p : Paciente.t) :
  db_ok db -> In p (paciente_tbl db) ->
  let c := Paciente.cedula p in
  let s := run (eliminar_paciente c) db in
  let db' :=
    mk_db (filter (fun q => negb (Paciente.id q =? Paciente.id p)) (paciente_tbl db))
          (filter (fun x => negb (String.eqb (Cita.paciente_cedula x) c)) (cita_tbl db)) in
  commits s = [db'] /\ rows s = db' /\ durable db s = db' /\
  flashes s = [PacienteEliminado] /\ reported s = [] /\
  (forall q, In q (paciente_tbl db') <-> In q (paciente_tbl db) /\ q <> p) /\
  (forall x, In x (cita_tbl db') <->
             In x (cita_tbl db) /\ Cita.paciente_cedula x <> c) /\
  (forall d, In d (commits s) ->
             ~ In p (paciente_tbl d) /\
             forall x, In x (cita_tbl d) -> Cita.paciente_cedula x <> c).
Proof.
  intros Hok Hp c s db'. pose proof Hok as [Hpk Hced Hcpk].
  assert (Hs : s = mk_session db' [db'] [PacienteEliminado]).
  { subst s db' c. unfold run. now rewrite (eliminar_paciente_run db p Hok Hp). }
  assert (Hpac : forall q, In q (paciente_tbl db') <-> In q (paciente_tbl db) /\ q <> p).
  { intros q. subst db'; cbn. rewrite filter_In, negb_true_iff, Z.eqb_neq.
    split; intros [Hq Hne]; split; auto.
    - intros ->. now apply Hne.
    - intros E. apply Hne. now apply (NoDup_map_eq Paciente.id (paciente_tbl db)). }
  assert (Hcit : forall x, In x (cita_tbl db') <->
                           In x (cita_tbl db) /\ Cita.paciente_cedula x <> c).
  { intros x. subst db'; cbn.
    now rewrite filter_In, negb_true_iff, String.eqb_neq. }
  rewrite Hs; cbn [commits rows flashes durable last reported flat_map failure_of app].
  do 5 (split; [reflexivity | ]).
  split; [exact Hpac | ]. split; [exact Hcit | ].
  intros d [<- | []]. split.
  - intros Hin. apply Hpac in Hin. now destruct Hin.
  - intros x Hx. now apply Hcit in Hx.
Qed.

(** C3 on an example: without Ana, Bob is left and no appointment. *)
Lemma eliminar_paciente_cascade_witness :
  let s := run (eliminar_paciente "V123") db_ana_bob in
  let db' := mk_db [bob] [] in
  commits s = [db'] /\ rows s = db' /\ durable db_ana_bob s = db' /\
  flashes s = [PacienteEliminado] /\ reported s = [] /\
  (forall q, In q (paciente_tbl db') <-> In q (paciente_tbl db_ana_bob) /\ q <> ana) /\
  (forall x, In x (cita_tbl db') <->
             In x (cita_tbl db_ana_bob) /\ Cita.paciente_cedula x <> "V123") /\
  (forall d, In d (commits s) ->
             ~ In ana (paciente_tbl d) /\
             forall x, In x (cita_tbl d) -> Cita.paciente_cedula x <> "V123").
Proof.
  apply (eliminar_paciente_cascade db_ana_bob ana).
  - apply db_ana_bob_ok.
  - left; reflexivity.
Defined.

(** ** The retention step *)

Lemma perm_filter {A} (f : A -> bool) (l l' : list A) :
  Permutation l l' -> Permutation (filter f l) (filter f l').
Proof.
  induction 1 as [| x l l' _ IH | x y l | l l' l'' _ IH1 _ IH2]; cbn.
  - constructor.
  - destruct (f x); auto.
  - destruct (f x), (f y); auto. apply perm_swap.
  - now transitivity (filter f l').
Qed.

Lemma filter_none {A} (f : A -> bool) (l : list A) :
  (forall x, In x l -> f x = false) -> filter f l = [].
Proof.
  induction l as [| a l IH]; cbn; intros H; [reflexivity | ].
  rewrite (H a) by auto. auto.
Qed.

Lemma filter_every {A} (f : A -> bool) (l : list A) :
  (forall x, In x l -> f x = true) -> filter f l = l.
Proof.
  induction l as [| a l IH]; cbn; intros H; [reflexivity | ].
  rewrite (H a) by auto. f_equal. auto.
Qed.

Lemma NoDup_app_disjoint {A} (l1 l2 : list A) (a : A) :
  NoDup (l1 ++ l2) -> In a l1 -> In a l2 -> False.
Proof.
  induction l1 as [| x l1 IH]; cbn; [easy | ].
  intros ND [-> | H1] H2; inversion ND as [| ? ? Hx ND']; subst.
  - apply Hx. apply in_or_app. now right.
  - now apply IH.
Qed.

(** Deleting a prefix by id, when ids are unique, leaves the rest. *)
Lemma sin_ids_prefix (xs ys : list Cita.t) :
  NoDup (map Cita.id (xs ++ ys)) -> sin_ids xs (xs ++ ys) = ys.
Proof.
  intros ND. unfold sin_ids. rewrite filter_app.
  rewrite filter_none, filter_every; [reflexivity | | ].
  - intros y Hy. apply negb_true_iff.
    destruct (existsb _ xs) eqn:Ex; [ | reflexivity].
    apply existsb_exists in Ex. destruct Ex as [x [Hx Exy]].
    apply Z.eqb_eq in Exy. rewrite map_app in ND.
    exfalso. apply (NoDup_app_disjoint _ _ (Cita.id x) ND); [now apply in_map | ].
    rewrite <- Exy. now apply in_map.
  - intros x Hx. apply negb_false_iff. apply existsb_exists.
    exists x. split; [assumption | apply Z.eqb_refl].
Qed.

Lemma StronglySorted_app_r {A} (R : A -> A -> Prop) (l1 l2 : list A) :
  StronglySorted R (l1 ++ l2) -> StronglySorted R l2.
Proof.
  induction l1 as [| a l1 IH]; cbn; [easy | ].
  intros H. apply StronglySorted_inv in H. now apply IH.
Qed.

Lemma StronglySorted_app_cross {A} (R : A -> A -> Prop) (l1 l2 : list A) :
  StronglySorted R (l1 ++ l2) ->
  forall a b, In a l1 -> In b l2 -> R a b.
Proof.
  induction l1 as [| x l1 IH]; cbn; [easy | ].
  intros H a b [-> | Ha] Hb; apply StronglySorted_inv in H; destruct H as [H F].
  - rewrite Forall_forall in F. apply F. apply in_or_app. now right.
  - now apply IH.
Qed.

(** What trimming does to a table [tbl] with unique ids, given the sorted
    listing [sorted] of it: the [k] first rows of the listing go, the
    others stay, and no row that goes is later than a row that stays. *)
Lemma trim_spec (tbl sorted : list Cita.t) (k : nat) :
  NoDup (map Cita.id tbl) -> Permutation tbl sorted ->
  StronglySorted (fun a b => cita_leb a b = true) sorted ->
  let gone := firstn k sorted in
  let kept := sin_ids gone tbl in
  Permutation tbl (gone ++ kept) /\
  Permutation kept (skipn k sorted) /\
  (forall e r, In e gone -> In r kept -> cita_leb e r = true).
Proof.
  intros ND HP HS gone kept.
  assert (NDs : NoDup (map Cita.id sorted)).
  { eapply Permutation_NoDup; [ | exact ND]. now apply Permutation_map. }
  assert (Hk : Permutation kept (skipn k sorted)).
  { subst kept. rewrite <- (sin_ids_prefix gone (skipn k sorted)).
    - subst gone. rewrite firstn_skipn. now apply perm_filter.
    - subst gone. now rewrite firstn_skipn. }
  split; [ | split; [exact Hk | ]].
  - transitivity sorted; [exact HP | ].
    rewrite <- (firstn_skipn k sorted) at 1.
    apply Permutation_app_head. now symmetry.
  - intros e r He Hr.
    rewrite <- (firstn_skipn k sorted) in HS.
    apply (StronglySorted_app_cross _ _ _ HS); [exact He | ].
    eapply Permutation_in; eauto.
Qed.

Lemma nth_error_skipn {A} (l : list A) (i : nat) (x : A) :
  nth_error l i = Some x -> skipn i l = x :: skipn (S i) l.
Proof.
  revert l. induction i as [| i IH]; intros [| a l]; cbn; try discriminate.
  - now intros [= ->].
  - intros H. now apply IH in H.
Qed.

(** The loop of lines 124-125 deletes the first rows of the listing. *)
Lemma for_each_range_delete (todas : list Cita.t) (n a : nat) (s : Session) :
  (a + n <= List.length todas)%nat ->
  for_each (seq a n)
    (fun i => match nth_error todas i with
              | Some x => delete_cita x
              | None => ret tt
              end) s
  = for_each (firstn n (skipn a todas)) delete_cita s.
Proof.
  revert a s. induction n as [| n IH]; intros a s Hlen; [reflexivity | ].
  cbn [seq for_each].
  destruct (nth_error todas a) as [x |] eqn:E.
  - rewrite (nth_error_skipn todas a x E). cbn [firstn for_each]. unfold bind.
    destruct (delete_cita x s) as [u s']. apply IH. lia.
  - apply nth_error_None in E. lia.
Qed.

Lemma limpiar_citas_run (ob : OrderBy) (s : Session) :
  order_by_ok ob ->
  limpiar_citas ob s =
  if (20 <? List.length (cita_tbl (rows s)))%nat
  then (tt, mk_session (trimmed ob (rows s))
                       (commits s ++ [trimmed ob (rows s)])
                       (flashes s ++
                          [CitasEliminadas (List.length (cita_tbl (rows s)) - 20)]))
  else (tt, s).
Proof.
  intros [HP _]. unfold limpiar_citas, query_citas_asc, bind, get_rows, ret.
  assert (HL : List.length (ob (cita_tbl (rows s))) = List.length (cita_tbl (rows s))).
  { symmetry. apply Permutation_length, HP. }
  rewrite HL. destruct (20 <? _)%nat eqn:E; [ | reflexivity].
  rewrite for_each_range_delete by (rewrite HL; lia).
  rewrite for_each_delete_cita. reflexivity.
Qed.

(** C6: below the limit the retention step is a no-op.  In every state of
    the session with at most 20 appointments, [limpiar_citas] deletes
    nothing, commits nothing and flashes nothing: it returns the state it
    was given. *)
Theorem limpiar_citas_noop (ob : OrderBy) (s : Session) :
  order_by_ok ob ->
  (List.length (cita_tbl (rows s)) <= 20)%nat ->
  limpiar_citas ob s = (tt, s).
Proof.
  intros Hob Hlen. rewrite (limpiar_citas_run ob s Hob).
  destruct (Nat.ltb_spec 20 (List.length (cita_tbl (rows s)))); [lia | reflexivity].
Qed.

(** [orden_estable] is an [ORDER BY fecha_cita ASC]. *)
Lemma insert_cita_perm (x : Cita.t) (l : list Cita.t) :
  Permutation (x :: l) (insert_cita x l).
Proof.
  induction l as [| y l IH]; cbn; [reflexivity | ].
  destruct (cita_leb x y); [reflexivity | ].
  rewrite perm_swap. now apply perm_skip.
Qed.

Lemma insert_cita_sorted (x : Cita.t) (l : list Cita.t) :
  StronglySorted (fun a b => cita_leb a b = true) l ->
  StronglySorted (fun a b => cita_leb a b = true) (insert_cita x l).
Proof.
  induction 1 as [| y l HS IH HF]; cbn.
  - repeat constructor.
  - destruct (cita_leb x y) eqn:E.
    + constructor; [now constructor | ].
      constructor; [exact E | ].
      eapply Forall_impl; [ | exact HF].
      intros z Hz. eapply datetime_leb_trans; eauto.
    + constructor; [exact IH | ].
      eapply Permutation_Forall; [apply insert_cita_perm | ].
      constructor; [ | exact HF].
      destruct (datetime_leb_total (Cita.fecha_cita x) (Cita.fecha_cita y));
        [unfold cita_leb in E; congruence | assumption].
Qed.

Lemma orden_estable_ok : order_by_ok orden_estable.
Proof.
  split; intros l; induction l as [| x l IH]; cbn.
  - constructor.
  - etransitivity; [apply perm_skip, IH | apply insert_cita_perm].
  - constructor.
  - now apply insert_cita_sorted.
Qed.

(** C6 on an example: one appointment stored. *)
Lemma limpiar_citas_noop_witness :
  limpiar_citas orden_estable (open_session db_ana_bob)
  = (tt, open_session db_ana_bob).
Proof.
  apply (limpiar_citas_noop orden_estable (open_session db_ana_bob)).
  - apply orden_estable_ok.
  - cbn. lia.
Defined.

(** ** Scheduling an appointment *)

Lemma next_id_fresh (ids : list Z) : ~ In (next_id ids) ids.
Proof.
  assert (H : forall x, In x ids -> x <= fold_right Z.max 0 ids).
  { induction ids as [| y ids IH]; cbn; [easy | ].
    intros x [-> | Hx]; [lia | ]. apply IH in Hx. lia. }
  intros Hin. apply H in Hin. unfold next_id in Hin. lia.
Qed.

Lemma inserted_pk (db : DB) (f : FormCita) (fecha : datetime) :
  NoDup (map Cita.id (cita_tbl db)) ->
  NoDup (map Cita.id (cita_tbl (inserted db f fecha))).
Proof.
  intros ND. cbn. rewrite map_app. cbn.
  apply NoDup_app; [exact ND | repeat constructor; easy | ].
  intros a Ha [<- | []]. now apply next_id_fresh in Ha.
Qed.

Lemma nueva_cita_not_stored (db : DB) (f : FormCita) (fecha : datetime) :
  ~ In (nueva_cita db f fecha) (cita_tbl db).
Proof.
  intros Hin. apply (next_id_fresh (map Cita.id (cita_tbl db))).
  change (next_id (map Cita.id (cita_tbl db))) with (Cita.id (nueva_cita db f fecha)).
  now apply in_map.
Qed.

(** A successful [POST /citas], step by step. *)
Lemma citas_run (ob : OrderBy) (db : DB) (f : FormCita) (fecha : datetime) :
  order_by_ok ob ->
  has_cedula db (form_paciente_cedula f) ->
  strptime_datetime (form_fecha_cita f) = Some fecha ->
  let db1 := inserted db f fecha in
  let n := List.length (cita_tbl db1) in
  citas ob (POST f) (open_session db) =
  (Redirect "citas",
   if (20 <? n)%nat
   then mk_session (trimmed ob db1) [db1; trimmed ob db1]
                   [CitasEliminadas (n - 20); CitaAgendada]
   else mk_session db1 [db1] [CitaAgendada]).
Proof.
  intros Hob Hpac Hfecha db1 n.
  apply find_cedula_some in Hpac. destruct Hpac as [q Hq].
  unfold citas, query_paciente, add_cita, bind, get_rows, set_rows, commit,
    flash, ret, open_session.
  cbn [rows commits flashes paciente_tbl cita_tbl app].
  rewrite Hfecha. cbn [rows commits flashes paciente_tbl cita_tbl app].
  rewrite Hq. cbn [rows commits flashes paciente_tbl cita_tbl app].
  rewrite (limpiar_citas_run ob _ Hob).
  cbn [rows commits flashes paciente_tbl cita_tbl app].
  fold (nueva_cita db f fecha). fold (inserted db f fecha). fold db1.
  change (List.length (cita_tbl db ++ [nueva_cita db f fecha])) with n.
  destruct (20 <? n)%nat; reflexivity.
Qed.

(** *** Appointments scheduled in increasing order *)

Lemma StronglySorted_map {A B} (R : B -> B -> Prop) (g : A -> B) (l : list A) :
  StronglySorted R (map g l) -> StronglySorted (fun a b => R (g a) (g b)) l.
Proof.
  induction l as [| a l IH]; cbn; intros H; constructor;
    apply StronglySorted_inv in H; destruct H as [H F].
  - now apply IH.
  - rewrite Forall_forall in *. intros x Hx. apply F. now apply in_map.
Qed.

(** A table whose keys strictly increase has one sorted listing: itself. *)
Lemma sorted_listing_unique (l l' : list Cita.t) :
  StronglySorted (fun a b => cita_ltb a b = true) l ->
  Permutation l l' ->
  StronglySorted (fun a b => cita_leb a b = true) l' ->
  l' = l.
Proof.
  intros HS. revert l'. induction HS as [| a t HS IH HF]; intros l' HP HS'.
  - now apply Permutation_nil in HP.
  - destruct l' as [| b t']; [now apply Permutation_sym, Permutation_nil in HP | ].
    apply StronglySorted_inv in HS'. destruct HS' as [HS' HF'].
    rewrite Forall_forall in HF, HF'.
    assert (E : b = a).
    { assert (Hb : In b (a :: t))
        by (eapply Permutation_in; [symmetry; exact HP | now left]).
      destruct Hb as [-> | Hb]; [reflexivity | ].
      assert (Ha : In a (b :: t'))
        by (eapply Permutation_in; [exact HP | now left]).
      destruct Ha as [-> | Ha]; [reflexivity | ].
      exfalso. apply (datetime_leb_ltb_absurd (Cita.fecha_cita b) (Cita.fecha_cita a)).
      - now apply HF'.
      - now apply HF. }
    subst b. f_equal. apply IH; [ | exact HS'].
    now apply Permutation_cons_inv in HP.
Qed.

Lemma lastn_short {A} (n : nat) (l : list A) :
  (List.length l <= n)%nat -> lastn n l = l.
Proof. intros H. unfold lastn. now replace (List.length l - n)%nat with 0%nat by lia. Qed.

Lemma lastn_length {A} (n : nat) (l : list A) :
  List.length (lastn n l) = Nat.min n (List.length l).
Proof. unfold lastn. rewrite length_skipn. lia. Qed.

Lemma lastn_lastn_app {A} (n : nat) (p q : list A) :
  lastn n (lastn n p ++ q) = lastn n (p ++ q).
Proof.
  unfold lastn at 1 3. rewrite !length_app, lastn_length, !skipn_app.
  unfold lastn. rewrite skipn_skipn, length_skipn.
  f_equal; f_equal; lia.
Qed.

Lemma lastn_map {A B} (g : A -> B) (n : nat) (l : list A) :
  map g (lastn n l) = lastn n (map g l).
Proof. unfold lastn. now rewrite length_map, skipn_map. Qed.

(** Scheduling an appointment later than all the stored ones keeps the 20
    last rows of the table with the new row appended. *)
Lemma citas_ascending_step (ob : OrderBy) (db : DB) (f : FormCita) (fecha : datetime) :
  order_by_ok ob ->
  has_cedula db (form_paciente_cedula f) ->
  strptime_datetime (form_fecha_cita f) = Some fecha ->
  NoDup (map Cita.id (cita_tbl db)) ->
  StronglySorted (fun a b => datetime_ltb a b = true)
                 (map Cita.fecha_cita (cita_tbl db) ++ [fecha]) ->
  durable db (run (citas ob (POST f)) db)
  = mk_db (paciente_tbl db) (lastn 20 (cita_tbl (inserted db f fecha))).
Proof.
  intros Hob Hpac Hfecha ND HS.
  unfold run. rewrite (citas_run ob db f fecha Hob Hpac Hfecha).
  set (db1 := inserted db f fecha).
  assert (ND1 : NoDup (map Cita.id (cita_tbl db1))) by now apply inserted_pk.
  destruct (Nat.ltb_spec 20 (List.length (cita_tbl db1))) as [L | L]; cbn [snd durable commits last].
  - unfold trimmed. f_equal.
    assert (E : ob (cita_tbl db1) = cita_tbl db1).
    { apply sorted_listing_unique; [ | apply Hob | apply Hob].
      apply (StronglySorted_map (fun a b => datetime_ltb a b = true) Cita.fecha_cita).
      subst db1. cbn. now rewrite map_app. }
    rewrite E. unfold lastn.
    pose proof (sin_ids_prefix (firstn (List.length (cita_tbl db1) - 20) (cita_tbl db1))
                  (skipn (List.length (cita_tbl db1) - 20) (cita_tbl db1))) as P.
    rewrite firstn_skipn in P. now apply P.
  - now rewrite lastn_short.
Qed.

Lemma StronglySorted_app_l {A} (R : A -> A -> Prop) (l1 l2 : list A) :
  StronglySorted R (l1 ++ l2) -> StronglySorted R l1.
Proof.
  induction l1 as [| a l1 IH]; cbn; intros H; constructor;
    apply StronglySorted_inv in H; destruct H as [H F].
  - now apply IH.
  - rewrite Forall_app in F. now destruct F.
Qed.

Lemma NoDup_lastn_ids (n : nat) (l : list Cita.t) :
  NoDup (map Cita.id l) -> NoDup (map Cita.id (lastn n l)).
Proof.
  intros ND. unfold lastn. rewrite <- skipn_map.
  rewrite <- (firstn_skipn (List.length l - n) (map Cita.id l)) in ND.
  now apply NoDup_app_remove_l in ND.
Qed.

(** Requests in increasing order of [fecha_cita], all later than what is
    stored: at the end the table holds the 20 latest, in order. *)
Lemma agendar_ascending (ob : OrderBy) (fs : list FormCita) (fechas : list datetime) :
  order_by_ok ob ->
  Forall2 (fun f d => strptime_datetime (form_fecha_cita f) = Some d) fs fechas ->
  forall db,
    Forall (fun f => has_cedula db (form_paciente_cedula f)) fs ->
    NoDup (map Cita.id (cita_tbl db)) ->
    (List.length (cita_tbl db) <= 20)%nat ->
    StronglySorted (fun a b => datetime_ltb a b = true)
                   (map Cita.fecha_cita (cita_tbl db) ++ fechas) ->
    let db' := agendar_todas ob fs db in
    paciente_tbl db' = paciente_tbl db /\
    NoDup (map Cita.id (cita_tbl db')) /\
    map Cita.fecha_cita (cita_tbl db')
    = lastn 20 (map Cita.fecha_cita (cita_tbl db) ++ fechas).
Proof.
  intros Hob HF.
  induction HF as [| f d fs fechas Hf HF IH]; intros db Hpac ND Hlen HS.
  - cbn. rewrite app_nil_r. repeat split; auto.
    rewrite lastn_short; [reflexivity | now rewrite length_map].
  - inversion Hpac as [| ? ? Hpf Hpfs]; subst.
    assert (HS1 : StronglySorted (fun a b => datetime_ltb a b = true)
                    (map Cita.fecha_cita (cita_tbl db) ++ [d])).
    { apply StronglySorted_app_l with (l2 := fechas).
      now rewrite <- app_assoc. }
    cbn [agendar_todas fold_left].
    rewrite (citas_ascending_step ob db f d Hob Hpf Hf ND HS1).
    set (db1 := mk_db _ _).
    assert (E1 : map Cita.fecha_cita (cita_tbl db1)
                 = lastn 20 (map Cita.fecha_cita (cita_tbl db) ++ [d])).
    { subst db1. cbn [cita_tbl inserted]. now rewrite lastn_map, map_app. }
    destruct (IH db1) as [HP [HN HM]].
    + exact Hpfs.
    + subst db1. cbn [cita_tbl]. apply NoDup_lastn_ids. now apply inserted_pk.
    + subst db1. cbn [cita_tbl]. rewrite lastn_length. lia.
    + rewrite E1. unfold lastn.
      apply StronglySorted_app_r
        with (l1 := firstn (List.length (map Cita.fecha_cita (cita_tbl db) ++ [d]) - 20)
                           (map Cita.fecha_cita (cita_tbl db) ++ [d])).
      rewrite app_assoc, firstn_skipn, <- app_assoc. exact HS.
    + fold (agendar_todas ob fs db1). split; [exact HP | split; [exact HN | ]].
      rewrite HM, E1, lastn_lastn_app, <- app_assoc. reflexivity.
Qed.

(** C1: the retention step after a successful [POST /citas].  For every
    store with its keys unique, once the appointment is inserted and
    committed, the rows deleted are the [count - 20] first rows of the
    listing by ascending [fecha_cita] (none when the count is at most 20):
    with the rows that remain they make up the table as it was after the
    insert, whatever the order of the rows in the table, no deleted row is
    later than a remaining one, and [min 20 count] rows remain, so never
    more than 20.  In particular, from a store without appointments, 25
    appointments scheduled with strictly increasing [fecha_cita] leave
    exactly 20, those of the 20 latest times in order, and the times of the
    5 earliest are gone. *)
Theorem citas_retention (ob : OrderBy) :
  order_by_ok ob ->
  (forall (db : DB) (f : FormCita) (fecha : datetime),
      db_ok db ->
      has_cedula db (form_paciente_cedula f) ->
      strptime_datetime (form_fecha_cita f) = Some fecha ->
      let s := run (citas ob (POST f)) db in
      let antes := cita_tbl (inserted db f fecha) in
      let queda := cita_tbl (durable db s) in
      let eliminadas := firstn (List.length antes - 20) (ob antes) in
      reported s = [] /\ In CitaAgendada (flashes s) /\
      hd_error (commits s) = Some (inserted db f fecha) /\
      Permutation antes (eliminadas ++ queda) /\
      List.length eliminadas = (List.length antes - 20)%nat /\
      List.length queda = Nat.min 20 (List.length antes) /\
      (forall e r, In e eliminadas -> In r queda -> cita_leb e r = true) /\
      paciente_tbl (durable db s) = paciente_tbl db) /\
  (forall (db : DB) (fs : list FormCita) (fechas : list datetime),
      db_ok db -> cita_tbl db = [] ->
      Forall (fun f => has_cedula db (form_paciente_cedula f)) fs ->
      Forall2 (fun f d => strptime_datetime (form_fecha_cita f) = Some d) fs fechas ->
      List.length fs = 25%nat ->
      StronglySorted (fun a b => datetime_ltb a b = true) fechas ->
      let db' := agendar_todas ob fs db in
      List.length (cita_tbl db') = 20%nat /\
      map Cita.fecha_cita (cita_tbl db') = skipn 5 fechas /\
      (forall d, In d (firstn 5 fechas) ->
                 ~ In d (map Cita.fecha_cita (cita_tbl db')))).
Proof.
  intros Hob. split.
  - intros db f fecha [_ _ Hpk] Hpac Hfecha s antes queda eliminadas.
    assert (ND : NoDup (map Cita.id antes)) by now apply inserted_pk.
    assert (HL : List.length (ob antes) = List.length antes)
      by (symmetry; apply Permutation_length, Hob).
    destruct (trim_spec antes (ob antes) (List.length antes - 20) ND)
      as [T1 [T2 T3]]; [apply Hob | apply Hob | ].
    apply Permutation_length in T2. rewrite length_skipn in T2.
    fold eliminadas in T1, T2, T3.
    pose proof (citas_run ob db f fecha Hob Hpac Hfecha) as Hrun.
    cbv zeta in Hrun. fold antes in Hrun.
    subst s queda. unfold run. rewrite Hrun.
    destruct (Nat.ltb_spec 20 (List.length antes)) as [L | L];
      cbn [snd durable commits last flashes reported flat_map failure_of app
             hd_error rows].
    + unfold trimmed. cbn [cita_tbl paciente_tbl]. fold antes. fold eliminadas.
      repeat split; auto.
      * cbn; auto.
      * subst eliminadas. rewrite length_firstn. lia.
      * lia.
    + assert (E : eliminadas = []).
      { subst eliminadas. now replace (List.length antes - 20)%nat with 0%nat by lia. }
      rewrite E. cbn [app List.length].
      split; [reflexivity | ]. split; [now left | ].
      split; [reflexivity | ]. split; [reflexivity | ].
      split; [lia | ]. split; [fold antes; lia | ].
      split; [intros e r [] | reflexivity].
  - intros db fs fechas [_ _ Hpk] Hempty Hpac HF Hlen HS db'.
    destruct (agendar_ascending ob fs fechas Hob HF db Hpac Hpk) as [_ [_ HM]].
    + rewrite Hempty. cbn. lia.
    + now rewrite Hempty.
    + fold db' in HM. rewrite Hempty in HM. cbn [map app] in HM.
      assert (Hlen' : List.length fechas = 25%nat)
        by (rewrite <- (Forall2_length HF); exact Hlen).
      unfold lastn in HM. rewrite Hlen' in HM. cbn [Nat.sub] in HM.
      split; [ | split; [exact HM | ]].
      * rewrite <- (length_map Cita.fecha_cita), HM, length_skipn. lia.
      * intros d H1 H2. rewrite HM in H2.
        rewrite <- (firstn_skipn 5 fechas) in HS.
        pose proof (StronglySorted_app_cross _ _ _ HS d d H1 H2) as Hdd.
        cbv beta in Hdd. now rewrite datetime_ltb_irrefl in Hdd.
Qed.

Lemma ascending_sorted (l : list datetime) :
  ascending l = true -> StronglySorted (fun a b => datetime_ltb a b = true) l.
Proof.
  induction l as [| a l IH]; cbn; intros H; constructor;
    apply andb_true_iff in H; destruct H as [H1 H2].
  - now apply IH.
  - apply Forall_forall. now apply forallb_forall.
Qed.

Lemma db_sin_citas_ok : db_ok db_sin_citas.
Proof. apply db_okb_ok. reflexivity. Qed.

Lemma db_lleno_ok : db_ok db_lleno.
Proof. apply db_okb_ok. reflexivity. Qed.

(** C1 on examples: a 21st appointment in a full table, and the 25
    appointments of March 2024. *)
Lemma citas_retention_witness :
  (let f := mk_form_cita "V456" "2024-03-05T08:00" "Control" in
   let fecha := mk_datetime 2024 3 5 8 0 in
   let s := run (citas orden_estable (POST f)) db_lleno in
   let antes := cita_tbl (inserted db_lleno f fecha) in
   let queda := cita_tbl (durable db_lleno s) in
   let eliminadas := firstn (List.length antes - 20) (orden_estable antes) in
   reported s = [] /\ In CitaAgendada (flashes s) /\
   hd_error (commits s) = Some (inserted db_lleno f fecha) /\
   Permutation antes (eliminadas ++ queda) /\
   List.length eliminadas = (List.length antes - 20)%nat /\
   List.length queda = Nat.min 20 (List.length antes) /\
   (forall e r, In e eliminadas -> In r queda -> cita_leb e r = true) /\
   paciente_tbl (durable db_lleno s) = paciente_tbl db_lleno) /\
  (let db' := agendar_todas orden_estable formularios_25 db_sin_citas in
   List.length (cita_tbl db') = 20%nat /\
   map Cita.fecha_cita (cita_tbl db') = skipn 5 fechas_25 /\
   (forall d, In d (firstn 5 fechas_25) ->
              ~ In d (map Cita.fecha_cita (cita_tbl db')))).
Proof.
  destruct (citas_retention orden_estable orden_estable_ok) as [H1 H25].
  split.
  - apply (H1 db_lleno (mk_form_cita "V456" "2024-03-05T08:00" "Control")
              (mk_datetime 2024 3 5 8 0)).
    + apply db_lleno_ok.
    + exists bob. split; [right; left; reflexivity | reflexivity].
    + reflexivity.
  - apply (H25 db_sin_citas formularios_25 fechas_25).
    + apply db_sin_citas_ok.
    + reflexivity.
    + apply Forall_forall. intros f Hf. exists ana. split; [now left | ].
      unfold formularios_25 in Hf. apply in_map_iff in Hf.
      destruct Hf as [d [<- _]]. reflexivity.
    + unfold formularios_25, fechas_25, dias_25. cbn [map seq].
      repeat (constructor; [reflexivity | ]). constructor.
    + reflexivity.
    + apply ascending_sorted. reflexivity.
Defined.

(** The 21st appointment, of the 5th of March at 08:00, pushes out the one
    of the 1st of March. *)
Example citas_21 :
  map Cita.id
      (cita_tbl (durable db_lleno
                   (run (citas orden_estable
                           (POST (mk_form_cita "V456" "2024-03-05T08:00" "Control")))
                        db_lleno)))
  = map Z.of_nat (seq 2 20).
Proof. vm_compute. reflexivity. Qed.

(** The 25 appointments: the rows that remain are those inserted 6th to
    25th. *)
Example agendar_25 :
  map Cita.id (cita_tbl (agendar_todas orden_estable formularios_25 db_sin_citas))
  = map Z.of_nat (seq 6 20).
Proof. vm_compute. reflexivity. Qed.

(** *** An appointment earlier than 20 stored ones *)

(** With unique ids, a full table and a new appointment earlier than every
    stored one, the listing starts with the new row, which is the one the
    retention step deletes: the request leaves the database as it found
    it. *)
Lemma citas_earliest_is_trimmed
  (ob : OrderBy) (db : DB) (f : FormCita) (fecha : datetime) :
  order_by_ok ob ->
  has_cedula db (form_paciente_cedula f) ->
  strptime_datetime (form_fecha_cita f) = Some fecha ->
  NoDup (map Cita.id (cita_tbl db)) ->
  List.length (cita_tbl db) = 20%nat ->
  Forall (fun x => datetime_ltb fecha (Cita.fecha_cita x) = true) (cita_tbl db) ->
  citas ob (POST f) (open_session db)
  = (Redirect "citas",
     mk_session db [inserted db f fecha; db] [CitasEliminadas 1; CitaAgendada]).
Proof.
  intros Hob Hpac Hfecha ND Hlen Hlater.
  rewrite (citas_run ob db f fecha Hob Hpac Hfecha).
  set (nueva := nueva_cita db f fecha).
  assert (Hn : List.length (cita_tbl (inserted db f fecha)) = 21%nat)
    by (cbn; rewrite length_app, Hlen; reflexivity).
  rewrite Hn. cbn [Nat.ltb Nat.leb Nat.sub].
  assert (Hhead : firstn 1 (ob (cita_tbl (inserted db f fecha))) = [nueva]).
  { destruct Hob as [HP HS].
    specialize (HP (cita_tbl (inserted db f fecha))).
    specialize (HS (cita_tbl (inserted db f fecha))).
    destruct (ob (cita_tbl (inserted db f fecha))) as [| h t].
    - apply Permutation_length in HP. rewrite Hn in HP. discriminate.
    - cbn. f_equal.
      assert (Hh : In h (cita_tbl db ++ [nueva]))
        by (eapply Permutation_in; [symmetry; exact HP | now left]).
      apply in_app_or in Hh. destruct Hh as [Hh | [<- | []]]; [ | reflexivity].
      exfalso.
      assert (Hnv : In nueva (h :: t)).
      { eapply Permutation_in; [exact HP | ]. cbn. apply in_or_app. right. now left. }
      rewrite Forall_forall in Hlater. specialize (Hlater h Hh).
      destruct Hnv as [E | Hnv].
      + rewrite E in Hlater. cbn in Hlater.
        now rewrite datetime_ltb_irrefl in Hlater.
      + apply StronglySorted_inv in HS. destruct HS as [_ HF].
        rewrite Forall_forall in HF. specialize (HF nueva Hnv).
        now apply (datetime_leb_ltb_absurd _ _ HF). }
  assert (Hs : sin_ids [nueva] (cita_tbl db ++ [nueva]) = cita_tbl db).
  { unfold sin_ids. rewrite filter_app. cbn [filter existsb].
    rewrite Z.eqb_refl. cbn [orb negb]. rewrite app_nil_r.
    apply filter_every. intros y Hy.
    rewrite orb_false_r. apply negb_true_iff, Z.eqb_neq. intros E.
    apply (next_id_fresh (map Cita.id (cita_tbl db))).
    change (next_id (map Cita.id (cita_tbl db))) with (Cita.id nueva).
    rewrite <- E. now apply in_map. }
  assert (Htrim : trimmed ob (inserted db f fecha) = db).
  { unfold trimmed. rewrite Hn. cbn [Nat.sub]. rewrite Hhead.
    cbn [inserted paciente_tbl cita_tbl]. fold nueva. rewrite Hs.
    now destruct db. }
  now rewrite Htrim.
Qed.

(** C10: scheduling can report success and keep nothing.  The store
    [db_lleno] holds 20 appointments, all of March 2024; a request for the
    10th of January parses, finds its patient and is answered with the
    success message and the redirect, for whichever listing order of equal
    keys; yet the appointment inserted is not in the resulting store, which
    holds the same 20 appointments as before. *)
Theorem citas_success_without_appointment :
  exists (db : DB) (f : FormCita) (fecha : datetime),
    db_ok db /\
    List.length (cita_tbl db) = 20%nat /\
    strptime_datetime (form_fecha_cita f) = Some fecha /\
    Forall (fun x => datetime_ltb fecha (Cita.fecha_cita x) = true) (cita_tbl db) /\
    forall ob : OrderBy, order_by_ok ob ->
      let s := run (citas ob (POST f)) db in
      fst (citas ob (POST f) (open_session db)) = Redirect "citas" /\
      reported s = [] /\
      flashes s = [CitasEliminadas 1; CitaAgendada] /\
      commits s = [inserted db f fecha; db] /\
      ~ In (nueva_cita db f fecha) (cita_tbl (durable db s)) /\
      (forall x, In x (cita_tbl (durable db s)) -> Cita.fecha_cita x <> fecha) /\
      cita_tbl (durable db s) = cita_tbl db /\
      List.length (cita_tbl (durable db s)) = 20%nat.
Proof.
  exists db_lleno, (mk_form_cita "V123" "2024-01-10T09:00" "Checkup"),
    (mk_datetime 2024 1 10 9 0).
  pose proof db_lleno_ok as Hok.
  assert (Hlater : Forall (fun x => datetime_ltb (mk_datetime 2024 1 10 9 0)
                                                 (Cita.fecha_cita x) = true)
                          (cita_tbl db_lleno)).
  { apply Forall_forall, forallb_forall. reflexivity. }
  split; [exact Hok | ]. split; [reflexivity | ]. split; [reflexivity | ].
  split; [exact Hlater | ].
  intros ob Hob s. subst s. unfold run.
  rewrite (citas_earliest_is_trimmed ob db_lleno
             (mk_form_cita "V123" "2024-01-10T09:00" "Checkup")
             (mk_datetime 2024 1 10 9 0) Hob);
    [ | exists ana; split; [now left | reflexivity] | reflexivity
      | apply Hok | reflexivity | exact Hlater ].
  cbn [fst snd durable commits last flashes reported flat_map failure_of app hd_error].
  repeat split.
  - apply nueva_cita_not_stored.
  - intros x Hx E. rewrite Forall_forall in Hlater. specialize (Hlater x Hx).
    rewrite E in Hlater. now rewrite datetime_ltb_irrefl in Hlater.
Qed.

(** C10 with the listing [orden_estable]. *)
Lemma citas_success_without_appointment_witness :
  exists (db : DB) (f : FormCita) (fecha : datetime),
    let s := run (citas orden_estable (POST f)) db in
    reported s = [] /\
    flashes s = [CitasEliminadas 1; CitaAgendada] /\
    ~ In (nueva_cita db f fecha) (cita_tbl (durable db s)) /\
    List.length (cita_tbl (durable db s)) = 20%nat.
Proof.
  destruct citas_success_without_appointment
    as (db & f & fecha & _ & _ & _ & _ & H).
  exists db, f, fecha.
  destruct (H orden_estable orden_estable_ok) as (_ & H1 & H2 & _ & H3 & _ & _ & H4).
  repeat split; assumption.
Defined.

(** ** Renaming a patient *)

(** What a successful [POST /modificar_paciente/<cedula>] does to the two
    tables: the row of the patient is rewritten, [cita] is not touched. *)
Lemma modificar_paciente_run
  (db : DB) (p : Paciente.t) (f : FormPaciente) (nac : date) :
  db_ok db -> In p (paciente_tbl db) ->
  strptime_date (form_fecha_nacimiento f) = Some nac ->
  (forall q, In q (paciente_tbl db) -> Paciente.cedula q <> form_cedula f) ->
  let db' :=
    mk_db (map (fun q => if Paciente.id q =? Paciente.id p
                         then Paciente.mk (Paciente.id q) (form_nombre f)
                                          (form_cedula f) nac
                         else q) (paciente_tbl db))
          (cita_tbl db) in
  modificar_paciente (Paciente.cedula p) (POST f) (open_session db)
  = (Redirect "pacientes_registrados",
     mk_session db' [db'] [PacienteModificado]).
Proof.
  intros [_ Hced _] Hp Hfecha Hfresh db'.
  assert (Hne : String.eqb (form_cedula f) (Paciente.cedula p) = false).
  { apply String.eqb_neq. intros E. now apply (Hfresh p Hp). }
  handler. rewrite (find_cedula_unique _ _ Hced Hp). cbn.
  rewrite Hfecha, Hne. cbn. rewrite (find_cedula_none _ _ Hfresh). reflexivity.
Qed.

(** After a rename to an identifier nobody holds, the appointments of the
    patient are all still stored under the old identifier, which no
    patient holds any more. *)
Lemma modificar_paciente_leaves_citas
  (db : DB) (p : Paciente.t) (f : FormPaciente) (nac : date) (x : Cita.t) :
  db_ok db -> In p (paciente_tbl db) ->
  strptime_date (form_fecha_nacimiento f) = Some nac ->
  (forall q, In q (paciente_tbl db) -> Paciente.cedula q <> form_cedula f) ->
  In x (cita_tbl db) -> Cita.paciente_cedula x = Paciente.cedula p ->
  let db' := durable db (run (modificar_paciente (Paciente.cedula p) (POST f)) db) in
  In x (cita_tbl db') /\ ~ has_cedula db' (Cita.paciente_cedula x).
Proof.
  intros Hok Hp Hfecha Hfresh Hx Hxp db'. subst db'. unfold run.
  rewrite (modificar_paciente_run db p f nac Hok Hp Hfecha Hfresh).
  cbn [snd durable commits last cita_tbl paciente_tbl].
  split; [exact Hx | ].
  intros [q [Hq Hc]]. apply in_map_iff in Hq. destruct Hq as [q0 [Hq0 Hin]].
  rewrite Hxp in Hc. destruct (Z.eqb_spec (Paciente.id q0) (Paciente.id p)) as [E | E].
  - subst q. cbn in Hc. apply (Hfresh p Hp). now symmetry.
  - subst q. apply E. f_equal.
    destruct Hok as [_ Hced _].
    now apply (NoDup_map_eq Paciente.cedula (paciente_tbl db)).
Qed.

(** C2 fails on the code.  In [db_ana] every appointment refers to a
    patient.  Ana, who has an appointment, is renamed from V123 to V999:
    the request succeeds, and afterwards the appointment still carries
    V123, an identifier that no patient holds. *)
Theorem modificar_paciente_orphans_citas :
  let f := mk_form_paciente "Ana" "V999" "1990-05-20" in
  let s := run (modificar_paciente "V123" (POST f)) db_ana in
  let db' := durable db_ana s in
  db_ok db_ana /\
  (forall x, In x (cita_tbl db_ana) -> has_cedula db_ana (Cita.paciente_cedula x)) /\
  reported s = [] /\ flashes s = [PacienteModificado] /\
  paciente_tbl db' = [Paciente.mk 1 "Ana" "V999" (mk_date 1990 5 20)] /\
  cita_tbl db' = [chequeo] /\
  Cita.paciente_cedula chequeo = "V123" /\
  ~ has_cedula db' (Cita.paciente_cedula chequeo).
Proof.
  cbn zeta. split; [apply db_okb_ok; reflexivity | ].
  split; [ | repeat split ].
  - intros x [<- | []]. exists ana. split; [now left | reflexivity].
  - intros [q [[<- | []] Hc]]. discriminate.
Qed.

(** ** The birth date, from the form to the table and back *)

Lemma digit_val_digit_char (k : Z) :
  0 <= k <= 9 -> digit_val (digit_char k) = k.
Proof.
  intros H. unfold digit_val, digit_char.
  rewrite nat_ascii_embedding by lia. lia.
Qed.

Lemma re_range_hit (lo hi k : Z) (r : list ascii) :
  0 <= k <= 9 -> lo <= k <= hi ->
  re_range lo hi (digit_char k :: r) = [(k, r)].
Proof.
  intros H0 H. unfold re_range. cbv zeta. rewrite digit_val_digit_char by exact H0.
  destruct (Z.leb_spec lo k), (Z.leb_spec k hi); try lia. reflexivity.
Qed.

Lemma re_digit_hit (k : Z) (r : list ascii) :
  0 <= k <= 9 -> re_digit (digit_char k :: r) = [(k, r)].
Proof.
  intros H.
  assert (C : k = 0 \/ k = 1 \/ k = 2 \/ k = 3 \/ k = 4 \/
              k = 5 \/ k = 6 \/ k = 7 \/ k = 8 \/ k = 9) by lia.
  repeat (destruct C as [-> | C]; [reflexivity | ]). subst k. reflexivity.
Qed.

Lemma is_digit_digit_char (k : Z) : 0 <= k <= 9 -> is_digit (digit_char k) = true.
Proof.
  intros H. unfold is_digit, digit_char. rewrite nat_ascii_embedding by lia.
  apply andb_true_iff. split; apply Nat.leb_le; lia.
Qed.

Lemma re_Y_pad4 (y : Z) (r : list ascii) :
  0 <= y <= 9999 -> re_Y (pad4 y ++ r) = [(y, r)].
Proof.
  intros H. unfold re_Y, re_bind, re_ret, pad4. cbn [app].
  assert (H1 : 0 <= y / 1000 <= 9)
    by (split; [apply Z.div_pos; lia | apply Z.lt_succ_r, Z.div_lt_upper_bound; lia]).
  assert (H2 : 0 <= y / 100 mod 10 < 10) by (apply Z.mod_pos_bound; lia).
  assert (H3 : 0 <= y / 10 mod 10 < 10) by (apply Z.mod_pos_bound; lia).
  assert (H4 : 0 <= y mod 10 < 10) by (apply Z.mod_pos_bound; lia).
  rewrite (re_digit_hit (y / 1000)) by lia. cbn [flat_map app].
  rewrite (re_digit_hit (y / 100 mod 10)) by lia. cbn [flat_map app].
  rewrite (re_digit_hit (y / 10 mod 10)) by lia. cbn [flat_map app].
  rewrite (re_digit_hit (y mod 10)) by lia. cbn [flat_map app].
  do 2 f_equal.
  pose proof (Z.div_mod y 10 ltac:(lia)).
  pose proof (Z.div_mod (y / 10) 10 ltac:(lia)).
  pose proof (Z.div_mod (y / 100) 10 ltac:(lia)).
  assert (y / 10 / 10 = y / 100) by (rewrite Z.div_div by lia; reflexivity).
  assert (y / 100 / 10 = y / 1000) by (rewrite Z.div_div by lia; reflexivity).
  lia.
Qed.

Lemma in_range (n : nat) (k : Z) :
  1 <= k <= Z.of_nat n -> In k (map Z.of_nat (seq 1 n)).
Proof.
  intros H. apply in_map_iff. exists (Z.to_nat k).
  split; [lia | apply in_seq; lia].
Qed.

(** What follows the year, on the padded text of every month and day. *)
Lemma resto_fecha_ok (y : Z) :
  Forall (fun m => Forall (fun d =>
    hd_error
      (re_bind (re_lit "-") (fun _ =>
       re_bind re_m (fun m' =>
       re_bind (re_lit "-") (fun _ =>
       re_bind re_d (fun d' => re_ret (y, m', d')))))
       ("-"%char :: pad2 m ++ "-"%char :: pad2 d))
    = Some ((y, m, d), [])) dias) meses.
Proof.
  unfold meses, dias. cbn [map seq].
  repeat (constructor;
          [ repeat (constructor; [vm_compute; reflexivity | ]); constructor | ]).
  constructor.
Qed.

Lemma days_in_month_le (y m : Z) : days_in_month y m <= 31.
Proof.
  unfold days_in_month.
  destruct (m =? 2); [destruct (is_leap y); lia | ].
  destruct ((m =? 4) || (m =? 6) || (m =? 9) || (m =? 11)); lia.
Qed.

Lemma valid_date_bounds (y m d : Z) :
  valid_date y m d = true -> 1 <= y <= 9999 /\ 1 <= m <= 12 /\ 1 <= d <= 31.
Proof.
  unfold valid_date. rewrite !andb_true_iff, !Z.leb_le.
  pose proof (days_in_month_le y m). lia.
Qed.

(** [strptime] reads the text of a valid date as that date. *)
Lemma strptime_texto_fecha (d : date) :
  valid_date (year d) (month d) (day d) = true ->
  strptime_date (texto_fecha d) = Some d.
Proof.
  destruct d as [y m d]. cbn [year month day]. intros Hv.
  destruct (valid_date_bounds _ _ _ Hv) as [Hy [Hm Hd]].
  pose proof (resto_fecha_ok y) as HF.
  rewrite Forall_forall in HF. specialize (HF m (in_range 12 m Hm)).
  rewrite Forall_forall in HF. specialize (HF d (in_range 31 d Hd)).
  unfold strptime_date, re_match, texto_fecha. cbn [year month day].
  rewrite list_ascii_of_string_of_list_ascii.
  unfold re_fecha. unfold re_bind at 1.
  rewrite re_Y_pad4 by lia. cbn [flat_map]. rewrite app_nil_r.
  destruct (re_bind _ _ _) as [| [a r] tl]; [discriminate | ].
  cbn in HF. injection HF as -> ->. now rewrite Hv.
Qed.

Lemma is_digit_inv (c : ascii) :
  is_digit c = true -> 0 <= digit_val c <= 9 /\ digit_char (digit_val c) = c.
Proof.
  unfold is_digit, digit_val, digit_char.
  rewrite andb_true_iff, !Nat.leb_le. intros [H1 H2]. split; [lia | ].
  replace (48 + Z.to_nat (Z.of_nat (nat_of_ascii c) - 48))%nat
    with (nat_of_ascii c) by lia.
  apply ascii_nat_embedding.
Qed.

Lemma pad4_digits (a b c e : Z) :
  0 <= a <= 9 -> 0 <= b <= 9 -> 0 <= c <= 9 -> 0 <= e <= 9 ->
  pad4 (1000 * a + 100 * b + 10 * c + e)
  = [digit_char a; digit_char b; digit_char c; digit_char e].
Proof.
  intros Ha Hb Hc He. unfold pad4.
  repeat f_equal; Z.div_mod_to_equations; lia.
Qed.

Lemma pad2_digits (a b : Z) :
  0 <= a <= 9 -> 0 <= b <= 9 -> pad2 (10 * a + b) = [digit_char a; digit_char b].
Proof.
  intros Ha Hb. unfold pad2. repeat f_equal; Z.div_mod_to_equations; lia.
Qed.

(** A text of the form [YYYY-MM-DD] is the text of the date it denotes. *)
Lemma fecha_denotada_texto (s : string) (d : date) :
  fecha_denotada s = Some d -> s = texto_fecha d.
Proof.
  unfold fecha_denotada, forma_AAAA_MM_DD.
  destruct (list_ascii_of_string s)
    as [| y1 [| y2 [| y3 [| y4 [| h1 [| m1 [| m2 [| h2 [| d1 [| d2 [| ? ?]]]]]]]]]]]
    eqn:E; try discriminate.
  cbn [forallb]. rewrite !andb_true_r.
  destruct (is_digit y1) eqn:Y1; [ | discriminate].
  destruct (is_digit y2) eqn:Y2; [ | discriminate].
  destruct (is_digit y3) eqn:Y3; [ | discriminate].
  destruct (is_digit y4) eqn:Y4; [ | discriminate].
  destruct (is_digit m1) eqn:M1; [ | discriminate].
  destruct (is_digit m2) eqn:M2; [ | discriminate].
  destruct (is_digit d1) eqn:D1; [ | discriminate].
  destruct (is_digit d2) eqn:D2; [ | discriminate].
  cbn [andb].
  destruct (Ascii.eqb_spec h1 "-"); [ | discriminate].
  destruct (Ascii.eqb_spec h2 "-"); [ | discriminate].
  cbv zeta. destruct (valid_date _ _ _); [ | discriminate].
  cbn [andb]. intros H.
  match type of H with Some ?v = Some _ => assert (Hd : d = v) by congruence end.
  clear H. subst d h1 h2.
  apply is_digit_inv in Y1, Y2, Y3, Y4, M1, M2, D1, D2.
  unfold texto_fecha. cbn [year month day].
  rewrite pad4_digits, !pad2_digits by tauto. cbn [app].
  rewrite <- (string_of_list_ascii_of_string s), E.
  repeat match goal with H : _ /\ digit_char _ = _ |- _ =>
    let H' := fresh in destruct H as [_ H']; rewrite H' end.
  reflexivity.
Qed.

Lemma fecha_denotada_valid (s : string) (d : date) :
  fecha_denotada s = Some d -> valid_date (year d) (month d) (day d) = true.
Proof.
  unfold fecha_denotada. destruct (forma_AAAA_MM_DD s); [ | discriminate].
  destruct (list_ascii_of_string s)
    as [| y1 [| y2 [| y3 [| y4 [| h1 [| m1 [| m2 [| h2 [| d1 [| d2 [| ? ?]]]]]]]]]]];
    try discriminate.
  cbv zeta. destruct (valid_date _ _ _) eqn:V; [ | discriminate].
  now intros [= <-].
Qed.

Lemma find_app_last (tbl : list Paciente.t) (p : Paciente.t) :
  (forall q, In q tbl -> Paciente.cedula q <> Paciente.cedula p) ->
  find (fun q => String.eqb (Paciente.cedula q) (Paciente.cedula p)) (tbl ++ [p])
  = Some p.
Proof.
  induction tbl as [| q tbl IH]; cbn; intros H.
  - now rewrite String.eqb_refl.
  - destruct (String.eqb_spec (Paciente.cedula q) (Paciente.cedula p)) as [E | _].
    + exfalso. apply (H q); auto.
    + apply IH. intros q' Hq'. apply H. now right.
Qed.

(** C9: for every text of the form YYYY-MM-DD that denotes a date [d] of
    the calendar, [strptime] reads it as [d], and registering a patient
    with that text under an identifier not yet in use stores a row that a
    later lookup by the identifier returns with [fecha_nacimiento = d]: a
    year, a month and a day, the ones of the text. *)
Theorem registrar_birth_date_round_trip
  (db : DB) (n c txt : string) (d : date) :
  fecha_denotada txt = Some d ->
  (forall p, In p (paciente_tbl db) -> Paciente.cedula p <> c) ->
  let s := run (registrar (POST (mk_form_paciente n c txt))) db in
  strptime_date txt = Some d /\
  reported s = [] /\ flashes s = [PacienteRegistrado] /\
  exists p,
    fst (query_paciente c (open_session (durable db s))) = Some p /\
    Paciente.nombre p = n /\ Paciente.cedula p = c /\
    Paciente.fecha_nacimiento p = d /\
    texto_fecha (Paciente.fecha_nacimiento p) = txt.
Proof.
  intros Hd Hfresh s.
  assert (Hparse : strptime_date txt = Some d).
  { rewrite (fecha_denotada_texto txt d Hd).
    apply strptime_texto_fecha. exact (fecha_denotada_valid txt d Hd). }
  subst s. handler. rewrite Hparse. cbn.
  rewrite (find_cedula_none _ _ Hfresh). cbn.
  split; [reflexivity | ]. split; [reflexivity | ]. split; [reflexivity | ].
  exists (Paciente.mk (next_id (map Paciente.id (paciente_tbl db))) n c d).
  split; [ | cbn; repeat split; symmetry; now apply fecha_denotada_texto ].
  apply (find_app_last (paciente_tbl db)
           (Paciente.mk (next_id (map Paciente.id (paciente_tbl db))) n c d)).
  exact Hfresh.
Qed.

(** C9 on the example of the specification: 1990-05-20. *)
Lemma registrar_birth_date_round_trip_witness :
  let s := run (registrar (POST (mk_form_paciente "Eva" "V789" "1990-05-20")))
               db_ana_bob in
  strptime_date "1990-05-20" = Some (mk_date 1990 5 20) /\
  reported s = [] /\ flashes s = [PacienteRegistrado] /\
  exists p,
    fst (query_paciente "V789" (open_session (durable db_ana_bob s))) = Some p /\
    Paciente.nombre p = "Eva" /\ Paciente.cedula p = "V789" /\
    Paciente.fecha_nacimiento p = mk_date 1990 5 20 /\
    texto_fecha (Paciente.fecha_nacimiento p) = "1990-05-20".
Proof.
  apply (registrar_birth_date_round_trip db_ana_bob "Eva" "V789" "1990-05-20"
           (mk_date 1990 5 20)).
  - reflexivity.
  - intros p [<- | [<- | []]]; discriminate.
Defined.

(** ** The constraints of the schema hold after every request

    The database is created empty (lines 208-209), where [db_ok] holds
    trivially, and every handler leaves a database that satisfies it. *)

Lemma NoDup_map_filter {A B} (g : A -> B) (sel : A -> bool) (l : list A) :
  NoDup (map g l) -> NoDup (map g (filter sel l)).
Proof.
  induction l as [| a l IH]; cbn; [easy | ].
  intros ND. inversion ND as [| ? ? Ha ND']; subst.
  destruct (sel a); cbn; [ | now apply IH].
  constructor; [ | now apply IH].
  intros Hin. apply Ha. apply in_map_iff in Hin. destruct Hin as [x [E Hx]].
  apply filter_In in Hx. rewrite <- E. apply in_map. tauto.
Qed.

Lemma NoDup_map_snoc {A B} (g : A -> B) (l : list A) (x : A) :
  NoDup (map g l) -> ~ In (g x) (map g l) -> NoDup (map g (l ++ [x])).
Proof.
  intros ND Hx. rewrite map_app. cbn.
  apply NoDup_app; [exact ND | repeat constructor; easy | ].
  intros a Ha [<- | []]. now apply Hx.
Qed.

Lemma find_cedula_none_inv (tbl : list Paciente.t) (c : string) :
  find (fun p => String.eqb (Paciente.cedula p) c) tbl = None ->
  ~ In c (map Paciente.cedula tbl).
Proof.
  intros E Hin. apply in_map_iff in Hin. destruct Hin as [p [Hc Hp]].
  apply (find_none _ _ E) in Hp. rewrite Hc, String.eqb_refl in Hp. discriminate.
Qed.

Lemma db_ok_empty : db_ok (mk_db [] []).
Proof. split; constructor. Qed.

Lemma registrar_preserves_ok (req : Request FormPaciente) (db : DB) :
  db_ok db -> db_ok (durable db (run (registrar req) db)).
Proof.
  intros Hok. destruct req as [| f]; [exact Hok | ].
  handler. destruct (strptime_date _) as [nac |]; [ | exact Hok]. cbn.
  destruct (find _ _) as [q |] eqn:E; [exact Hok | ]. cbn.
  destruct Hok as [Hpk Hced Hcpk]. split; cbn; [ | | exact Hcpk].
  - apply NoDup_map_snoc; [exact Hpk | apply next_id_fresh].
  - apply NoDup_map_snoc; [exact Hced | now apply find_cedula_none_inv].
Qed.

Lemma trimmed_ok (ob : OrderBy) (db : DB) : db_ok db -> db_ok (trimmed ob db).
Proof.
  intros [Hpk Hced Hcpk]. split; cbn; auto.
  unfold sin_ids. now apply NoDup_map_filter.
Qed.

Lemma citas_preserves_ok (ob : OrderBy) (req : Request FormCita) (db : DB) :
  order_by_ok ob -> db_ok db -> db_ok (durable db (run (citas ob req) db)).
Proof.
  intros Hob Hok. destruct req as [| f]; [exact Hok | ].
  destruct (strptime_datetime (form_fecha_cita f)) as [fecha |] eqn:Hf.
  - destruct (find (fun p => String.eqb (Paciente.cedula p) (form_paciente_cedula f))
                   (paciente_tbl db)) as [q |] eqn:E.
    + assert (Hpac : has_cedula db (form_paciente_cedula f)).
      { apply find_some in E. exists q. split; [tauto | ].
        now apply String.eqb_eq. }
      assert (Hins : db_ok (inserted db f fecha)).
      { destruct Hok as [Hpk Hced Hcpk]. split; auto. now apply inserted_pk. }
      unfold run. rewrite (citas_run ob db f fecha Hob Hpac Hf).
      destruct (20 <? _)%nat; cbn [snd durable commits last];
        [now apply trimmed_ok | exact Hins].
    + handler. rewrite Hf. cbn. rewrite E. exact Hok.
  - handler. rewrite Hf. exact Hok.
Qed.

Lemma eliminar_preserves_ok (c : string) (db : DB) :
  db_ok db -> db_ok (durable db (run (eliminar_paciente c) db)).
Proof.
  intros Hok.
  destruct (find (fun p => String.eqb (Paciente.cedula p) c) (paciente_tbl db))
    as [p |] eqn:E.
  - apply find_some in E. destruct E as [Hp Hc]. apply String.eqb_eq in Hc. subst c.
    unfold run. rewrite (eliminar_paciente_run db p Hok Hp).
    cbn [snd durable commits last].
    destruct Hok as [Hpk Hced Hcpk]. split; cbn; now apply NoDup_map_filter.
  - handler. rewrite E. exact Hok.
Qed.

(** Rewriting the row of [p] keeps [cedula] unique when no other patient
    holds the new one. *)
Lemma update_cedula_unique (tbl : list Paciente.t) (p : Paciente.t)
      (n c : string) (f : date) :
  NoDup (map Paciente.id tbl) -> NoDup (map Paciente.cedula tbl) ->
  (forall q, In q tbl -> Paciente.id q <> Paciente.id p -> Paciente.cedula q <> c) ->
  NoDup (map Paciente.cedula
           (map (fun q => if Paciente.id q =? Paciente.id p
                          then Paciente.mk (Paciente.id q) n c f else q) tbl)).
Proof.
  set (upd := fun q => if Paciente.id q =? Paciente.id p
                       then Paciente.mk (Paciente.id q) n c f else q).
  induction tbl as [| q t IH]; cbn; [constructor | ].
  intros Hid Hced Hfresh.
  inversion Hid as [| ? ? Hq Hid']; inversion Hced as [| ? ? Hqc Hced']; subst.
  constructor.
  - intros Hin. apply in_map_iff in Hin. destruct Hin as [u [Eu Hu]].
    apply in_map_iff in Hu. destruct Hu as [r [Er Hr]]. subst u.
    unfold upd in Eu.
    destruct (Z.eqb_spec (Paciente.id q) (Paciente.id p)) as [Eq | Nq],
             (Z.eqb_spec (Paciente.id r) (Paciente.id p)) as [Erp | Nr];
      cbn in Eu.
    + apply Hq. rewrite Eq, <- Erp. now apply in_map.
    + apply (Hfresh r); auto.
    + apply (Hfresh q); auto.
    + apply Hqc. rewrite <- Eu. now apply in_map.
  - apply IH; auto.
Qed.

Lemma modificar_preserves_ok (c : string) (req : Request FormPaciente) (db : DB) :
  db_ok db -> db_ok (durable db (run (modificar_paciente c req) db)).
Proof.
  intros Hok. pose proof Hok as [Hpk Hced Hcpk].
  handler.
  destruct (find (fun p => String.eqb (Paciente.cedula p) c) (paciente_tbl db))
    as [p |] eqn:E; cbn; [ | exact Hok].
  apply find_some in E. destruct E as [Hp Hc]. apply String.eqb_eq in Hc.
  destruct req as [| f]; cbn; [exact Hok | ].
  destruct (strptime_date _) as [nac |]; cbn; [ | exact Hok].
  assert (Hupd : forall c', (forall q, In q (paciente_tbl db) ->
                               Paciente.id q <> Paciente.id p ->
                               Paciente.cedula q <> c') ->
     db_ok (mk_db (map (fun q => if Paciente.id q =? Paciente.id p
                                 then Paciente.mk (Paciente.id q) (form_nombre f) c' nac
                                 else q) (paciente_tbl db))
                  (cita_tbl db))).
  { intros c' Hfresh. split; cbn; [ | now apply update_cedula_unique | exact Hcpk].
    rewrite map_map.
    rewrite (map_ext _ Paciente.id); [exact Hpk | ].
    intros q. now destruct (Paciente.id q =? Paciente.id p). }
  destruct (String.eqb_spec (form_cedula f) c) as [Ec | Nc]; cbn.
  - apply Hupd. intros q Hq Hne Eq. apply Hne. f_equal.
    apply (NoDup_map_eq Paciente.cedula (paciente_tbl db)); auto. congruence.
  - destruct (find _ _) as [q |] eqn:E2; cbn; [exact Hok | ].
    apply Hupd. intros q Hq _ Eq.
    apply (find_cedula_none_inv _ _ E2). rewrite <- Eq. now apply in_map.
Qed.

(** * Further properties of the handlers *)

(** ** Registration *)

(** X1: a POST to [/registrar] with a birth date that parses and an
    identifier nobody holds commits once; the state committed is the old
    one with one row appended to [paciente], carrying the name, the
    identifier and the parsed date under an id no stored patient has;
    [cita] is untouched, and a lookup by the identifier then returns that
    row. *)
Theorem registrar_adds_one_row (db : DB) (f : FormPaciente) (nac : date) :
  strptime_date (form_fecha_nacimiento f) = Some nac ->
  (forall p, In p (paciente_tbl db) -> Paciente.cedula p <> form_cedula f) ->
  let s := run (registrar (POST f)) db in
  let p := nuevo_paciente db f nac in
  let db' := mk_db (paciente_tbl db ++ [p]) (cita_tbl db) in
  fst (registrar (POST f) (open_session db)) = Redirect "index" /\
  flashes s = [PacienteRegistrado] /\
  commits s = [db'] /\ rows s = db' /\
  ~ In (Paciente.id p) (map Paciente.id (paciente_tbl db)) /\
  fst (query_paciente (form_cedula f) (open_session (durable db s))) = Some p.
Proof.
  intros Hfecha Hfresh s p db'. subst s.
  handler. rewrite Hfecha. cbn. rewrite (find_cedula_none _ _ Hfresh). cbn.
  fold (nuevo_paciente db f nac). fold p.
  repeat split.
  - apply next_id_fresh.
  - apply (find_app_last (paciente_tbl db) p). exact Hfresh.
Qed.

(** X1 on an example: Eva joins Ana and Bob. *)
Lemma registrar_adds_one_row_witness :
  let s := run (registrar (POST eva_form)) db_ana_bob in
  let p := Paciente.mk 3 "Eva" "V789" (mk_date 2001 2 28) in
  let db' := mk_db [ana; bob; p] [chequeo] in
  fst (registrar (POST eva_form) (open_session db_ana_bob)) = Redirect "index" /\
  flashes s = [PacienteRegistrado] /\
  commits s = [db'] /\ rows s = db' /\
  ~ In (Paciente.id p) (map Paciente.id (paciente_tbl db_ana_bob)) /\
  fst (query_paciente "V789" (open_session (durable db_ana_bob s))) = Some p.
Proof.
  apply (registrar_adds_one_row db_ana_bob eva_form (mk_date 2001 2 28)).
  - reflexivity.
  - intros p [<- | [<- | []]]; discriminate.
Defined.

(** X2: an identifier can be registered once.  After a successful
    registration, a second POST to [/registrar] with the same identifier
    and any birth date that parses reports DuplicateIdentifier and leaves
    the database as the first one left it. *)
Theorem registrar_twice_fails
  (db : DB) (f g : FormPaciente) (nac nac' : date) :
  strptime_date (form_fecha_nacimiento f) = Some nac ->
  (forall p, In p (paciente_tbl db) -> Paciente.cedula p <> form_cedula f) ->
  form_cedula g = form_cedula f ->
  strptime_date (form_fecha_nacimiento g) = Some nac' ->
  let db1 := durable db (run (registrar (POST f)) db) in
  let s := run (registrar (POST g)) db1 in
  reported (run (registrar (POST f)) db) = [] /\
  reported s = [DuplicateIdentifier] /\ commits s = [] /\ durable db1 s = db1.
Proof.
  intros Hf Hfresh Hg Hg' db1 s. subst s db1.
  handler. rewrite Hf. cbn. rewrite (find_cedula_none _ _ Hfresh). cbn.
  rewrite Hg'. cbn. rewrite Hg.
  pose proof (find_app_last (paciente_tbl db) (nuevo_paciente db f nac) Hfresh) as H.
  unfold nuevo_paciente in H. cbn in H. rewrite H. cbn.
  repeat split.
Qed.

(** X2 on an example: Eva twice, the second time under another name. *)
Lemma registrar_twice_fails_witness :
  let g := mk_form_paciente "Eve" "V789" "2001-03-01" in
  let db1 := durable db_ana_bob (run (registrar (POST eva_form)) db_ana_bob) in
  let s := run (registrar (POST g)) db1 in
  reported (run (registrar (POST eva_form)) db_ana_bob) = [] /\
  reported s = [DuplicateIdentifier] /\ commits s = [] /\ durable db1 s = db1.
Proof.
  apply (registrar_twice_fails db_ana_bob eva_form
           (mk_form_paciente "Eve" "V789" "2001-03-01")
           (mk_date 2001 2 28) (mk_date 2001 3 1)).
  - reflexivity.
  - intros p [<- | [<- | []]]; discriminate.
  - reflexivity.
  - reflexivity.
Defined.

(** The database a successful registration leaves. *)
Lemma registrar_run (db : DB) (f : FormPaciente) (nac : date) :
  strptime_date (form_fecha_nacimiento f) = Some nac ->
  (forall p, In p (paciente_tbl db) -> Paciente.cedula p <> form_cedula f) ->
  durable db (run (registrar (POST f)) db)
  = mk_db (paciente_tbl db ++ [nuevo_paciente db f nac]) (cita_tbl db).
Proof.
  intros Hfecha Hfresh. handler. rewrite Hfecha. cbn.
  now rewrite (find_cedula_none _ _ Hfresh).
Qed.

(** X3: patients registered one after the other, with birth dates that
    parse and identifiers that differ from each other and from those
    stored, are all listed afterwards: [index] and
    [pacientes_registrados] hand their templates the patients stored
    before followed by one patient per form, in the order of the
    requests, each with the name, the identifier and the parsed date of
    its form; no appointment is touched. *)
Theorem index_lists_registered
  (fs : list FormPaciente) (nacs : list date) (db : DB) :
  Forall2 (fun f d => strptime_date (form_fecha_nacimiento f) = Some d) fs nacs ->
  NoDup (map form_cedula fs) ->
  (forall f p, In f fs -> In p (paciente_tbl db) ->
               Paciente.cedula p <> form_cedula f) ->
  let db' := registrar_todos fs db in
  let lista := snd (fst (index (open_session db'))) in
  map datos lista
  = map datos (paciente_tbl db)
    ++ map (fun fd => (form_nombre (fst fd), form_cedula (fst fd), snd fd))
           (combine fs nacs) /\
  snd (fst (pacientes_registrados (open_session db'))) = lista /\
  List.length lista = (List.length (paciente_tbl db) + List.length fs)%nat /\
  cita_tbl db' = cita_tbl db.
Proof.
  intros HF. revert db.
  induction HF as [| f d fs nacs Hf HF IH]; intros db ND Hfresh; cbn zeta.
  - cbn [registrar_todos fold_left combine map List.length].
    unfold index, pacientes_registrados, query_pacientes_all, bind, get_rows,
      ret, open_session; cbn [fst snd rows].
    rewrite app_nil_r, Nat.add_0_r. repeat split.
  - inversion ND as [| ? ? Hnotin ND']; subst.
    assert (Hf0 : forall p, In p (paciente_tbl db) -> Paciente.cedula p <> form_cedula f)
      by (intros p Hp; apply Hfresh; [now left | exact Hp]).
    cbn [registrar_todos fold_left].
    rewrite (registrar_run db f d Hf Hf0).
    set (db1 := mk_db _ _).
    destruct (IH db1 ND') as (H1 & H2 & H3 & H4).
    + intros g p Hg Hp. subst db1. cbn in Hp. apply in_app_or in Hp.
      destruct Hp as [Hp | [<- | []]].
      * apply Hfresh; [now right | exact Hp].
      * cbn. intros E. apply Hnotin. rewrite E. now apply in_map.
    + fold (registrar_todos fs db1).
      split; [ | split; [exact H2 | split; [ | exact H4]]].
      * rewrite H1. subst db1. cbn [paciente_tbl combine map fst snd].
        rewrite map_app, <- app_assoc. reflexivity.
      * rewrite H3. subst db1. cbn [paciente_tbl List.length].
        rewrite length_app. cbn. lia.
Qed.

(** X3 on an example: Ana, then Bob, in an empty database. *)
Lemma index_lists_registered_witness :
  let fs := [mk_form_paciente "Ana" "V123" "1990-05-20";
             mk_form_paciente "Bob" "V456" "1985-12-01"] in
  let db' := registrar_todos fs db_vacia in
  let lista := snd (fst (index (open_session db'))) in
  map datos lista
  = map datos (paciente_tbl db_vacia)
    ++ map (fun fd => (form_nombre (fst fd), form_cedula (fst fd), snd fd))
           (combine fs [mk_date 1990 5 20; mk_date 1985 12 1]) /\
  snd (fst (pacientes_registrados (open_session db'))) = lista /\
  List.length lista = (List.length (paciente_tbl db_vacia) + List.length fs)%nat /\
  cita_tbl db' = cita_tbl db_vacia.
Proof.
  apply (index_lists_registered
           [mk_form_paciente "Ana" "V123" "1990-05-20";
            mk_form_paciente "Bob" "V456" "1985-12-01"]
           [mk_date 1990 5 20; mk_date 1985 12 1] db_vacia).
  - repeat constructor.
  - apply (distinct_NoDup String.eqb _ String.eqb_eq). reflexivity.
  - intros f p _ [].
Defined.

Example index_after_two :
  snd (fst (index (open_session
    (registrar_todos [mk_form_paciente "Ana" "V123" "1990-05-20";
                      mk_form_paciente "Bob" "V456" "1985-12-01"] db_vacia))))
  = [ana; bob].
Proof. reflexivity. Qed.

(** ** Requests for a patient that is not there *)

(** X4: [modificar_paciente] looks the patient up before anything else.
    For an identifier nobody holds it reports NotFound and redirects to
    the list of patients, whatever the method and the form (also with a
    birth date that does not parse), and writes nothing. *)
Theorem modificar_not_found_unchanged
  (db : DB) (c : string) (req : Request FormPaciente) :
  (forall p, In p (paciente_tbl db) -> Paciente.cedula p <> c) ->
  let s := run (modificar_paciente c req) db in
  fst (modificar_paciente c req (open_session db))
    = Redirect "pacientes_registrados" /\
  flashes s = [PacienteNoEncontrado] /\ reported s = [NotFound] /\
  commits s = [] /\ rows s = db.
Proof.
  intros Hnone. handler. rewrite (find_cedula_none _ _ Hnone). cbn.
  repeat split.
Qed.

(** X4 on an example: nobody is V999, and the date is not a date. *)
Lemma modificar_not_found_unchanged_witness :
  let req := POST (mk_form_paciente "Ana" "V123" "ayer") in
  let s := run (modificar_paciente "V999" req) db_ana_bob in
  fst (modificar_paciente "V999" req (open_session db_ana_bob))
    = Redirect "pacientes_registrados" /\
  flashes s = [PacienteNoEncontrado] /\ reported s = [NotFound] /\
  commits s = [] /\ rows s = db_ana_bob.
Proof.
  apply (modificar_not_found_unchanged db_ana_bob "V999"
           (POST (mk_form_paciente "Ana" "V123" "ayer"))).
  intros p [<- | [<- | []]]; discriminate.
Defined.

(** X5: [eliminar_paciente] for an identifier nobody holds reports
    NotFound, redirects to the list of patients and deletes nothing:
    no commit, both tables as they were. *)
Theorem eliminar_not_found_unchanged (db : DB) (c : string) :
  (forall p, In p (paciente_tbl db) -> Paciente.cedula p <> c) ->
  let s := run (eliminar_paciente c) db in
  fst (eliminar_paciente c (open_session db)) = Redirect "pacientes_registrados" /\
  flashes s = [PacienteNoEncontradoEliminar] /\ reported s = [NotFound] /\
  commits s = [] /\ rows s = db.
Proof.
  intros Hnone. handler. rewrite (find_cedula_none _ _ Hnone). cbn.
  repeat split.
Qed.

(** X5 on an example. *)
Lemma eliminar_not_found_unchanged_witness :
  let s := run (eliminar_paciente "V999") db_ana_bob in
  fst (eliminar_paciente "V999" (open_session db_ana_bob))
    = Redirect "pacientes_registrados" /\
  flashes s = [PacienteNoEncontradoEliminar] /\ reported s = [NotFound] /\
  commits s = [] /\ rows s = db_ana_bob.
Proof.
  apply (eliminar_not_found_unchanged db_ana_bob "V999").
  intros p [<- | [<- | []]]; discriminate.
Defined.

(** ** Texts that do not parse *)

(** X6: [citas] parses the date and time before it looks the patient up.
    A text that [strptime] rejects is reported as InvalidDateTimeFormat,
    whether the patient exists or not, and nothing is written. *)
Theorem citas_invalid_datetime_unchanged (ob : OrderBy) (db : DB) (f : FormCita) :
  strptime_datetime (form_fecha_cita f) = None ->
  let s := run (citas ob (POST f)) db in
  fst (citas ob (POST f) (open_session db)) = RenderTemplate "citas.html" /\
  flashes s = [FechaCitaInvalida] /\ reported s = [InvalidDateTimeFormat] /\
  commits s = [] /\ rows s = db.
Proof.
  intros Hfecha. handler. rewrite Hfecha. cbn. repeat split.
Qed.

(** X6 on an example: a date without a time, for a patient nobody knows. *)
Lemma citas_invalid_datetime_unchanged_witness :
  let f := mk_form_cita "V999" "2024-01-10" "Checkup" in
  let s := run (citas orden_estable (POST f)) db_ana_bob in
  fst (citas orden_estable (POST f) (open_session db_ana_bob))
    = RenderTemplate "citas.html" /\
  flashes s = [FechaCitaInvalida] /\ reported s = [InvalidDateTimeFormat] /\
  commits s = [] /\ rows s = db_ana_bob.
Proof.
  apply (citas_invalid_datetime_unchanged orden_estable db_ana_bob
           (mk_form_cita "V999" "2024-01-10" "Checkup")).
  reflexivity.
Defined.

(** X7: for a patient that exists, [modificar_paciente] with a birth-date
    text that [strptime] rejects reports InvalidDateFormat, whatever the
    new name and the new identifier, and updates nothing. *)
Theorem modificar_invalid_date_unchanged (db : DB) (c : string) (f : FormPaciente) :
  has_cedula db c ->
  strptime_date (form_fecha_nacimiento f) = None ->
  let s := run (modificar_paciente c (POST f)) db in
  fst (modificar_paciente c (POST f) (open_session db))
    = RenderTemplate "modificar_paciente.html" /\
  flashes s = [FechaNacimientoInvalida] /\ reported s = [InvalidDateFormat] /\
  commits s = [] /\ rows s = db.
Proof.
  intros Hpac Hfecha. apply find_cedula_some in Hpac. destruct Hpac as [q Hq].
  handler. rewrite Hq. cbn. rewrite Hfecha. cbn. repeat split.
Qed.

(** X7 on an example: the 30th of February. *)
Lemma modificar_invalid_date_unchanged_witness :
  let f := mk_form_paciente "Ana" "V123" "1990-02-30" in
  let s := run (modificar_paciente "V123" (POST f)) db_ana_bob in
  fst (modificar_paciente "V123" (POST f) (open_session db_ana_bob))
    = RenderTemplate "modificar_paciente.html" /\
  flashes s = [FechaNacimientoInvalida] /\ reported s = [InvalidDateFormat] /\
  commits s = [] /\ rows s = db_ana_bob.
Proof.
  apply (modificar_invalid_date_unchanged db_ana_bob "V123"
           (mk_form_paciente "Ana" "V123" "1990-02-30")).
  - exists ana. split; [now left | reflexivity].
  - reflexivity.
Defined.

(** ** A successful update *)

Lemma find_updated (tbl : list Paciente.t) (p : Paciente.t) (n c : string) (f : date) :
  In p tbl ->
  (forall q, In q tbl -> Paciente.id q <> Paciente.id p -> Paciente.cedula q <> c) ->
  find (fun q => String.eqb (Paciente.cedula q) c)
       (map (fun q => if Paciente.id q =? Paciente.id p
                      then Paciente.mk (Paciente.id q) n c f else q) tbl)
  = Some (Paciente.mk (Paciente.id p) n c f).
Proof.
  induction tbl as [| q t IH]; cbn; [easy | ]. intros Hp Hfresh.
  destruct (Z.eqb_spec (Paciente.id q) (Paciente.id p)) as [E | N]; cbn.
  - rewrite String.eqb_refl. now rewrite E.
  - destruct (String.eqb_spec (Paciente.cedula q) c) as [Ec | _].
    + exfalso. apply (Hfresh q); auto.
    + apply IH.
      * destruct Hp as [-> | Hp]; [contradiction | exact Hp].
      * intros r Hr. apply Hfresh. now right.
Qed.

(** A successful [POST /modificar_paciente/<cedula>], whether the
    identifier changes or not. *)
Lemma modificar_success_run
  (db : DB) (p : Paciente.t) (f : FormPaciente) (nac : date) :
  db_ok db -> In p (paciente_tbl db) ->
  strptime_date (form_fecha_nacimiento f) = Some nac ->
  form_cedula f = Paciente.cedula p \/
  (forall q, In q (paciente_tbl db) -> Paciente.cedula q <> form_cedula f) ->
  let db' :=
    mk_db (map (fun q => if Paciente.id q =? Paciente.id p
                         then Paciente.mk (Paciente.id q) (form_nombre f)
                                          (form_cedula f) nac
                         else q) (paciente_tbl db))
          (cita_tbl db) in
  modificar_paciente (Paciente.cedula p) (POST f) (open_session db)
  = (Redirect "pacientes_registrados",
     mk_session db' [db'] [PacienteModificado]).
Proof.
  intros Hok Hp Hfecha [Esame | Hfresh] db'.
  - destruct Hok as [_ Hced _]. subst db'.
    handler. rewrite (find_cedula_unique _ _ Hced Hp). cbn.
    rewrite Hfecha, Esame, String.eqb_refl. reflexivity.
  - now apply modificar_paciente_run.
Qed.

(** X8: a successful update rewrites one row and nothing else.  For a
    stored patient [p], a birth date that parses and a new identifier that
    is the old one or is held by nobody, [modificar_paciente] commits
    once; in the state committed the row of [p] keeps its id and carries
    the new name, identifier and date, every other patient is still
    there, the ids are the same in the same order, [cita] is untouched,
    a lookup by the new identifier returns the rewritten row, and, when
    the identifier changed, a lookup by the old one finds nobody. *)
Theorem modificar_updates_one_row
  (db : DB) (p : Paciente.t) (f : FormPaciente) (nac : date) :
  db_ok db -> In p (paciente_tbl db) ->
  strptime_date (form_fecha_nacimiento f) = Some nac ->
  form_cedula f = Paciente.cedula p \/
  (forall q, In q (paciente_tbl db) -> Paciente.cedula q <> form_cedula f) ->
  let s := run (modificar_paciente (Paciente.cedula p) (POST f)) db in
  let db' := durable db s in
  flashes s = [PacienteModificado] /\ commits s = [db'] /\ rows s = db' /\
  cita_tbl db' = cita_tbl db /\
  map Paciente.id (paciente_tbl db') = map Paciente.id (paciente_tbl db) /\
  In (modificado p f nac) (paciente_tbl db') /\
  (forall q, In q (paciente_tbl db) -> q <> p -> In q (paciente_tbl db')) /\
  fst (query_paciente (form_cedula f) (open_session db')) = Some (modificado p f nac) /\
  (form_cedula f <> Paciente.cedula p ->
   fst (query_paciente (Paciente.cedula p) (open_session db')) = None).
Proof.
  intros Hok Hp Hfecha Hnew s db'. subst db' s. unfold run.
  rewrite (modificar_success_run db p f nac Hok Hp Hfecha Hnew).
  cbn [snd durable commits last flashes rows cita_tbl paciente_tbl].
  destruct Hok as [Hpk Hced _].
  set (upd := fun q => if Paciente.id q =? Paciente.id p
                       then Paciente.mk (Paciente.id q) (form_nombre f)
                                        (form_cedula f) nac
                       else q).
  assert (Hother : forall q, In q (paciente_tbl db) ->
                             Paciente.id q <> Paciente.id p ->
                             Paciente.cedula q <> form_cedula f).
  { intros q Hq Hne. destruct Hnew as [E | Hfresh]; [ | now apply Hfresh].
    rewrite E. intros Eq. apply Hne. f_equal.
    now apply (NoDup_map_eq Paciente.cedula (paciente_tbl db)). }
  assert (Hfind : find (fun q => String.eqb (Paciente.cedula q) (form_cedula f))
                       (map upd (paciente_tbl db)) = Some (modificado p f nac))
    by (apply find_updated; assumption).
  do 4 (split; [reflexivity | ]).
  split; [ | split; [ | split; [ | split ]]].
  - rewrite map_map. apply map_ext. intros q. subst upd. cbn.
    now destruct (Paciente.id q =? Paciente.id p).
  - apply find_some in Hfind. tauto.
  - intros q Hq Hne. apply in_map_iff. exists q. split; [ | exact Hq].
    subst upd. cbn. destruct (Z.eqb_spec (Paciente.id q) (Paciente.id p)) as [E | _];
      [ | reflexivity].
    exfalso. apply Hne. now apply (NoDup_map_eq Paciente.id (paciente_tbl db)).
  - unfold query_paciente, bind, get_rows, ret, open_session. cbn. exact Hfind.
  - intros Hchg. unfold query_paciente, bind, get_rows, ret, open_session. cbn.
    apply find_cedula_none. intros q Hq. apply in_map_iff in Hq.
    destruct Hq as [r [<- Hr]]. subst upd. cbn.
    destruct (Z.eqb_spec (Paciente.id r) (Paciente.id p)) as [E | N]; cbn.
    + exact Hchg.
    + intros Ec. apply N. f_equal.
      now apply (NoDup_map_eq Paciente.cedula (paciente_tbl db)).
Qed.

(** X8 on an example: Ana becomes Ana Maria, V321, born a day later. *)
Lemma modificar_updates_one_row_witness :
  let f := mk_form_paciente "Ana Maria" "V321" "1990-05-21" in
  let s := run (modificar_paciente "V123" (POST f)) db_ana_bob in
  let db' := durable db_ana_bob s in
  flashes s = [PacienteModificado] /\ commits s = [db'] /\ rows s = db' /\
  cita_tbl db' = cita_tbl db_ana_bob /\
  map Paciente.id (paciente_tbl db') = map Paciente.id (paciente_tbl db_ana_bob) /\
  In (modificado ana f (mk_date 1990 5 21)) (paciente_tbl db') /\
  (forall q, In q (paciente_tbl db_ana_bob) -> q <> ana -> In q (paciente_tbl db')) /\
  fst (query_paciente "V321" (open_session db'))
    = Some (modificado ana f (mk_date 1990 5 21)) /\
  ("V321" <> Paciente.cedula ana ->
   fst (query_paciente "V123" (open_session db')) = None).
Proof.
  apply (modificar_updates_one_row db_ana_bob ana
           (mk_form_paciente "Ana Maria" "V321" "1990-05-21") (mk_date 1990 5 21)).
  - apply db_ana_bob_ok.
  - now left.
  - reflexivity.
  - right. intros q [<- | [<- | []]]; discriminate.
Defined.

(** ** Scheduling below the limit *)

(** X9: with fewer than 20 appointments stored, a successful POST to
    [/citas] appends the new appointment and does nothing else: one
    commit, no deletion and no message about deletions; the table is the
    old one, in its order, followed by the new row, which carries the
    parsed date and time, the reason and the identifier of the form. *)
Theorem citas_below_limit_appends
  (ob : OrderBy) (db : DB) (f : FormCita) (fecha : datetime) :
  order_by_ok ob ->
  has_cedula db (form_paciente_cedula f) ->
  strptime_datetime (form_fecha_cita f) = Some fecha ->
  (List.length (cita_tbl db) < 20)%nat ->
  let s := run (citas ob (POST f)) db in
  let x := nueva_cita db f fecha in
  fst (citas ob (POST f) (open_session db)) = Redirect "citas" /\
  flashes s = [CitaAgendada] /\
  commits s = [mk_db (paciente_tbl db) (cita_tbl db ++ [x])] /\
  cita_tbl (durable db s) = cita_tbl db ++ [x] /\
  Cita.fecha_cita x = fecha /\ Cita.motivo x = form_motivo f /\
  Cita.paciente_cedula x = form_paciente_cedula f /\
  ~ In (Cita.id x) (map Cita.id (cita_tbl db)).
Proof.
  intros Hob Hpac Hfecha Hlen s x. subst s. unfold run.
  rewrite (citas_run ob db f fecha Hob Hpac Hfecha).
  assert (Hn : (20 <? List.length (cita_tbl (inserted db f fecha)))%nat = false).
  { apply Nat.ltb_ge. cbn. rewrite length_app. cbn. lia. }
  rewrite Hn. cbn [fst snd durable commits last flashes].
  repeat split. apply next_id_fresh.
Qed.

(** X9 on an example: a second appointment, for Bob. *)
Lemma citas_below_limit_appends_witness :
  let f := mk_form_cita "V456" "2024-02-01T16:45" "Control" in
  let s := run (citas orden_estable (POST f)) db_ana_bob in
  let x := Cita.mk 2 (mk_datetime 2024 2 1 16 45) "Control" "V456" in
  fst (citas orden_estable (POST f) (open_session db_ana_bob)) = Redirect "citas" /\
  flashes s = [CitaAgendada] /\
  commits s = [mk_db (paciente_tbl db_ana_bob) (cita_tbl db_ana_bob ++ [x])] /\
  cita_tbl (durable db_ana_bob s) = cita_tbl db_ana_bob ++ [x] /\
  Cita.fecha_cita x = mk_datetime 2024 2 1 16 45 /\ Cita.motivo x = "Control" /\
  Cita.paciente_cedula x = "V456" /\
  ~ In (Cita.id x) (map Cita.id (cita_tbl db_ana_bob)).
Proof.
  apply (citas_below_limit_appends orden_estable db_ana_bob
           (mk_form_cita "V456" "2024-02-01T16:45" "Control")
           (mk_datetime 2024 2 1 16 45)).
  - apply orden_estable_ok.
  - exists bob. split; [right; now left | reflexivity].
  - reflexivity.
  - cbn. lia.
Defined.

(** ** The retention step, twice *)

Lemma trimmed_length (ob : OrderBy) (db : DB) :
  order_by_ok ob -> NoDup (map Cita.id (cita_tbl db)) ->
  (20 < List.length (cita_tbl db))%nat ->
  List.length (cita_tbl (trimmed ob db)) = 20%nat.
Proof.
  intros Hob ND Hlen.
  destruct (trim_spec (cita_tbl db) (ob (cita_tbl db))
              (List.length (cita_tbl db) - 20) ND) as [_ [T2 _]];
    [apply Hob | apply Hob | ].
  unfold trimmed. cbn [cita_tbl].
  rewrite (Permutation_length T2), length_skipn.
  rewrite <- (Permutation_length (order_by_perm ob Hob (cita_tbl db))). lia.
Qed.

(** X10: the retention step is idempotent.  Whatever the number of
    appointments stored (under unique ids), after [limpiar_citas] has run
    at most 20 remain, and running it again deletes nothing, commits
    nothing and flashes nothing. *)
Theorem limpiar_citas_idempotent (ob : OrderBy) (s : Session) :
  order_by_ok ob ->
  NoDup (map Cita.id (cita_tbl (rows s))) ->
  let s1 := snd (limpiar_citas ob s) in
  (List.length (cita_tbl (rows s1)) <= 20)%nat /\
  List.length (cita_tbl (rows s1))
    = Nat.min 20 (List.length (cita_tbl (rows s))) /\
  limpiar_citas ob s1 = (tt, s1).
Proof.
  intros Hob ND s1.
  assert (H20 : List.length (cita_tbl (rows s1))
                = Nat.min 20 (List.length (cita_tbl (rows s)))).
  { subst s1. rewrite (limpiar_citas_run ob s Hob).
    destruct (Nat.ltb_spec 20 (List.length (cita_tbl (rows s)))) as [L | L];
      cbn [snd rows].
    - rewrite (trimmed_length ob (rows s) Hob ND L). lia.
    - lia. }
  split; [lia | split; [exact H20 | ]].
  rewrite (limpiar_citas_run ob s1 Hob).
  destruct (Nat.ltb_spec 20 (List.length (cita_tbl (rows s1)))); [lia | reflexivity].
Qed.

(** X10 on an example: the full table with a 21st and a 22nd row. *)
Lemma limpiar_citas_idempotent_witness :
  let s := open_session
             (mk_db [ana; bob]
                    (citas_de_marzo ++
                     [Cita.mk 21 (mk_datetime 2024 4 1 8 0) "Control" "V456";
                      Cita.mk 22 (mk_datetime 2023 4 1 8 0) "Control" "V456"])) in
  let s1 := snd (limpiar_citas orden_estable s) in
  (List.length (cita_tbl (rows s1)) <= 20)%nat /\
  List.length (cita_tbl (rows s1))
    = Nat.min 20 (List.length (cita_tbl (rows s))) /\
  limpiar_citas orden_estable s1 = (tt, s1).
Proof.
  apply (limpiar_citas_idempotent orden_estable).
  - apply orden_estable_ok.
  - apply (distinct_NoDup Z.eqb _ Z.eqb_eq). reflexivity.
Defined.

(** ** Failures write nothing *)

Lemma eliminar_found_flashes (db : DB) (c : string) (p : Paciente.t) :
  find (fun q => String.eqb (Paciente.cedula q) c) (paciente_tbl db) = Some p ->
  flashes (run (eliminar_paciente c) db) = [PacienteEliminado].
Proof.
  intros E. handler. rewrite E. cbn.
  unfold delete_paciente, bind, get_rows, set_rows, ret; cbn -[sin_ids].
  rewrite for_each_delete_cita. reflexivity.
Qed.

(** X11: whatever the route, the method and the form, a request that
    reports a failure has written nothing: it committed nothing and its
    session still sees the database it was opened on. *)
Theorem failure_writes_nothing (ob : OrderBy) (pet : Peticion) (db : DB) :
  order_by_ok ob ->
  reported (atender ob pet db) <> [] ->
  commits (atender ob pet db) = [] /\ rows (atender ob pet db) = db.
Proof.
  intros Hob. destruct pet as [| req | req | | c req | c]; cbn [atender].
  - intros H. now contradiction H.
  - destruct req as [| f]; [intros H; now contradiction H | ].
    handler. destruct (strptime_date _); cbn;
      [destruct (find _ _); cbn | ]; intros H; try (now contradiction H);
      split; reflexivity.
  - destruct req as [| f]; [intros H; now contradiction H | ].
    destruct (strptime_datetime (form_fecha_cita f)) as [fecha |] eqn:Hf.
    + destruct (find (fun p => String.eqb (Paciente.cedula p) (form_paciente_cedula f))
                     (paciente_tbl db)) as [q |] eqn:E.
      * assert (Hpac : has_cedula db (form_paciente_cedula f)).
        { apply find_some in E. exists q. split; [tauto | ].
          now apply String.eqb_eq. }
        unfold run. rewrite (citas_run ob db f fecha Hob Hpac Hf).
        destruct (20 <? _)%nat; cbn; intros H; now contradiction H.
      * handler. rewrite Hf. cbn. rewrite E. cbn. intros _. split; reflexivity.
    + handler. rewrite Hf. cbn. intros _. split; reflexivity.
  - intros H. now contradiction H.
  - handler. destruct (find _ (paciente_tbl db)) as [p |]; cbn;
      [ | intros _; split; reflexivity].
    destruct req as [| f]; cbn; [intros H; now contradiction H | ].
    destruct (strptime_date _); cbn; [ | intros _; split; reflexivity].
    destruct (negb _); cbn; [ | intros H; now contradiction H].
    destruct (find _ _); cbn; [intros _; split; reflexivity | ].
    intros H. now contradiction H.
  - destruct (find (fun q => String.eqb (Paciente.cedula q) c) (paciente_tbl db))
      as [p |] eqn:E.
    + unfold reported. rewrite (eliminar_found_flashes db c p E). cbn.
      intros H. now contradiction H.
    + handler. rewrite E. cbn. intros _. split; reflexivity.
Qed.

(** X11 on an example: Bob asks for the identifier of Ana. *)
Lemma failure_writes_nothing_witness :
  let pet := ModificarPaciente "V456"
               (POST (mk_form_paciente "Bob" "V123" "1985-12-01")) in
  commits (atender orden_estable pet db_ana_bob) = [] /\
  rows (atender orden_estable pet db_ana_bob) = db_ana_bob.
Proof.
  apply (failure_writes_nothing orden_estable
           (ModificarPaciente "V456"
              (POST (mk_form_paciente "Bob" "V123" "1985-12-01"))) db_ana_bob).
  - apply orden_estable_ok.
  - discriminate.
Defined.

(** ** What holds after every sequence of requests *)

Lemma registrar_citas_unchanged (req : Request FormPaciente) (db : DB) :
  cita_tbl (durable db (run (registrar req) db)) = cita_tbl db.
Proof.
  destruct req as [| f]; [reflexivity | ].
  handler. destruct (strptime_date _); cbn; [ | reflexivity].
  destruct (find _ _); reflexivity.
Qed.

Lemma registrar_pacientes_incl (req : Request FormPaciente) (db : DB) (q : Paciente.t) :
  In q (paciente_tbl db) ->
  In q (paciente_tbl (durable db (run (registrar req) db))).
Proof.
  intros Hq. destruct req as [| f]; [exact Hq | ].
  handler. destruct (strptime_date _); cbn; [ | exact Hq].
  destruct (find _ _); cbn; [exact Hq | ]. apply in_or_app. now left.
Qed.

Lemma modificar_citas_unchanged (c : string) (req : Request FormPaciente) (db : DB) :
  cita_tbl (durable db (run (modificar_paciente c req) db)) = cita_tbl db.
Proof.
  handler. destruct (find _ (paciente_tbl db)); cbn; [ | reflexivity].
  destruct req as [| f]; cbn; [reflexivity | ].
  destruct (strptime_date _); cbn; [ | reflexivity].
  destruct (negb _); cbn; [ | reflexivity].
  destruct (find _ _); reflexivity.
Qed.

Lemma listing_durable (db : DB) :
  durable db (run index db) = db /\ durable db (run pacientes_registrados db) = db.
Proof. split; reflexivity. Qed.

Lemma find_cedula_in (tbl : list Paciente.t) (c : string) (p : Paciente.t) :
  find (fun q => String.eqb (Paciente.cedula q) c) tbl = Some p ->
  In p tbl /\ Paciente.cedula p = c.
Proof.
  intros E. apply find_some in E. destruct E as [Hp Hc].
  split; [exact Hp | now apply String.eqb_eq].
Qed.

Lemma eliminar_citas_length (c : string) (db : DB) :
  db_ok db ->
  (List.length (cita_tbl (durable db (run (eliminar_paciente c) db)))
   <= List.length (cita_tbl db))%nat.
Proof.
  intros Hok.
  destruct (find (fun q => String.eqb (Paciente.cedula q) c) (paciente_tbl db))
    as [p |] eqn:E.
  - apply find_cedula_in in E. destruct E as [Hp <-].
    unfold run. rewrite (eliminar_paciente_run db p Hok Hp).
    cbn [snd durable commits last cita_tbl]. apply filter_length_le.
  - handler. rewrite E. cbn. lia.
Qed.

Lemma citas_count_le (ob : OrderBy) (req : Request FormCita) (db : DB) :
  order_by_ok ob -> NoDup (map Cita.id (cita_tbl db)) ->
  (List.length (cita_tbl db) <= 20)%nat ->
  (List.length (cita_tbl (durable db (run (citas ob req) db))) <= 20)%nat.
Proof.
  intros Hob ND Hlen. destruct req as [| f]; [exact Hlen | ].
  destruct (strptime_datetime (form_fecha_cita f)) as [fecha |] eqn:Hf.
  - destruct (find (fun p => String.eqb (Paciente.cedula p) (form_paciente_cedula f))
                   (paciente_tbl db)) as [q |] eqn:E.
    + assert (Hpac : has_cedula db (form_paciente_cedula f)).
      { apply find_cedula_in in E. exists q. exact E. }
      unfold run. rewrite (citas_run ob db f fecha Hob Hpac Hf).
      destruct (Nat.ltb_spec 20 (List.length (cita_tbl (inserted db f fecha))))
        as [L | L]; cbn [snd durable commits last].
      * rewrite trimmed_length; auto. now apply inserted_pk.
      * exact L.
    + handler. rewrite Hf. cbn. rewrite E. exact Hlen.
  - handler. rewrite Hf. exact Hlen.
Qed.

Lemma atender_preserves_ok (ob : OrderBy) (pet : Peticion) (db : DB) :
  order_by_ok ob -> db_ok db -> db_ok (durable db (atender ob pet db)).
Proof.
  intros Hob Hok. destruct pet as [| req | req | | c req | c]; cbn [atender].
  - exact Hok.
  - now apply registrar_preserves_ok.
  - now apply citas_preserves_ok.
  - exact Hok.
  - now apply modificar_preserves_ok.
  - now apply eliminar_preserves_ok.
Qed.

(** X12: the constraints of the schema and the retention limit hold after
    every sequence of requests.  From a database in which both primary
    keys and [cedula] are unique and at most 20 appointments are stored,
    as the empty database of a first start is, whatever requests are
    served and in whatever order, the same holds of the database they
    leave: no two patients share an identifier, and never more than 20
    appointments are stored between two requests. *)
Theorem servir_keeps_constraints (ob : OrderBy) (pets : list Peticion) (db : DB) :
  order_by_ok ob ->
  db_ok db -> (List.length (cita_tbl db) <= 20)%nat ->
  db_ok (servir ob pets db) /\
  (List.length (cita_tbl (servir ob pets db)) <= 20)%nat.
Proof.
  intros Hob. revert db. induction pets as [| pet pets IH]; intros db Hok Hlen.
  - split; assumption.
  - cbn [servir fold_left]. apply IH.
    + now apply atender_preserves_ok.
    + destruct pet as [| req | req | | c req | c]; cbn [atender].
      * exact Hlen.
      * now rewrite registrar_citas_unchanged.
      * apply citas_count_le; auto. apply Hok.
      * exact Hlen.
      * now rewrite modificar_citas_unchanged.
      * etransitivity; [now apply eliminar_citas_length | exact Hlen].
Qed.

(** X12 on an example: a first day at the front desk. *)
Lemma servir_keeps_constraints_witness :
  let pets :=
    [Index;
     Registrar (POST (mk_form_paciente "Ana" "V123" "1990-05-20"));
     Registrar (POST (mk_form_paciente "Bob" "V123" "1985-12-01"));
     Registrar (POST (mk_form_paciente "Bob" "V456" "1985-12-01"));
     Citas (POST (mk_form_cita "V123" "2024-01-10T09:00" "Checkup"));
     ModificarPaciente "V123" (POST (mk_form_paciente "Ana" "V321" "1990-05-20"));
     PacientesRegistrados;
     EliminarPaciente "V456"] in
  db_ok (servir orden_estable pets db_vacia) /\
  (List.length (cita_tbl (servir orden_estable pets db_vacia)) <= 20)%nat.
Proof.
  apply (servir_keeps_constraints orden_estable).
  - apply orden_estable_ok.
  - apply db_okb_ok. reflexivity.
  - cbn. lia.
Defined.

(** ** References from appointments to patients *)

Lemma atender_keeps_references (ob : OrderBy) (pet : Peticion) (db : DB) :
  order_by_ok ob -> db_ok db -> ref_ok db -> sin_renombrar pet ->
  ref_ok (durable db (atender ob pet db)).
Proof.
  intros Hob Hok Href Hpet.
  destruct pet as [| req | req | | c req | c]; cbn [atender].
  - exact Href.
  - intros x Hx. rewrite registrar_citas_unchanged in Hx.
    destruct (Href x Hx) as [q [Hq Hc]].
    exists q. split; [now apply registrar_pacientes_incl | exact Hc].
  - destruct req as [| f]; [exact Href | ].
    destruct (strptime_datetime (form_fecha_cita f)) as [fecha |] eqn:Hf.
    + destruct (find (fun p => String.eqb (Paciente.cedula p) (form_paciente_cedula f))
                     (paciente_tbl db)) as [q |] eqn:E.
      * assert (Hpac : has_cedula db (form_paciente_cedula f)).
        { apply find_cedula_in in E. exists q. exact E. }
        assert (Hins : forall x, In x (cita_tbl (inserted db f fecha)) ->
                                 has_cedula db (Cita.paciente_cedula x)).
        { intros x Hx. cbn in Hx. apply in_app_or in Hx.
          destruct Hx as [Hx | [<- | []]]; [now apply Href | exact Hpac]. }
        unfold run. rewrite (citas_run ob db f fecha Hob Hpac Hf).
        destruct (20 <? _)%nat; cbn [snd durable commits last]; intros x Hx.
        -- unfold trimmed, sin_ids in Hx. cbn [cita_tbl] in Hx.
           apply filter_In in Hx. destruct Hx as [Hx _].
           destruct (Hins x Hx) as [r Hr]. exists r. exact Hr.
        -- destruct (Hins x Hx) as [r Hr]. exists r. exact Hr.
      * handler. rewrite Hf. cbn. rewrite E. exact Href.
    + handler. rewrite Hf. exact Href.
  - exact Href.
  - destruct (find (fun q => String.eqb (Paciente.cedula q) c) (paciente_tbl db))
      as [p |] eqn:E.
    + apply find_cedula_in in E. destruct E as [Hp Ec].
      destruct req as [| f].
      * subst c. handler.
        rewrite (find_cedula_unique _ _ (paciente_cedula_unique db Hok) Hp). exact Href.
      * assert (Hsame : form_cedula f = Paciente.cedula p)
          by (cbn in Hpet; congruence).
        clear Hpet. subst c.
        destruct (strptime_date (form_fecha_nacimiento f)) as [nac |] eqn:Hf.
        -- unfold run.
           rewrite (modificar_success_run db p f nac Hok Hp Hf (or_introl Hsame)).
           cbn [snd durable commits last]. intros x Hx. cbn [cita_tbl] in Hx.
           destruct (Href x Hx) as [q [Hq Hc]].
           exists (if Paciente.id q =? Paciente.id p
                   then Paciente.mk (Paciente.id q) (form_nombre f) (form_cedula f) nac
                   else q).
           split.
           ++ cbn [paciente_tbl]. apply in_map_iff. exists q. now split.
           ++ destruct (Z.eqb_spec (Paciente.id q) (Paciente.id p)) as [Eid | _];
                [ | exact Hc].
              cbn. rewrite Hsame, <- Hc. f_equal. symmetry.
              now apply (NoDup_map_eq Paciente.id (paciente_tbl db) q p
                           (paciente_pk db Hok)).
        -- handler.
           rewrite (find_cedula_unique _ _ (paciente_cedula_unique db Hok) Hp). cbn.
           rewrite Hf. exact Href.
    + handler. rewrite E. exact Href.
  - destruct (find (fun q => String.eqb (Paciente.cedula q) c) (paciente_tbl db))
      as [p |] eqn:E.
    + apply find_cedula_in in E. destruct E as [Hp <-].
      unfold run. rewrite (eliminar_paciente_run db p Hok Hp).
      cbn [snd durable commits last]. intros x Hx. cbn [cita_tbl] in Hx.
      apply filter_In in Hx. destruct Hx as [Hx Hne].
      apply negb_true_iff, String.eqb_neq in Hne.
      destruct (Href x Hx) as [q [Hq Hc]]. exists q. split; [ | exact Hc].
      cbn [paciente_tbl]. apply filter_In. split; [exact Hq | ].
      apply negb_true_iff, Z.eqb_neq. intros Eid. apply Hne. rewrite <- Hc.
      f_equal. now apply (NoDup_map_eq Paciente.id (paciente_tbl db) q p
                            (paciente_pk db Hok)).
    + handler. rewrite E. exact Href.
Qed.

(** X13: the rename is the only way to lose a reference.  From a database
    with unique keys in which every appointment carries the identifier of
    a stored patient, requests of every kind, as long as no
    [modificar_paciente] among them changes an identifier, leave a
    database in which that still holds: registration, scheduling with its
    retention step, updates of name and birth date, and deletion with its
    cascade all keep every appointment attached to a patient. *)
Theorem servir_keeps_references (ob : OrderBy) (pets : list Peticion) (db : DB) :
  order_by_ok ob -> db_ok db -> ref_ok db ->
  Forall sin_renombrar pets ->
  ref_ok (servir ob pets db).
Proof.
  intros Hob Hok Href HF. revert db Hok Href.
  induction HF as [| pet pets Hpet HF IH]; intros db Hok Href; [exact Href | ].
  cbn [servir fold_left]. apply IH.
  - now apply atender_preserves_ok.
  - now apply atender_keeps_references.
Qed.

(** X13 on an example: Ana and Bob register, both get an appointment, Ana
    changes her name and Bob is deleted. *)
Lemma servir_keeps_references_witness :
  ref_ok (servir orden_estable
            [Registrar (POST (mk_form_paciente "Ana" "V123" "1990-05-20"));
             Registrar (POST (mk_form_paciente "Bob" "V456" "1985-12-01"));
             Citas (POST (mk_form_cita "V123" "2024-01-10T09:00" "Checkup"));
             Citas (POST (mk_form_cita "V456" "2024-01-11T09:00" "Control"));
             ModificarPaciente "V123"
               (POST (mk_form_paciente "Ana Maria" "V123" "1990-05-20"));
             EliminarPaciente "V456"]
            db_vacia).
Proof.
  apply (servir_keeps_references orden_estable).
  - apply orden_estable_ok.
  - apply db_okb_ok. reflexivity.
  - intros x [].
  - repeat constructor.
Defined.

(** ** After a deletion *)

(** X14: a deleted patient is gone for every later request, and the
    identifier is free again.  After [eliminar_paciente] has deleted a
    stored patient, a lookup by the identifier finds nobody, no
    appointment carries it, a second deletion reports NotFound and
    changes nothing, and a registration under the same identifier with a
    birth date that parses succeeds. *)
Theorem eliminar_frees_identifier
  (db : DB) (p : Paciente.t) (f : FormPaciente) (nac : date) :
  db_ok db -> In p (paciente_tbl db) ->
  form_cedula f = Paciente.cedula p ->
  strptime_date (form_fecha_nacimiento f) = Some nac ->
  let c := Paciente.cedula p in
  let db1 := durable db (run (eliminar_paciente c) db) in
  fst (query_paciente c (open_session db1)) = None /\
  (forall x, In x (cita_tbl db1) -> Cita.paciente_cedula x <> c) /\
  reported (run (eliminar_paciente c) db1) = [NotFound] /\
  durable db1 (run (eliminar_paciente c) db1) = db1 /\
  reported (run (registrar (POST f)) db1) = [] /\
  fst (query_paciente c (open_session (durable db1 (run (registrar (POST f)) db1))))
  = Some (nuevo_paciente db1 f nac).
Proof.
  intros Hok Hp Hc Hfecha c db1.
  assert (E1 : db1 = mk_db (filter (fun q => negb (Paciente.id q =? Paciente.id p))
                                   (paciente_tbl db))
                           (filter (fun x => negb (String.eqb (Cita.paciente_cedula x) c))
                                   (cita_tbl db))).
  { subst db1 c. unfold run. now rewrite (eliminar_paciente_run db p Hok Hp). }
  assert (Hnone : forall q, In q (paciente_tbl db1) -> Paciente.cedula q <> c).
  { intros q Hq. rewrite E1 in Hq. cbn in Hq. apply filter_In in Hq.
    destruct Hq as [Hq Hne]. apply negb_true_iff, Z.eqb_neq in Hne.
    intros Ec. apply Hne. f_equal.
    now apply (NoDup_map_eq Paciente.cedula (paciente_tbl db) q p
                 (paciente_cedula_unique db Hok)). }
  clearbody db1.
  assert (Hnone' : forall q, In q (paciente_tbl db1) -> Paciente.cedula q <> form_cedula f)
    by (now rewrite Hc).
  split; [ | split; [ | split; [ | split; [ | split]]]].
  - unfold query_paciente, bind, get_rows, ret, open_session. cbn.
    now apply find_cedula_none.
  - intros x Hx. rewrite E1 in Hx. cbn in Hx. apply filter_In in Hx.
    destruct Hx as [_ Hne]. now apply negb_true_iff, String.eqb_neq in Hne.
  - handler. now rewrite (find_cedula_none _ _ Hnone).
  - handler. now rewrite (find_cedula_none _ _ Hnone).
  - handler. rewrite Hfecha. cbn. now rewrite (find_cedula_none _ _ Hnone').
  - rewrite (registrar_run db1 f nac Hfecha Hnone').
    unfold query_paciente, bind, get_rows, ret, open_session. cbn [fst rows paciente_tbl].
    subst c. rewrite <- Hc.
    apply (find_app_last (paciente_tbl db1) (nuevo_paciente db1 f nac)). exact Hnone'.
Qed.

(** X14 on an example: Ana is deleted and comes back. *)
Lemma eliminar_frees_identifier_witness :
  let f := mk_form_paciente "Ana" "V123" "1990-05-20" in
  let db1 := durable db_ana_bob (run (eliminar_paciente "V123") db_ana_bob) in
  fst (query_paciente "V123" (open_session db1)) = None /\
  (forall x, In x (cita_tbl db1) -> Cita.paciente_cedula x <> "V123") /\
  reported (run (eliminar_paciente "V123") db1) = [NotFound] /\
  durable db1 (run (eliminar_paciente "V123") db1) = db1 /\
  reported (run (registrar (POST f)) db1) = [] /\
  fst (query_paciente "V123"
         (open_session (durable db1 (run (registrar (POST f)) db1))))
  = Some (nuevo_paciente db1 f (mk_date 1990 5 20)).
Proof.
  apply (eliminar_frees_identifier db_ana_bob ana
           (mk_form_paciente "Ana" "V123" "1990-05-20") (mk_date 1990 5 20)).
  - apply db_ana_bob_ok.
  - now left.
  - reflexivity.
  - reflexivity.
Defined.

(** X15: the cascade follows the identifier the patient has now.  When a
    patient with appointments has been renamed to an identifier nobody
    held, deleting the patient under the new identifier succeeds and
    removes the patient, but the appointments made under the old
    identifier are left in [cita], attached to nobody. *)
Theorem rename_then_delete_leaves_citas
  (db : DB) (p : Paciente.t) (f : FormPaciente) (nac : date) (x : Cita.t) :
  db_ok db -> In p (paciente_tbl db) ->
  strptime_date (form_fecha_nacimiento f) = Some nac ->
  (forall q, In q (paciente_tbl db) -> Paciente.cedula q <> form_cedula f) ->
  In x (cita_tbl db) -> Cita.paciente_cedula x = Paciente.cedula p ->
  let db1 := durable db (run (modificar_paciente (Paciente.cedula p) (POST f)) db) in
  let s2 := run (eliminar_paciente (form_cedula f)) db1 in
  let db2 := durable db1 s2 in
  flashes s2 = [PacienteEliminado] /\
  (forall q, In q (paciente_tbl db2) -> Paciente.id q <> Paciente.id p) /\
  In x (cita_tbl db2) /\
  ~ has_cedula db2 (Cita.paciente_cedula x).
Proof.
  intros Hok Hp Hfecha Hfresh Hx Hxp db1 s2 db2.
  pose proof (modificar_preserves_ok (Paciente.cedula p) (POST f) db Hok) as Hok1.
  pose proof (modificar_paciente_leaves_citas db p f nac x Hok Hp Hfecha Hfresh Hx Hxp)
    as [Hx1 Horph].
  cbv zeta in Horph, Hx1. fold db1 in Hok1, Horph, Hx1.
  set (p' := Paciente.mk (Paciente.id p) (form_nombre f) (form_cedula f) nac).
  assert (Hp' : In p' (paciente_tbl db1)).
  { subst db1. unfold run.
    rewrite (modificar_paciente_run db p f nac Hok Hp Hfecha Hfresh).
    cbn [snd durable commits last paciente_tbl].
    assert (Hfind := find_updated (paciente_tbl db) p (form_nombre f) (form_cedula f)
                       nac Hp (fun q Hq _ => Hfresh q Hq)).
    apply find_some in Hfind. tauto. }
  assert (Hs2 : s2 = mk_session db2 [db2] [PacienteEliminado] /\
                db2 = mk_db (filter (fun q => negb (Paciente.id q =? Paciente.id p'))
                                    (paciente_tbl db1))
                            (filter (fun y => negb (String.eqb (Cita.paciente_cedula y)
                                                               (Paciente.cedula p')))
                                    (cita_tbl db1))).
  { subst db2 s2. unfold run.
    change (form_cedula f) with (Paciente.cedula p').
    rewrite (eliminar_paciente_run db1 p' Hok1 Hp'). split; reflexivity. }
  destruct Hs2 as [Hs2 Hdb2]. clearbody db1 s2 db2.
  split; [now rewrite Hs2 | ]. rewrite Hdb2. cbn [paciente_tbl cita_tbl].
  split; [ | split].
  - intros q Hq. apply filter_In in Hq. destruct Hq as [_ Hne].
    now apply negb_true_iff, Z.eqb_neq in Hne.
  - apply filter_In. split; [exact Hx1 | ].
    apply negb_true_iff, String.eqb_neq. cbn. rewrite Hxp. now apply Hfresh.
  - intros [q [Hq Hc]]. cbn in Hq. apply filter_In in Hq. destruct Hq as [Hq _].
    apply Horph. exists q. now split.
Qed.

(** X15 on an example: Ana, renamed V999 and deleted, leaves her
    appointment. *)
Lemma rename_then_delete_leaves_citas_witness :
  let f := mk_form_paciente "Ana" "V999" "1990-05-20" in
  let db1 := durable db_ana_bob (run (modificar_paciente "V123" (POST f)) db_ana_bob) in
  let s2 := run (eliminar_paciente "V999") db1 in
  let db2 := durable db1 s2 in
  flashes s2 = [PacienteEliminado] /\
  (forall q, In q (paciente_tbl db2) -> Paciente.id q <> Paciente.id ana) /\
  In chequeo (cita_tbl db2) /\
  ~ has_cedula db2 (Cita.paciente_cedula chequeo).
Proof.
  apply (rename_then_delete_leaves_citas db_ana_bob ana
           (mk_form_paciente "Ana" "V999" "1990-05-20") (mk_date 1990 5 20) chequeo).
  - apply db_ana_bob_ok.
  - now left.
  - reflexivity.
  - intros q [<- | [<- | []]]; discriminate.
  - now left.
  - reflexivity.
Defined.

(** ** What [strptime] returns *)

Lemma in_re_bind {A B} (p : Re A) (k : A -> Re B) (s : list ascii) (x : B * list ascii) :
  In x (re_bind p k s) -> exists a r, In (a, r) (p s) /\ In x (k a r).
Proof.
  unfold re_bind. rewrite in_flat_map. intros [[a r] [H1 H2]]. eauto.
Qed.

Lemma in_re_alt {A} (p q : Re A) (s : list ascii) (x : A * list ascii) :
  In x (re_alt p q s) -> In x (p s) \/ In x (q s).
Proof. unfold re_alt. apply in_app_or. Qed.

Lemma in_re_ret {A} (a : A) (s : list ascii) (x : A * list ascii) :
  In x (re_ret a s) -> x = (a, s).
Proof. intros [<- | []]. reflexivity. Qed.

Lemma in_re_range (lo hi v : Z) (s r : list ascii) :
  In (v, r) (re_range lo hi s) -> lo <= v <= hi.
Proof.
  unfold re_range. destruct s as [| c s]; [intros [] | ]. cbv zeta.
  destruct (Z.leb_spec lo (digit_val c)), (Z.leb_spec (digit_val c) hi);
    cbn; intros Hin; try contradiction.
  destruct Hin as [[= <- _] | []]. lia.
Qed.

Lemma decimal_in_bounds (zeros : list Z) (cp v : Z) :
  decimal_in zeros cp = Some v -> 0 <= v <= 9.
Proof.
  induction zeros as [| z zeros IH]; cbn; [discriminate | ].
  destruct (Z.leb_spec z cp), (Z.leb_spec cp (z + 9)); cbn; auto.
  intros [= <-]. lia.
Qed.

Lemma in_re_digit (v : Z) (s r : list ascii) :
  In (v, r) (re_digit s) -> 0 <= v <= 9.
Proof.
  unfold re_digit. destruct (utf8_head s) as [[cp r'] |]; [ | intros []].
  destruct (decimal cp) as [w |] eqn:E; [ | intros []].
  intros [[= <- _] | []]. exact (decimal_in_bounds nd_zeros cp w E).
Qed.

(** Takes a membership in the matches of a composed pattern apart. *)
Ltac re_inv :=
  repeat match goal with
    | H : In _ (re_bind _ _ _) |- _ =>
        apply in_re_bind in H;
        let a := fresh "a" in let r := fresh "r" in
        let H1 := fresh "H" in let H2 := fresh "H" in
        destruct H as (a & r & H1 & H2); cbv beta in H2
    | H : In _ (re_alt _ _ _) |- _ => apply in_re_alt in H; destruct H as [H | H]
    | H : In _ (re_ret _ _) |- _ => apply in_re_ret in H; inversion H; subst; clear H
    | H : In (_, _) (re_range _ _ _) |- _ => apply in_re_range in H
    | H : In (_, _) (re_digit _) |- _ => apply in_re_digit in H
    end.

Lemma in_re_H (v : Z) (s r : list ascii) : In (v, r) (re_H s) -> 0 <= v <= 23.
Proof. unfold re_H. intros H. re_inv; lia. Qed.

Lemma in_re_M (v : Z) (s r : list ascii) : In (v, r) (re_M s) -> 0 <= v <= 59.
Proof. unfold re_M. intros H. re_inv; lia. Qed.

Lemma re_match_in {A} (p : Re A) (s : string) (a : A) :
  re_match p s = Some a -> In (a, []) (p (list_ascii_of_string s)).
Proof.
  unfold re_match. destruct (p _) as [| [b [| c r]] tl]; try discriminate.
  intros [= ->]. now left.
Qed.

(** The hour and the minute that the pattern lets through. *)
Lemma strptime_datetime_time (s : string) (t : datetime) :
  strptime_datetime s = Some t ->
  0 <= dt_hour t <= 23 /\ 0 <= dt_minute t <= 59.
Proof.
  unfold strptime_datetime.
  destruct (re_match re_fecha_hora s) as [[[[[y m] d] h] mi] |] eqn:E;
    [ | discriminate].
  destruct (valid_date y m d); [ | discriminate].
  intros [= <-]. apply re_match_in in E.
  unfold re_fecha_hora in E. re_inv.
  repeat match goal with
         | H : In (_, _) (re_H _) |- _ => apply in_re_H in H
         | H : In (_, _) (re_M _) |- _ => apply in_re_M in H
         end.
  cbn [dt_hour dt_minute]. lia.
Qed.

Lemma eliminar_citas_incl (c : string) (db : DB) (x : Cita.t) :
  In x (cita_tbl (durable db (run (eliminar_paciente c) db))) ->
  In x (cita_tbl db).
Proof.
  handler. destruct (find _ _) as [p |]; cbn; [ | easy].
  unfold delete_paciente, bind, get_rows, set_rows, ret; cbn -[sin_ids].
  rewrite for_each_delete_cita. cbn -[sin_ids].
  unfold sin_ids. intros Hx. apply filter_In in Hx. tauto.
Qed.

Lemma citas_citas_incl (ob : OrderBy) (req : Request FormCita) (db : DB) (x : Cita.t) :
  order_by_ok ob ->
  In x (cita_tbl (durable db (run (citas ob req) db))) ->
  In x (cita_tbl db) \/
  exists f fecha, req = POST f /\
                  strptime_datetime (form_fecha_cita f) = Some fecha /\
                  x = nueva_cita db f fecha.
Proof.
  intros Hob. destruct req as [| f]; [now left | ].
  destruct (strptime_datetime (form_fecha_cita f)) as [fecha |] eqn:Hf.
  - destruct (find (fun p => String.eqb (Paciente.cedula p) (form_paciente_cedula f))
                   (paciente_tbl db)) as [q |] eqn:E.
    + assert (Hpac : has_cedula db (form_paciente_cedula f)).
      { apply find_cedula_in in E. exists q. exact E. }
      unfold run. rewrite (citas_run ob db f fecha Hob Hpac Hf).
      assert (Hins : In x (cita_tbl (inserted db f fecha)) ->
                     In x (cita_tbl db) \/
                     exists g fecha', POST f = POST g /\
                       strptime_datetime (form_fecha_cita g) = Some fecha' /\
                       x = nueva_cita db g fecha').
      { cbn. intros Hx. apply in_app_or in Hx.
        destruct Hx as [Hx | [<- | []]]; [now left | ].
        right. exists f, fecha. repeat split. exact Hf. }
      destruct (20 <? _)%nat; cbn [snd durable commits last]; intros Hx.
      * apply Hins. unfold trimmed, sin_ids in Hx. cbn [cita_tbl] in Hx.
        apply filter_In in Hx. tauto.
      * now apply Hins.
    + handler. rewrite Hf. cbn. rewrite E. now left.
  - handler. rewrite Hf. now left.
Qed.

(** X16: no appointment is ever stored at a time of day that does not
    exist.  From a database in which every [fecha_cita] has an hour from
    0 to 23 and a minute from 0 to 59, as in the empty one, whatever
    requests are served, with whatever texts in their forms (digits of
    any script included), the same holds of the database they leave: the
    pattern of ['%Y-%m-%dT%H:%M'] lets no other hour or minute through to
    the row that [citas] stores, and no other handler writes a
    [fecha_cita]. *)
Theorem servir_keeps_times (ob : OrderBy) (pets : list Peticion) (db : DB) :
  order_by_ok ob ->
  (forall x, In x (cita_tbl db) ->
             0 <= dt_hour (Cita.fecha_cita x) <= 23 /\
             0 <= dt_minute (Cita.fecha_cita x) <= 59) ->
  forall x, In x (cita_tbl (servir ob pets db)) ->
            0 <= dt_hour (Cita.fecha_cita x) <= 23 /\
            0 <= dt_minute (Cita.fecha_cita x) <= 59.
Proof.
  intros Hob. revert db. induction pets as [| pet pets IH]; intros db Hdb; [exact Hdb | ].
  cbn [servir fold_left]. apply IH. intros x Hx.
  destruct pet as [| req | req | | c req | c]; cbn [atender] in Hx.
  - now apply Hdb.
  - rewrite registrar_citas_unchanged in Hx. now apply Hdb.
  - apply (citas_citas_incl ob req db x Hob) in Hx.
    destruct Hx as [Hx | (f & fecha & _ & Hf & ->)]; [now apply Hdb | ].
    cbn [nueva_cita Cita.fecha_cita]. exact (strptime_datetime_time _ _ Hf).
  - now apply Hdb.
  - rewrite modificar_citas_unchanged in Hx. now apply Hdb.
  - apply eliminar_citas_incl in Hx. now apply Hdb.
Qed.

(** X16 on an example: an appointment at 23:59, the last digit written
    U+0669, and one the pattern refuses, at 24:00. *)
Lemma servir_keeps_times_witness :
  let pets :=
    [Registrar (POST (mk_form_paciente "Ana" "V123" "1990-05-20"));
     Citas (POST (mk_form_cita "V123" ("2024-01-10T23:5" ++ nueve_arabe) "Checkup"));
     Citas (POST (mk_form_cita "V123" "2024-01-10T24:00" "Checkup"))] in
  Forall (fun x => 0 <= dt_hour (Cita.fecha_cita x) <= 23 /\
                   0 <= dt_minute (Cita.fecha_cita x) <= 59)
         (cita_tbl (servir orden_estable pets db_vacia)).
Proof.
  cbv zeta. apply Forall_forall.
  apply (servir_keeps_times orden_estable
           [Registrar (POST (mk_form_paciente "Ana" "V123" "1990-05-20"));
            Citas (POST (mk_form_cita "V123" ("2024-01-10T23:5" ++ nueve_arabe)
                           "Checkup"));
            Citas (POST (mk_form_cita "V123" "2024-01-10T24:00" "Checkup"))]
           db_vacia).
  - apply orden_estable_ok.
  - intros x [].
Defined.

Example servir_stores_2359 :
  map Cita.fecha_cita
      (cita_tbl (servir orden_estable
         [Registrar (POST (mk_form_paciente "Ana" "V123" "1990-05-20"));
          Citas (POST (mk_form_cita "V123" ("2024-01-10T23:5" ++ nueve_arabe) "Checkup"));
          Citas (POST (mk_form_cita "V123" "2024-01-10T24:00" "Checkup"))]
         db_vacia))
  = [mk_datetime 2024 1 10 23 59].
Proof. vm_compute. reflexivity. Qed.

(** ** The date and time of an appointment, from the form to the table *)

Lemma hd_bind {A B} (p : Re A) (k : A -> Re B) (s r : list ascii) (a : A)
      (tl : list (A * list ascii)) (v : B * list ascii) :
  p s = (a, r) :: tl -> hd_error (k a r) = Some v ->
  hd_error (re_bind p k s) = Some v.
Proof.
  intros Hp Hk. unfold re_bind. rewrite Hp. cbn [flat_map].
  destruct (k a r); [discriminate | exact Hk].
Qed.

Lemma re_lit_hit (c : ascii) (r : list ascii) : re_lit c (c :: r) = [(tt, r)].
Proof. unfold re_lit. now rewrite Ascii.eqb_refl. Qed.

Lemma in_range0 (n : nat) (k : Z) :
  0 <= k < Z.of_nat n -> In k (map Z.of_nat (seq 0 n)).
Proof.
  intros H. apply in_map_iff. exists (Z.to_nat k).
  split; [lia | apply in_seq; lia].
Qed.

Lemma re_m_pad2 (r : list ascii) :
  Forall (fun m => exists tl, re_m (pad2 m ++ r) = (m, r) :: tl) meses.
Proof.
  unfold meses. cbn [map seq].
  repeat (apply Forall_cons; [eexists; cbv; reflexivity | ]). apply Forall_nil.
Qed.

Lemma re_d_pad2 (r : list ascii) :
  Forall (fun d => exists tl, re_d (pad2 d ++ r) = (d, r) :: tl) dias.
Proof.
  unfold dias. cbn [map seq].
  repeat (apply Forall_cons; [eexists; cbv; reflexivity | ]). apply Forall_nil.
Qed.

Lemma re_H_pad2 (r : list ascii) :
  Forall (fun h => exists tl, re_H (pad2 h ++ r) = (h, r) :: tl) horas.
Proof.
  unfold horas. cbn [map seq].
  repeat (apply Forall_cons; [eexists; cbv; reflexivity | ]). apply Forall_nil.
Qed.

Lemma re_M_pad2 (r : list ascii) :
  Forall (fun mi => exists tl, re_M (pad2 mi ++ r) = (mi, r) :: tl) minutos.
Proof.
  unfold minutos. cbn [map seq].
  repeat (apply Forall_cons; [eexists; cbv; reflexivity | ]). apply Forall_nil.
Qed.

Lemma valid_datetime_bounds (t : datetime) :
  valid_datetime t = true ->
  valid_date (dt_year t) (dt_month t) (dt_day t) = true /\
  0 <= dt_hour t <= 23 /\ 0 <= dt_minute t <= 59.
Proof.
  unfold valid_datetime. rewrite !andb_true_iff, !Z.leb_le. tauto.
Qed.

(** [strptime] reads the text of a date and time as that date and time. *)
Lemma strptime_texto_fecha_hora (t : datetime) :
  valid_datetime t = true ->
  strptime_datetime (texto_fecha_hora t) = Some t.
Proof.
  intros Hv. apply valid_datetime_bounds in Hv. destruct Hv as [Hv [Hh Hmi]].
  destruct t as [y m d h mi]. cbn [dt_year dt_month dt_day dt_hour dt_minute] in *.
  destruct (valid_date_bounds _ _ _ Hv) as [Hy [Hm Hd]].
  assert (Hhd : hd_error (re_fecha_hora
                  (pad4 y ++ "-"%char :: pad2 m ++ "-"%char :: pad2 d ++
                   "T"%char :: pad2 h ++ ":"%char :: pad2 mi))
                = Some ((y, m, d, h, mi), [])).
  { unfold re_fecha_hora.
    eapply hd_bind; [apply re_Y_pad4; lia | ].
    eapply hd_bind; [apply re_lit_hit | ].
    pose proof (re_m_pad2 ("-"%char :: pad2 d ++ "T"%char :: pad2 h ++ ":"%char :: pad2 mi))
      as Fm. rewrite Forall_forall in Fm.
    destruct (Fm m (in_range 12 m Hm)) as [tlm Em].
    eapply hd_bind; [exact Em | ].
    eapply hd_bind; [apply re_lit_hit | ].
    pose proof (re_d_pad2 ("T"%char :: pad2 h ++ ":"%char :: pad2 mi)) as Fd.
    rewrite Forall_forall in Fd.
    destruct (Fd d (in_range 31 d Hd)) as [tld Ed].
    eapply hd_bind; [exact Ed | ].
    eapply hd_bind; [apply re_lit_hit | ].
    pose proof (re_H_pad2 (":"%char :: pad2 mi)) as Fh. rewrite Forall_forall in Fh.
    destruct (Fh h (in_range0 24 h ltac:(lia))) as [tlh Eh].
    eapply hd_bind; [exact Eh | ].
    eapply hd_bind; [apply re_lit_hit | ].
    pose proof (re_M_pad2 []) as FM. rewrite Forall_forall in FM.
    destruct (FM mi (in_range0 60 mi ltac:(lia))) as [tlM EM].
    rewrite app_nil_r in EM.
    eapply hd_bind; [exact EM | ]. reflexivity. }
  unfold strptime_datetime, re_match, texto_fecha_hora.
  cbn [dt_year dt_month dt_day dt_hour dt_minute].
  rewrite list_ascii_of_string_of_list_ascii.
  destruct (re_fecha_hora _) as [| [a r] tl]; [discriminate | ].
  cbn in Hhd. injection Hhd as -> ->. now rewrite Hv.
Qed.

(** X17: the date and time of an appointment survive the form.  For
    every date and time [t] that exists, the text [YYYY-MM-DDTHH:MM] of
    [t] is read by [strptime] as [t], and a POST to [/citas] with that
    text for a stored patient first commits the table with one row
    appended whose [fecha_cita] is [t] and whose reason and identifier are
    those of the form; with fewer than 20 appointments stored before, that
    row is in the table the request leaves. *)
Theorem citas_datetime_round_trip
  (ob : OrderBy) (db : DB) (c m : string) (t : datetime) :
  order_by_ok ob ->
  valid_datetime t = true ->
  has_cedula db c ->
  let f := mk_form_cita c (texto_fecha_hora t) m in
  let s := run (citas ob (POST f)) db in
  strptime_datetime (texto_fecha_hora t) = Some t /\
  reported s = [] /\
  exists x,
    hd_error (commits s) = Some (mk_db (paciente_tbl db) (cita_tbl db ++ [x])) /\
    Cita.fecha_cita x = t /\ Cita.motivo x = m /\ Cita.paciente_cedula x = c /\
    ((List.length (cita_tbl db) < 20)%nat -> In x (cita_tbl (durable db s))).
Proof.
  intros Hob Hv Hpac f s.
  pose proof (strptime_texto_fecha_hora t Hv) as Hparse.
  split; [exact Hparse | ].
  subst s. unfold run. rewrite (citas_run ob db f t Hob Hpac Hparse).
  destruct (Nat.ltb_spec 20 (List.length (cita_tbl (inserted db f t)))) as [L | L];
    cbn [snd reported flashes flat_map failure_of app commits hd_error durable last].
  - split; [reflexivity | ]. exists (nueva_cita db f t).
    repeat split. intros Hlen. cbn in L. rewrite length_app in L. cbn in L. lia.
  - split; [reflexivity | ]. exists (nueva_cita db f t).
    repeat split. intros _. cbn. apply in_or_app. right. now left.
Qed.

(** X17 on an example: a quarter to five on the 1st of February 2024. *)
Lemma citas_datetime_round_trip_witness :
  let t := mk_datetime 2024 2 1 16 45 in
  let f := mk_form_cita "V456" "2024-02-01T16:45" "Control" in
  let s := run (citas orden_estable (POST f)) db_ana_bob in
  strptime_datetime "2024-02-01T16:45" = Some t /\
  reported s = [] /\
  exists x,
    hd_error (commits s)
      = Some (mk_db (paciente_tbl db_ana_bob) (cita_tbl db_ana_bob ++ [x])) /\
    Cita.fecha_cita x = t /\ Cita.motivo x = "Control" /\
    Cita.paciente_cedula x = "V456" /\
    ((List.length (cita_tbl db_ana_bob) < 20)%nat ->
     In x (cita_tbl (durable db_ana_bob s))).
Proof.
  apply (citas_datetime_round_trip orden_estable db_ana_bob "V456" "Control"
           (mk_datetime 2024 2 1 16 45)).
  - apply orden_estable_ok.
  - reflexivity.
  - exists bob. split; [right; now left | reflexivity].
Defined.

(** ** An appointment that is not the earliest *)

(** X18: with 20 appointments stored, a new appointment later than at
    least one of them is kept.  The request then leaves 20 appointments,
    the new one among them, and the one it deleted is a stored
    appointment that is no later than any that remains. *)
Theorem citas_later_is_kept
  (ob : OrderBy) (db : DB) (f : FormCita) (fecha : datetime) (y : Cita.t) :
  order_by_ok ob -> db_ok db ->
  has_cedula db (form_paciente_cedula f) ->
  strptime_datetime (form_fecha_cita f) = Some fecha ->
  List.length (cita_tbl db) = 20%nat ->
  In y (cita_tbl db) -> datetime_ltb (Cita.fecha_cita y) fecha = true ->
  let s := run (citas ob (POST f)) db in
  let queda := cita_tbl (durable db s) in
  In (nueva_cita db f fecha) queda /\
  List.length queda = 20%nat /\
  exists e, In e (cita_tbl db) /\ ~ In e queda /\
            Permutation (cita_tbl db ++ [nueva_cita db f fecha]) (e :: queda) /\
            forall r, In r queda -> cita_leb e r = true.
Proof.
  intros Hob Hok Hpac Hfecha Hlen Hy Hlt s queda.
  set (nueva := nueva_cita db f fecha).
  set (antes := cita_tbl (inserted db f fecha)).
  assert (Hn : List.length antes = 21%nat)
    by (subst antes; cbn; rewrite length_app, Hlen; reflexivity).
  assert (ND : NoDup (map Cita.id antes)) by (apply inserted_pk, Hok).
  assert (Hq : queda = sin_ids (firstn 1 (ob antes)) antes).
  { subst queda s. unfold run. rewrite (citas_run ob db f fecha Hob Hpac Hfecha).
    fold antes. rewrite Hn. cbn [Nat.ltb Nat.leb snd durable commits last].
    unfold trimmed. cbn [cita_tbl]. fold antes. now rewrite Hn. }
  destruct (trim_spec antes (ob antes) 1 ND) as [T1 [T2 T3]];
    [apply Hob | apply Hob | ].
  rewrite <- Hq in T1, T2, T3. clearbody queda.
  assert (HL : List.length (ob antes) = 21%nat)
    by (rewrite <- (Permutation_length (order_by_perm ob Hob antes)); exact Hn).
  destruct (ob antes) as [| e rest] eqn:Eob; [discriminate | ].
  cbn [firstn app] in T1, T3. cbn [skipn] in T2.
  assert (Hnueva : In nueva antes)
    by (subst antes; cbn; apply in_or_app; right; now left).
  assert (Hyin : In y antes)
    by (subst antes; cbn; apply in_or_app; now left).
  assert (Hne : e <> nueva).
  { intros ->. pose proof (Permutation_in _ T1 Hyin) as [Ey | Hk].
    - rewrite <- Ey in Hlt. cbn in Hlt. now rewrite datetime_ltb_irrefl in Hlt.
    - apply (datetime_leb_ltb_absurd fecha (Cita.fecha_cita y)); [ | exact Hlt].
      apply (T3 nueva y); [now left | exact Hk]. }
  split; [ | split].
  - pose proof (Permutation_in _ T1 Hnueva) as [E | Hk]; [contradiction | exact Hk].
  - rewrite (Permutation_length T2). apply Permutation_length in T1.
    cbn in HL. lia.
  - exists e. split; [ | split; [ | split]].
    + assert (He : In e antes)
        by (eapply Permutation_in; [symmetry; exact T1 | now left]).
      subst antes. cbn in He. apply in_app_or in He.
      destruct He as [He | [E | []]]; [exact He | now contradiction Hne].
    + assert (NDr : NoDup (e :: queda)).
      { eapply Permutation_NoDup; [exact T1 | ]. now apply NoDup_map_inv in ND. }
      now inversion NDr.
    + exact T1.
    + intros r Hr. apply T3; [now left | exact Hr].
Qed.

(** X18 on an example: a 21st appointment on the 5th of March, later than
    the one of the 1st. *)
Lemma citas_later_is_kept_witness :
  let f := mk_form_cita "V456" "2024-03-05T08:00" "Control" in
  let fecha := mk_datetime 2024 3 5 8 0 in
  let s := run (citas orden_estable (POST f)) db_lleno in
  let queda := cita_tbl (durable db_lleno s) in
  In (nueva_cita db_lleno f fecha) queda /\
  List.length queda = 20%nat /\
  exists e, In e (cita_tbl db_lleno) /\ ~ In e queda /\
            Permutation (cita_tbl db_lleno ++ [nueva_cita db_lleno f fecha])
                        (e :: queda) /\
            forall r, In r queda -> cita_leb e r = true.
Proof.
  apply (citas_later_is_kept orden_estable db_lleno
           (mk_form_cita "V456" "2024-03-05T08:00" "Control")
           (mk_datetime 2024 3 5 8 0)
           (Cita.mk 1 (mk_datetime 2024 3 1 10 30) "Control" "V123")).
  - apply orden_estable_ok.
  - apply db_lleno_ok.
  - exists bob. split; [right; now left | reflexivity].
  - reflexivity.
  - reflexivity.
  - now left.
  - reflexivity.
Defined.

(** ** Dates written with digits of other scripts *)

(** [\d] takes a decimal digit of any script, the classes [[0-9]] of the
    month do not. *)
Example strptime_other_digits :
  strptime_date ("199" ++ cero_arabe ++ "-05-20") = Some (mk_date 1990 5 20) /\
  strptime_date ("1990-05-2" ++ cero_arabe) = Some (mk_date 1990 5 20) /\
  strptime_date ("1990-0" ++ cinco_arabe ++ "-20") = None /\
  strptime_datetime ("2024-01-10T23:5" ++ nueve_arabe)
  = Some (mk_datetime 2024 1 10 23 59) /\
  strptime_datetime ("2024-01-10T" ++ nueve_arabe ++ ":5")
  = Some (mk_datetime 2024 1 10 9 5).
Proof. repeat split; vm_compute; reflexivity. Qed.

(** A year whose last digit is U+0660 is a year: the identifier of Ana is
    then reported as taken, and an update with that date goes through. *)
Example registrar_other_digits :
  reported (run (registrar (POST (mk_form_paciente "Bob" "V123"
                                    ("199" ++ cero_arabe ++ "-05-20")))) db_ana)
  = [DuplicateIdentifier] /\
  flashes (run (modificar_paciente "V123"
                  (POST (mk_form_paciente "Ana" "V123"
                           ("199" ++ cero_arabe ++ "-05-20")))) db_ana_bob)
  = [PacienteModificado].
Proof. split; vm_compute; reflexivity. Qed.
